(** * Model order reduction pipeline: [mor/reduction/reduceModel.py]

    A shallow embedding of the orchestration code of the SOFA
    ModelOrderReduction plugin (classes [ObjToAnimate],
    [ReductionAnimations], [PackageBuilder], [ReductionParam] and
    [ReduceModel]) together with the properties its specification states
    about it.

    The module is Python 2 code (it uses the [print] statement), hence:
    - [/] between two integers is floor division;
    - [print(x),] writes [x] without a newline;
    - text files are read without newline translation.

    Modelling conventions:
    - Python integers are [Z]; the parameters stored in
      [ObjToAnimate.params] are taken to be numbers, integers as in the
      examples of the class documentation or floats; a finite Python float
      is represented by the exact rational value of the double;
    - exceptions are values of [exn], carried by the [result] monad;
    - the file system is a finite map from paths to file contents;
      directories are not represented, and what is printed on the standard
      output is not recorded;
    - [slash] is ['/'] (the platform is not Windows);
    - library functions whose behaviour the code does not depend on
      ([os.path.normpath], [os.path.isdir] on the package library) are
      section variables. *)

From Stdlib Require Import ZArith QArith Qround Qabs Lia Ascii DecimalString.
From stdpp Require Import base option list strings gmap sorting.

Local Close Scope Q_scope.
Local Open Scope Z_scope.

(** ** Exceptions and the error monad *)

Inductive exn : Type :=
  | IOError            (* missing file; MissingArtifactError of the spec *)
  | OSError
  | ValueError         (* ConfigurationError of the spec *)
  | TypeError
  | IndexError
  | KeyError
  | ZeroDivisionError
  | OverflowError
  | PackageExistsError (* the bare [Exception] raised by [PackageBuilder] *).

Inductive result (A : Type) : Type :=
  | Ok (a : A)
  | Raise (e : exn).
Arguments Ok {A} a.
Arguments Raise {A} e.

#[global] Instance exn_eq_dec : EqDecision exn.
Proof. solve_decision. Defined.

#[global] Instance result_ret : MRet result := @Ok.
#[global] Instance result_bind : MBind result := fun A B f r =>
  match r with
  | Ok a => f a
  | Raise e => Raise e
  end.

Definition raises {A} (r : result A) : Prop := ∃ e, r = Raise e.

(** A [for] loop whose body may raise. *)
Fixpoint foldM {A S : Type} (body : S → A → result S) (s : S) (l : list A)
  : result S :=
  match l with
  | [] => Ok s
  | x :: l' => s' ← body s x; foldM body s' l'
  end.

(** ** Python primitives *)

Module Py.

Definition slash : string := "/".
Definition newline : string := String "010"%char "".

(** [range(n)] *)
Definition range (n : Z) : list Z := seqZ 0 n.

(** [len(l)] *)
Definition len {A} (l : list A) : Z := Z.of_nat (length l).

(** [l[i]] for reading: negative indices count from the end, anything out
    of range raises [IndexError]. *)
Definition getitem {A} (l : list A) (i : Z) : result A :=
  let k := if i <? 0 then i + len l else i in
  if (0 <=? k) && (k <? len l)
  then match l !! Z.to_nat k with Some x => Ok x | None => Raise IndexError end
  else Raise IndexError.

(** [l[i] = v] *)
Definition setitem {A} (l : list A) (i : Z) (v : A) : result (list A) :=
  let k := if i <? 0 then i + len l else i in
  if (0 <=? k) && (k <? len l)
  then Ok (<[Z.to_nat k := v]> l)
  else Raise IndexError.

(** [sum(l)] *)
Definition sum (l : list Z) : Z := foldr Z.add 0 l.

(** [a / b] on two Python 2 integers *)
Definition div (a b : Z) : result Z :=
  if b =? 0 then Raise ZeroDivisionError else Ok (a `div` b).

(** [d[k]] on a dictionary *)
Definition dict_get {V} (d : gmap string V) (k : string) : result V :=
  match d !! k with Some v => Ok v | None => Raise KeyError end.

(** [k in d] *)
Definition dict_has {V} (d : gmap string V) (k : string) : bool :=
  bool_decide (is_Some (d !! k)).

(** *** Strings *)

Fixpoint chars (s : string) : list ascii :=
  match s with
  | EmptyString => []
  | String c r => c :: chars r
  end.

Fixpoint concat (l : list string) : string :=
  match l with
  | [] => ""
  | s :: r => s +:+ concat r
  end.

(** [s.find(sub)]: the lowest index where [sub] occurs, or [-1]. *)
Fixpoint find_from (i : Z) (sub s : string) : Z :=
  if String.prefix sub s then i
  else match s with
       | EmptyString => -1
       | String _ r => find_from (i + 1) sub r
       end.
Definition find (s sub : string) : Z := find_from 0 sub s.

(** [s.split(sep)] for a one-character separator: never empty. *)
Fixpoint split (sep : ascii) (s : string) : list string :=
  match s with
  | EmptyString => [""]
  | String c r =>
      if bool_decide (c = sep) then "" :: split sep r
      else match split sep r with
           | w :: ws => String c w :: ws
           | [] => [String c ""]
           end
  end.

(** [s.split()]: maximal runs of non-blank characters. *)
Definition split_ws (s : string) : list string := String.words s.

(** [s.strip()] *)
Fixpoint lstrip (s : string) : string :=
  match s with
  | String c r => if Ascii.is_space c then lstrip r else s
  | EmptyString => ""
  end.
Definition strip (s : string) : string :=
  String.rev (lstrip (String.rev (lstrip s))).

(** The lines of a file as the file iterator yields them: each keeps its
    terminating newline, the last one may lack it. *)
Fixpoint readlines (s : string) : list string :=
  match s with
  | EmptyString => []
  | String c r =>
      if bool_decide (c = "010"%char) then String c "" :: readlines r
      else match readlines r with
           | l :: ls => String c l :: ls
           | [] => [String c ""]
           end
  end.

(** [f.readline()]: the first line, or the empty string at end of file. *)
Definition readline (s : string) : string :=
  match readlines s with
  | l :: _ => l
  | [] => ""
  end.

(** [str(n)] on an integer *)
Definition str (n : Z) : string := NilZero.string_of_int (Z.to_int n).

(** [int(s)] on a string: blanks around an optionally signed, non-empty
    run of decimal digits. *)
Fixpoint digits_from (acc : Z) (s : string) : option Z :=
  match s with
  | EmptyString => Some acc
  | String c r =>
      match Ascii.is_nat c with
      | Some d => digits_from (10 * acc + Z.of_nat d) r
      | None => None
      end
  end.
Definition digits (s : string) : option Z :=
  match s with
  | EmptyString => None
  | _ => digits_from 0 s
  end.
Definition int (s : string) : result Z :=
  let parsed :=
    match strip s with
    | String "+"%char r => digits r
    | String "-"%char r => Z.opp <$> digits r
    | t => digits t
    end in
  match parsed with
  | Some z => Ok z
  | None => Raise ValueError
  end.

(** ["{0:b}".format(i)] for [i >= 0] *)
Fixpoint bin_pos (p : positive) : string :=
  match p with
  | xH => "1"
  | xO q => bin_pos q +:+ "0"
  | xI q => bin_pos q +:+ "1"
  end.
Definition format_b (i : Z) : string :=
  match i with
  | Zpos p => bin_pos p
  | Z0 => "0"
  | Zneg p => "-" +:+ bin_pos p
  end.

(** *** Numbers *)

(** An integer or a float.  A finite float is given by its exact value; the
    sign of a zero, which no operation below lets one observe, is not
    kept. *)
Inductive number : Type :=
  | PyInt (z : Z)
  | PyFloat (q : Q)
  | PyInf (negative : bool)
  | PyNaN.

(** Truth value of a number: non-zero. *)
Definition truthy (x : number) : bool :=
  match x with
  | PyInt z => negb (z =? 0)
  | PyFloat q => negb (Qeq_bool q 0)
  | PyInf _ | PyNaN => true
  end.

(** [float(z)] as an integer: the double nearest to [z] (ties to even),
    [OverflowError] beyond the range of doubles. *)
Definition double_of_int (z : Z) : result Z :=
  let a := Z.abs z in
  if a <? 2 ^ 53 then Ok z
  else
    let e := Z.log2 a - 52 in
    let q := Z.shiftr a e in
    let r := Z.land a (Z.ones e) in
    let half := Z.shiftl 1 (e - 1) in
    let q' := if (half <? r) || ((r =? half) && Z.odd q) then q + 1 else q in
    let m := Z.shiftl q' e in
    if 2 ^ 1024 <=? m then Raise OverflowError else Ok (Z.sgn z * m).

(** The integer nearest to [q], ties to even. *)
Definition round_half_even (q : Q) : Z :=
  let f := Qfloor q in
  match Qcompare (q - inject_Z f)%Q (1 # 2)%Q with
  | Lt => f
  | Gt => f + 1
  | Eq => if Z.even f then f else f + 1
  end.

(** The result of a float operation whose exact value is [q]: the double
    nearest to [q] (ties to even, 53 bits, exponents down to [-1074]), an
    infinity from [2 ^ 1024] on. *)
Definition round_double (q : Q) : number :=
  if Qeq_bool q 0 then PyFloat 0
  else
    let a := Qabs q in
    let e0 := Z.log2 (Qnum a) - Z.log2 (Zpos (Qden a)) in
    let e := if Qle_bool (Qpower 2 e0) a then e0 else e0 - 1 in
    let u := Z.max (e - 52) (-1074) in
    let m := round_half_even (a / Qpower 2 u)%Q in
    let r := (inject_Z m * Qpower 2 u)%Q in
    if Qle_bool (Qpower 2 1024) r then PyInf (negb (Qle_bool 0 q))
    else PyFloat (Qred (if Qle_bool 0 q then r else - r)%Q).

Definition is_negative (q : Q) : bool := negb (Qle_bool 0 q).

(** The float that an operand of a float operation is converted to. *)
Definition to_float (x : number) : result number :=
  match x with
  | PyInt z => d ← double_of_int z; Ok (PyFloat (inject_Z d))
  | _ => Ok x
  end.

Definition float_neg (x : number) : number :=
  match x with
  | PyInt z => PyInt (- z)
  | PyFloat q => PyFloat (Qred (- q)%Q)
  | PyInf s => PyInf (negb s)
  | PyNaN => PyNaN
  end.

Definition float_add (x y : number) : number :=
  match x, y with
  | PyFloat a, PyFloat b => round_double (a + b)%Q
  | PyInf s, PyInf s' => if Bool.eqb s s' then PyInf s else PyNaN
  | PyInf s, PyFloat _ => PyInf s
  | PyFloat _, PyInf s => PyInf s
  | _, _ => PyNaN
  end.

Definition float_mul (x y : number) : number :=
  match x, y with
  | PyFloat a, PyFloat b => round_double (a * b)%Q
  | PyInf s, PyInf s' => PyInf (xorb s s')
  | PyInf s, PyFloat b | PyFloat b, PyInf s =>
      if Qeq_bool b 0 then PyNaN else PyInf (xorb s (is_negative b))
  | _, _ => PyNaN
  end.

(** Division of floats: a zero divisor raises, whatever the dividend. *)
Definition float_div (x y : number) : result number :=
  match y with
  | PyFloat b =>
      if Qeq_bool b 0 then Raise ZeroDivisionError
      else match x with
           | PyFloat a => Ok (round_double (a / b)%Q)
           | PyInf s => Ok (PyInf (xorb s (is_negative b)))
           | _ => Ok PyNaN
           end
  | PyInf _ =>
      match x with
      | PyFloat _ => Ok (PyFloat 0)
      | _ => Ok PyNaN
      end
  | _ => Ok PyNaN
  end.

(** [x + y], [x - y], [x * y]: exact on two integers; otherwise the
    operands are converted to floats, which raises [OverflowError] for an
    integer beyond the range of doubles. *)
Definition add (x y : number) : result number :=
  match x, y with
  | PyInt a, PyInt b => Ok (PyInt (a + b))
  | _, _ => a ← to_float x; b ← to_float y; Ok (float_add a b)
  end.
Definition sub (x y : number) : result number :=
  match x, y with
  | PyInt a, PyInt b => Ok (PyInt (a - b))
  | _, _ => a ← to_float x; b ← to_float y; Ok (float_add a (float_neg b))
  end.
Definition mul (x y : number) : result number :=
  match x, y with
  | PyInt a, PyInt b => Ok (PyInt (a * b))
  | _, _ => a ← to_float x; b ← to_float y; Ok (float_mul a b)
  end.

(** [x / y] in Python 2: floor division on two integers, division of floats
    otherwise. *)
Definition classic_div (x y : number) : result number :=
  match x, y with
  | PyInt a, PyInt b => q ← div a b; Ok (PyInt q)
  | _, _ => a ← to_float x; b ← to_float y; float_div a b
  end.

(** [x > y]; an integer and a float are compared by their exact values. *)
Definition gt (x y : number) : bool :=
  match x, y with
  | PyInt a, PyInt b => b <? a
  | PyNaN, _ | _, PyNaN => false
  | PyInf s, PyInf s' => negb s && s'
  | PyInf s, _ => negb s
  | _, PyInf s => s
  | PyInt a, PyFloat q => negb (Qle_bool (inject_Z a) q)
  | PyFloat q, PyInt b => negb (Qle_bool q (inject_Z b))
  | PyFloat p, PyFloat q => negb (Qle_bool p q)
  end.

(** [int(x)]: a float is cut towards zero. *)
Definition truncate (q : Q) : Z :=
  if Qle_bool 0 q then Qfloor q else Qceiling q.
Definition to_int (x : number) : result Z :=
  match x with
  | PyInt z => Ok z
  | PyFloat q => Ok (truncate q)
  | PyInf _ => Raise OverflowError
  | PyNaN => Raise ValueError
  end.

(** [int(math.ceil(x))] *)
Definition int_ceil (x : number) : result Z :=
  match x with
  | PyInt z => double_of_int z
  | PyFloat q => Ok (Qceiling q)
  | PyInf _ => Raise OverflowError
  | PyNaN => Raise ValueError
  end.

End Py.

(** ** [class ObjToAnimate] *)

(** The [item] attribute is [None] at construction and only set while a scene
    runs; it is left out. *)
Record ObjToAnimate : Type := mkObjToAnimate {
  location : string;
  animFct : string;
  duration : Z;
  params : gmap string Py.number;
}.

(** [ObjToAnimate(location, animFct, **params)] with [animFct] a string *)
Definition ObjToAnimate_init (location animFct : string)
    (params : gmap string Py.number) : ObjToAnimate :=
  {| location := location;
     animFct := "animation.shakingAnimations." +:+ animFct;
     duration := -1;
     params := params |}.

(** ** [class ReductionAnimations] *)

Record ReductionAnimations : Type := mkReductionAnimations {
  listObjToAnimate : list ObjToAnimate;
  listOfLocation : list string;
  nbActuator : Z;
  nbPossibility : Z;
  nbIterations : Z;
  phaseNumClass : option (list (list Z));
}.

Definition set_nbIterations (self : ReductionAnimations) (n : Z)
  : ReductionAnimations :=
  {| listObjToAnimate := listObjToAnimate self;
     listOfLocation := listOfLocation self;
     nbActuator := nbActuator self;
     nbPossibility := nbPossibility self;
     nbIterations := n;
     phaseNumClass := phaseNumClass self |}.

Definition set_phaseNumClass (self : ReductionAnimations)
    (c : option (list (list Z))) : ReductionAnimations :=
  {| listObjToAnimate := listObjToAnimate self;
     listOfLocation := listOfLocation self;
     nbActuator := nbActuator self;
     nbPossibility := nbPossibility self;
     nbIterations := nbIterations self;
     phaseNumClass := c |}.

(** The value [tmp] that [setNbIteration] computes for one actuator:
    [((rangeOfAction / incr) - 1) * incrPeriod + 2 * incrPeriod - 1]. *)
Definition iterationsOf (obj : ObjToAnimate) : result Py.number :=
  if Py.dict_has (params obj) "incr" && Py.dict_has (params obj) "incrPeriod"
  then
    rangeOfAction ← Py.dict_get (params obj) "rangeOfAction";
    incr ← Py.dict_get (params obj) "incr";
    q ← Py.classic_div rangeOfAction incr;
    q1 ← Py.sub q (Py.PyInt 1);
    incrPeriod ← Py.dict_get (params obj) "incrPeriod";
    ramp ← Py.mul q1 incrPeriod;
    incrPeriod' ← Py.dict_get (params obj) "incrPeriod";
    twice ← Py.mul (Py.PyInt 2) incrPeriod';
    total ← Py.add ramp twice;
    Py.sub total (Py.PyInt 1)
  else Ok (Py.PyInt 0).

(** The body of the loop of [setNbIteration]: the budget is raised to the
    value of the actuator when that is larger. *)
Definition raiseNbIterations (self : ReductionAnimations) (obj : ObjToAnimate)
  : result ReductionAnimations :=
  tmp ← iterationsOf obj;
  if Py.gt tmp (Py.PyInt (nbIterations self)) then
    n ← Py.int_ceil tmp; Ok (set_nbIterations self n)
  else Ok self.

(** [ReductionAnimations.setNbIteration(nbIterations=None)]; the argument is
    used when it is given and is not zero. *)
Definition setNbIteration (self : ReductionAnimations)
    (nbIterations_arg : option Py.number) : result ReductionAnimations :=
  match nbIterations_arg with
  | Some x =>
      if Py.truthy x then
        n ← Py.int_ceil x; Ok (set_nbIterations self n)
      else foldM raiseNbIterations self (listObjToAnimate self)
  | None => foldM raiseNbIterations self (listObjToAnimate self)
  end.

(** The inner loop of [generateListOfPhase]:
    [for j in range(len(binVal)):
         row[j + nbActuator - len(binVal)] = int(binVal[j])] *)
Definition fillPhase (nbActuator : Z) (binVal : string) (row : list Z)
  : result (list Z) :=
  foldM (fun row j =>
           c ← Py.getitem (Py.chars binVal) j;
           bit ← Py.int (String c "");
           Py.setitem row (j + nbActuator - Py.len (Py.chars binVal)) bit)
        row (Py.range (Py.len (Py.chars binVal))).

(** The first loop of [generateListOfPhase]: the table [phaseNum]. *)
Definition phaseNumTable (nbPossibility nbActuator : Z)
  : result (list (list Z)) :=
  foldM (fun phaseNum i =>
           row ← Py.getitem phaseNum i;
           row' ← fillPhase nbActuator (Py.format_b i) row;
           Py.setitem phaseNum i row')
        (replicate (Z.to_nat nbPossibility) (replicate (Z.to_nat nbActuator) 0))
        (Py.range nbPossibility).

(** The second loop: rows are appended by increasing sum, and by increasing
    index among those of equal sum. *)
Definition classifyPhases (phaseNum : list (list Z))
    (nbPossibility nbActuator : Z) : result (list (list Z)) :=
  foldM (fun acc nb =>
           foldM (fun acc i =>
                    row ← Py.getitem phaseNum i;
                    if Py.sum row =? nb then Ok (acc ++ [row]) else Ok acc)
                 acc (Py.range nbPossibility))
        [] (Py.range (nbActuator + 1)).

(** [ReductionAnimations.generateListOfPhase(nbPossibility, nbActuator)] *)
Definition generateListOfPhase (self : ReductionAnimations)
    (nbPossibility nbActuator : Z) : result ReductionAnimations :=
  phaseNum ← phaseNumTable nbPossibility nbActuator;
  phaseNumClass ← classifyPhases phaseNum nbPossibility nbActuator;
  Ok (set_phaseNumClass self (Some phaseNumClass)).

(** [ReductionAnimations(listObjToAnimate)] *)
Definition ReductionAnimations_init (listObjToAnimate : list ObjToAnimate)
  : result ReductionAnimations :=
  let self :=
    {| listObjToAnimate := listObjToAnimate;
       listOfLocation := location <$> listObjToAnimate;
       nbActuator := Py.len listObjToAnimate;
       nbPossibility := 2 ^ Py.len listObjToAnimate;
       nbIterations := 0;
       phaseNumClass := None |} in
  self ← setNbIteration self None;
  generateListOfPhase (set_phaseNumClass self None)
    (nbPossibility self) (nbActuator self).

(** ** The file system and the launcher results *)

(** One record of the list returned by [startSofa]. *)
Record SofaResult : Type := mkSofaResult {
  directory : string;
  scene : string;
  elapsed : Q;          (* the key ["duration"] *)
}.

(** ** [class PackageBuilder] *)

Record PackageBuilder : Type := mkPackageBuilder {
  outputDir : string;
  meshes : list string;
  addToLibBool : bool;
  packageName : option string;   (* the attribute is only set when a name is given *)
  dataDir : string;
  debugDir : string;
  meshDir : string;
}.

Section Environment.

(** [os.path.isdir], as the constructor of [PackageBuilder] sees it *)
Variable isdir : string → bool.
(** the module-level [pathToReducedModel] *)
Variable pathToReducedModel : string.

(** [PackageBuilder(outputDir, packageName, addToLib)] *)
Definition PackageBuilder_init (outputDir : string)
    (packageName_arg : option string) (addToLib : bool)
  : result PackageBuilder :=
  name ←
    match packageName_arg with
    | Some n =>
        if bool_decide (n = "") then Ok None
        else
          let name := "reduced_" +:+ n in
          if isdir (pathToReducedModel +:+ name) && addToLib
          then Raise PackageExistsError
          else Ok (Some name)
    | None => Ok None
    end;
  Ok {| outputDir := outputDir;
        meshes := [];
        addToLibBool := addToLib;
        packageName := name;
        dataDir := outputDir +:+ Py.slash +:+ "data" +:+ Py.slash;
        debugDir := outputDir +:+ Py.slash +:+ "debug" +:+ Py.slash;
        meshDir := outputDir +:+ Py.slash +:+ "mesh" +:+ Py.slash |}.

End Environment.

(** [PackageBuilder.checkNodeNbr(modeFileName)].  A missing file is the
    [IOError] that the method catches: it prints a message and goes on with
    [nbrOfModes = -1]. *)
Definition checkNodeNbr (self : PackageBuilder) (fs : gmap string string)
    (modeFileName : string) : result Z :=
  match fs !! (dataDir self +:+ modeFileName) with
  | Some content =>
      let lineSplit := Py.split_ws (Py.strip (Py.readline content)) in
      nbrOfModes ← Py.getitem lineSplit 1;
      Py.int nbrOfModes
  | None => Ok (-1)
  end.

(** The body of the loop of [cleanStateFile] over the lines of the file. *)
Fixpoint cleanLines (periodSaveGIE counter : Z) (lines : list string)
  : list string :=
  match lines with
  | [] => []
  | line :: rest =>
      if negb (Py.find line "T=" =? -1)
      then ("T= " +:+ Py.str (periodSaveGIE * counter) +:+ Py.newline)
           :: cleanLines periodSaveGIE (counter + 1) rest
      else line :: cleanLines periodSaveGIE counter rest
  end.

(** [PackageBuilder.cleanStateFile(periodSaveGIE, stateFileName)].
    [fileinput] with [inplace=True] moves the file to a [.bak] backup
    (replacing an older backup), which fails when the file does not exist,
    redirects the output to a new file of the original name and removes the
    backup at the end. *)
Definition cleanStateFile (self : PackageBuilder) (fs : gmap string string)
    (periodSaveGIE : Z) (stateFileName : string) : result (gmap string string) :=
  let name := debugDir self +:+ stateFileName in
  match fs !! name with
  | Some content =>
      Ok (delete (name +:+ ".bak")
            (<[name := Py.concat (cleanLines periodSaveGIE 1 (Py.readlines content))]> fs))
  | None => Raise OSError
  end.

(** [PackageBuilder.copyFileIntoAnother(fileToCopy, fileToPasteInto)].
    Opening the destination for appending creates it; a missing source is
    the [IOError] that the method catches. *)
Definition copyFileIntoAnother (fs : gmap string string)
    (fileToCopy fileToPasteInto : string) : gmap string string :=
  let fs1 :=
    match fs !! fileToPasteInto with
    | Some _ => fs
    | None => <[fileToPasteInto := ""]> fs
    end in
  match fs1 !! fileToCopy with
  | Some content =>
      <[fileToPasteInto := default "" (fs1 !! fileToPasteInto) +:+ content]> fs1
  | None => fs1
  end.

(** The body of the loop of [copyAndCleanState] over the results: the state
    file of the job is appended to the merged state file, and each of its
    [gie] files to the file of the same name. *)
Definition copyJob (self : PackageBuilder) (stateFileName : string)
    (gieFiles : list string) (fs : gmap string string) (res : SofaResult)
  : gmap string string :=
  let fs := copyFileIntoAnother fs
              (directory res +:+ Py.slash +:+ "stateFile.state")
              (debugDir self +:+ stateFileName) in
  foldl (fun fs fileName =>
           copyFileIntoAnother fs
             (directory res +:+ Py.slash +:+ fileName)
             (debugDir self +:+ fileName))
        fs gieFiles.

(** [PackageBuilder.copyAndCleanState(results, periodSaveGIE, stateFileName, gie)];
    [checkExistance] only creates directories. *)
Definition copyAndCleanState (self : PackageBuilder) (fs : gmap string string)
    (results : list SofaResult) (periodSaveGIE : Z) (stateFileName : string)
    (gie : option (list string)) : result (gmap string string) :=
  let gieFiles := default [] gie in
  let fs := delete (debugDir self +:+ stateFileName) fs in
  let fs := foldl (fun fs fileName => delete (debugDir self +:+ fileName) fs)
                  fs gieFiles in
  let fs := foldl (copyJob self stateFileName gieFiles) fs results in
  cleanStateFile self fs periodSaveGIE stateFileName.

(** ** [class ReductionParam] *)

(** A value stored in one of the parameter dictionaries. *)
Inductive PyVal : Type :=
  | VBool (b : bool)
  | VStr (s : string)
  | VInt (z : Z).

#[global] Instance PyVal_eq_dec : EqDecision PyVal.
Proof. solve_decision. Defined.

(** The dictionary with the keys ['paramForcefield'], ['paramMORMapping'] and
    ['paramMappedMatrixMapping']. *)
Record ParamWrapper : Type := mkParamWrapper {
  paramForcefield : gmap string PyVal;
  paramMORMapping : gmap string PyVal;
  paramMappedMatrixMapping : gmap string PyVal;
}.

Record ReductionParam : Type := mkReductionParam {
  tolModes : Q;
  tolGIE : Q;
  addRigidBodyModes : option (list Z);   (* [None] stands for [False] *)
  rp_dataDir : string;
  dataFolder : string;
  stateFileName : string;
  modesFileName : string;
  gieFilesNames : list string;
  RIDFilesNames : list string;
  weightsFilesNames : list string;
  savedElementsFilesNames : list string;
  listActiveNodesFilesNames : list string;
  massName : string;
  nbrOfModes : Z;
  periodSaveGIE : Z;
  nbTrainingSet : Z;
  paramWrapper : option (string * ParamWrapper);
}.

(** [ReductionParam(tolModes, tolGIE, addRigidBodyModes, dataDir)] *)
Definition ReductionParam_init (tolModes tolGIE : Q)
    (addRigidBodyModes : option (list Z)) (dataDir : string)
  : result ReductionParam :=
  folder ← Py.getitem (Py.split "/" dataDir) (-2);
  Ok {| tolModes := tolModes;
        tolGIE := tolGIE;
        addRigidBodyModes := addRigidBodyModes;
        rp_dataDir := dataDir;
        dataFolder := Py.slash +:+ folder +:+ Py.slash;
        stateFileName := "stateFile.state";
        modesFileName := "modes.txt";
        gieFilesNames := [];
        RIDFilesNames := [];
        weightsFilesNames := [];
        savedElementsFilesNames := [];
        listActiveNodesFilesNames := [];
        massName := "";
        nbrOfModes := -1;
        periodSaveGIE := 6;
        nbTrainingSet := -1;
        paramWrapper := None |}.

Definition set_nbTrainingSet (self : ReductionParam) (n : Z) : ReductionParam :=
  {| tolModes := tolModes self; tolGIE := tolGIE self;
     addRigidBodyModes := addRigidBodyModes self;
     rp_dataDir := rp_dataDir self; dataFolder := dataFolder self;
     stateFileName := stateFileName self; modesFileName := modesFileName self;
     gieFilesNames := gieFilesNames self; RIDFilesNames := RIDFilesNames self;
     weightsFilesNames := weightsFilesNames self;
     savedElementsFilesNames := savedElementsFilesNames self;
     listActiveNodesFilesNames := listActiveNodesFilesNames self;
     massName := massName self; nbrOfModes := nbrOfModes self;
     periodSaveGIE := periodSaveGIE self;
     nbTrainingSet := n;
     paramWrapper := paramWrapper self |}.

Definition set_nbrOfModes (self : ReductionParam) (n : Z) : ReductionParam :=
  {| tolModes := tolModes self; tolGIE := tolGIE self;
     addRigidBodyModes := addRigidBodyModes self;
     rp_dataDir := rp_dataDir self; dataFolder := dataFolder self;
     stateFileName := stateFileName self; modesFileName := modesFileName self;
     gieFilesNames := gieFilesNames self; RIDFilesNames := RIDFilesNames self;
     weightsFilesNames := weightsFilesNames self;
     savedElementsFilesNames := savedElementsFilesNames self;
     listActiveNodesFilesNames := listActiveNodesFilesNames self;
     massName := massName self; nbrOfModes := n;
     periodSaveGIE := periodSaveGIE self;
     nbTrainingSet := nbTrainingSet self;
     paramWrapper := paramWrapper self |}.

Definition set_paramWrapper (self : ReductionParam)
    (w : option (string * ParamWrapper)) : ReductionParam :=
  {| tolModes := tolModes self; tolGIE := tolGIE self;
     addRigidBodyModes := addRigidBodyModes self;
     rp_dataDir := rp_dataDir self; dataFolder := dataFolder self;
     stateFileName := stateFileName self; modesFileName := modesFileName self;
     gieFilesNames := gieFilesNames self; RIDFilesNames := RIDFilesNames self;
     weightsFilesNames := weightsFilesNames self;
     savedElementsFilesNames := savedElementsFilesNames self;
     listActiveNodesFilesNames := listActiveNodesFilesNames self;
     massName := massName self; nbrOfModes := nbrOfModes self;
     periodSaveGIE := periodSaveGIE self;
     nbTrainingSet := nbTrainingSet self;
     paramWrapper := w |}.

(** [ReductionParam.setNbTrainingSet(rangeOfAction, incr)]:
    [self.nbTrainingSet = int(rangeOfAction / incr)]. *)
Definition setNbTrainingSet (self : ReductionParam)
    (rangeOfAction incr : Py.number) : result ReductionParam :=
  q ← Py.classic_div rangeOfAction incr;
  n ← Py.to_int q;
  Ok (set_nbTrainingSet self n).

(** The two tables of defaults of [addParamWrapper]. *)
Definition defaultParamPrepare (self : ReductionParam) (nodeToReduce : string)
  : ParamWrapper :=
  {| paramForcefield :=
       {[ "prepareECSW" := VBool true;
          "modesPath" := VStr (rp_dataDir self +:+ modesFileName self);
          "periodSaveGIE" := VInt (periodSaveGIE self);
          "nbTrainingSet" := VInt (nbTrainingSet self) ]};
     paramMORMapping :=
       {[ "input" := VStr "@../MechanicalObject";
          "modesPath" := VStr (rp_dataDir self +:+ modesFileName self) ]};
     paramMappedMatrixMapping :=
       {[ "nodeToParse" := VStr ("@." +:+ nodeToReduce);
          "template" := VStr "Vec1d,Vec1d";
          "object1" := VStr "@./MechanicalObject";
          "object2" := VStr "@./MechanicalObject";
          "timeInvariantMapping1" := VBool true;
          "timeInvariantMapping2" := VBool true;
          "performECSW" := VBool false ]} |}.

Definition defaultParamPerform (self : ReductionParam) (nodeToReduce : string)
  : ParamWrapper :=
  {| paramForcefield :=
       {[ "performECSW" := VBool true;
          "modesPath" := VStr (dataFolder self +:+ modesFileName self);
          "RIDPath" := VStr (dataFolder self);
          "weightsPath" := VStr (dataFolder self) ]};
     paramMORMapping :=
       {[ "input" := VStr "@../MechanicalObject";
          "modesPath" := VStr (dataFolder self +:+ modesFileName self) ]};
     paramMappedMatrixMapping :=
       {[ "nodeToParse" := VStr ("@." +:+ nodeToReduce);
          "template" := VStr "Vec1d,Vec1d";
          "object1" := VStr "@./MechanicalObject";
          "object2" := VStr "@./MechanicalObject";
          "timeInvariantMapping1" := VBool true;
          "timeInvariantMapping2" := VBool true;
          "listActiveNodesPath" := VStr (dataFolder self +:+ "listActiveNodes.txt");
          "performECSW" := VBool true;
          "usePrecomputedMass" := VBool true;
          "precomputedMassPath" := VStr (dataFolder self +:+ massName self) ]} |}.

(** Truth value of an optional dictionary argument: given and not empty. *)
Definition dict_truthy (d : option (gmap string PyVal)) : bool :=
  match d with
  | Some m => negb (bool_decide (m = ∅))
  | None => false
  end.

(** [ReductionParam.addParamWrapper(nodeToReduce, prepareECSW,
    paramForcefield, paramMappedMatrixMapping, paramMORMapping)]: the new
    state and the returned value [self.paramWrapper]. *)
Definition addParamWrapper (self : ReductionParam) (nodeToReduce : string)
    (prepareECSW : bool)
    (paramForcefield_arg paramMappedMatrixMapping_arg paramMORMapping_arg :
       option (gmap string PyVal))
  : ReductionParam * option (string * ParamWrapper) :=
  let self :=
    if dict_truthy paramForcefield_arg
       && dict_truthy paramMappedMatrixMapping_arg
       && dict_truthy paramMORMapping_arg
    then self                                             (* [pass] *)
    else if prepareECSW
    then set_paramWrapper self
           (Some (nodeToReduce, defaultParamPrepare self nodeToReduce))
    else set_paramWrapper self
           (Some (nodeToReduce, defaultParamPerform self nodeToReduce)) in
  (self, paramWrapper self).

(** [ReductionParam.setFilesName()]; unpacking [self.paramWrapper] fails
    with [TypeError] while it is still [None]. *)
Definition setFilesName (self : ReductionParam) : result ReductionParam :=
  match paramWrapper self with
  | None => Raise TypeError
  | Some (path, param) =>
      nodeName ← Py.getitem (Py.split "/" path) (-1);
      Ok {| tolModes := tolModes self; tolGIE := tolGIE self;
            addRigidBodyModes := addRigidBodyModes self;
            rp_dataDir := rp_dataDir self; dataFolder := dataFolder self;
            stateFileName := stateFileName self;
            modesFileName := modesFileName self;
            gieFilesNames :=
              gieFilesNames self
                ++ ["HyperReducedFEMForceField_" +:+ nodeName +:+ "_Gie.txt"];
            RIDFilesNames :=
              RIDFilesNames self ++ ["RID_" +:+ nodeName +:+ ".txt"];
            weightsFilesNames :=
              weightsFilesNames self ++ ["weight_" +:+ nodeName +:+ ".txt"];
            savedElementsFilesNames :=
              savedElementsFilesNames self ++ ["elmts_" +:+ nodeName +:+ ".txt"];
            listActiveNodesFilesNames :=
              listActiveNodesFilesNames self
                ++ ["listActiveNodes_" +:+ nodeName +:+ ".txt"];
            massName := massName self; nbrOfModes := nbrOfModes self;
            periodSaveGIE := periodSaveGIE self;
            nbTrainingSet := nbTrainingSet self;
            paramWrapper := paramWrapper self |}
  end.

(** ** [class ReduceModel] *)

(** One dictionary of [listSofaScene]; the key ['NBROFMODES'] is only added
    by [phase3]. *)
Record SofaScene : Type := mkSofaScene {
  ORIGINALSCENE : string;
  LISTOBJTOANIMATE : list ObjToAnimate;
  PHASE : list Z;
  PERIODSAVEGIE : Z;
  PARAMWRAPPER : option (string * ParamWrapper);
  job_nbIterations : Z;            (* the key ["nbIterations"] *)
  PHASETOSAVE : list Z;
  NBROFMODES : option Z;
}.

Record ReduceModel : Type := mkReduceModel {
  originalScene : string;
  nodeToReduce : string;
  reductionAnimations : ReductionAnimations;
  packageBuilder : PackageBuilder;
  reductionParam : ReductionParam;
  phaseToSave : option (list Z);
  phaseToSaveIndex : Z;
  nbrCPU : Z;
  verbose : bool;
  activesNodesLists : list (list Z);
  listSofaScene : list SofaScene;
}.

Definition set_reductionParam (self : ReduceModel) (rp : ReductionParam)
  : ReduceModel :=
  {| originalScene := originalScene self; nodeToReduce := nodeToReduce self;
     reductionAnimations := reductionAnimations self;
     packageBuilder := packageBuilder self;
     reductionParam := rp;
     phaseToSave := phaseToSave self;
     phaseToSaveIndex := phaseToSaveIndex self;
     nbrCPU := nbrCPU self; verbose := verbose self;
     activesNodesLists := activesNodesLists self;
     listSofaScene := listSofaScene self |}.

Definition set_phaseToSave (self : ReduceModel) (p : option (list Z))
  : ReduceModel :=
  {| originalScene := originalScene self; nodeToReduce := nodeToReduce self;
     reductionAnimations := reductionAnimations self;
     packageBuilder := packageBuilder self;
     reductionParam := reductionParam self;
     phaseToSave := p;
     phaseToSaveIndex := phaseToSaveIndex self;
     nbrCPU := nbrCPU self; verbose := verbose self;
     activesNodesLists := activesNodesLists self;
     listSofaScene := listSofaScene self |}.

Definition set_phaseToSaveIndex (self : ReduceModel) (i : Z) : ReduceModel :=
  {| originalScene := originalScene self; nodeToReduce := nodeToReduce self;
     reductionAnimations := reductionAnimations self;
     packageBuilder := packageBuilder self;
     reductionParam := reductionParam self;
     phaseToSave := phaseToSave self;
     phaseToSaveIndex := i;
     nbrCPU := nbrCPU self; verbose := verbose self;
     activesNodesLists := activesNodesLists self;
     listSofaScene := listSofaScene self |}.

Definition set_listSofaScene (self : ReduceModel) (l : list SofaScene)
  : ReduceModel :=
  {| originalScene := originalScene self; nodeToReduce := nodeToReduce self;
     reductionAnimations := reductionAnimations self;
     packageBuilder := packageBuilder self;
     reductionParam := reductionParam self;
     phaseToSave := phaseToSave self;
     phaseToSaveIndex := phaseToSaveIndex self;
     nbrCPU := nbrCPU self; verbose := verbose self;
     activesNodesLists := activesNodesLists self;
     listSofaScene := l |}.

Section Construction.

Variable normpath : string → string.
Variable isdir : string → bool.
Variable pathToReducedModel : string.

(** [ReduceModel(originalScene, nodeToReduce, listObjToAnimate, tolModes,
    tolGIE, outputDir, packageName, addToLib, verbose, addRigidBodyModes,
    nbrCPU, phaseToSave)] *)
Definition ReduceModel_init (originalScene nodeToReduce : string)
    (listObjToAnimate : list ObjToAnimate) (tolModes tolGIE : Q)
    (outputDir : string) (packageName : option string) (addToLib : bool)
    (verbose : bool) (addRigidBodyModes : option (list Z)) (nbrCPU : Z)
    (phaseToSave : option (list Z)) : result ReduceModel :=
  reductionAnimations ← ReductionAnimations_init listObjToAnimate;
  packageBuilder ←
    PackageBuilder_init isdir pathToReducedModel (normpath outputDir)
      packageName addToLib;
  reductionParam ←
    ReductionParam_init tolModes tolGIE addRigidBodyModes
      (dataDir packageBuilder);
  first ← Py.getitem listObjToAnimate 0;
  rangeOfAction ← Py.dict_get (params first) "rangeOfAction";
  first' ← Py.getitem listObjToAnimate 0;
  incr ← Py.dict_get (params first') "incr";
  reductionParam ← setNbTrainingSet reductionParam rangeOfAction incr;
  let reductionParam :=
    fst (addParamWrapper reductionParam nodeToReduce true None None None) in
  reductionParam ← setFilesName reductionParam;
  Ok {| originalScene := normpath originalScene;
        nodeToReduce := nodeToReduce;
        reductionAnimations := reductionAnimations;
        packageBuilder := packageBuilder;
        reductionParam := reductionParam;
        phaseToSave := phaseToSave;
        phaseToSaveIndex := 0;
        nbrCPU := nbrCPU;
        verbose := verbose;
        activesNodesLists := [];
        listSofaScene := [] |}.

End Construction.

(** Truth value of an optional list argument: given and not empty. *)
Definition list_truthy {A} (l : option (list A)) : bool :=
  match l with
  | Some (_ :: _) => true
  | _ => false
  end.

(** [l.index(x)] *)
Fixpoint index_from `{EqDecision A} (i : Z) (x : A) (l : list A) : result Z :=
  match l with
  | [] => Raise ValueError
  | y :: l' => if decide (y = x) then Ok i else index_from (i + 1) x l'
  end.

(** The body of the loop of [setListSofaScene] for the phase index [i].

    The message of the [ValueError] for a non-existent phase is built as
    ["..." + phasesToExecute], a string plus a list: evaluating the argument
    of [ValueError] raises [TypeError] before [ValueError] is constructed. *)
Definition appendSofaScene (self : ReduceModel) (i : Z) : result ReduceModel :=
  if (nbPossibility (reductionAnimations self) <=? i) || (i <? 0)
  then Raise TypeError
  else
    match phaseNumClass (reductionAnimations self) with
    | None => Raise TypeError
    | Some classes =>
        phase ← Py.getitem classes i;
        self ←
          (if decide (default [] (phaseToSave self) = phase)
           then
             idx ← index_from 0 (default [] (phaseToSave self)) classes;
             Ok (set_phaseToSaveIndex self idx)
           else Ok self);
        phase' ← Py.getitem classes i;
        Ok (set_listSofaScene self
              (listSofaScene self ++
               [ {| ORIGINALSCENE := originalScene self;
                    LISTOBJTOANIMATE :=
                      listObjToAnimate (reductionAnimations self);
                    PHASE := phase';
                    PERIODSAVEGIE := periodSaveGIE (reductionParam self);
                    PARAMWRAPPER := paramWrapper (reductionParam self);
                    job_nbIterations :=
                      nbIterations (reductionAnimations self);
                    PHASETOSAVE := default [] (phaseToSave self);
                    NBROFMODES := None |} ]))
    end.

(** [ReduceModel.setListSofaScene(phasesToExecute=None)] *)
Definition setListSofaScene (self : ReduceModel)
    (phasesToExecute : option (list Z)) : result ReduceModel :=
  let self := set_listSofaScene self [] in
  let phasesToExecute :=
    if list_truthy phasesToExecute then default [] phasesToExecute
    else Py.range (nbPossibility (reductionAnimations self)) in
  self ←
    (if list_truthy (phaseToSave self) then Ok self
     else
       match phaseNumClass (reductionAnimations self) with
       | None => Raise TypeError
       | Some classes =>
           first ← Py.getitem classes 0;
           Ok (set_phaseToSave self
                 (Some (replicate (Z.to_nat (Py.len first)) 0)))
       end);
  foldM appendSofaScene self phasesToExecute.

(** Truth value of an optional integer argument: given and not zero. *)
Definition int_truthy (n : option Z) : bool :=
  match n with
  | Some z => negb (z =? 0)
  | None => false
  end.

(** [job['NBROFMODES'] = n] *)
Definition set_NBROFMODES (job : SofaScene) (n : Z) : SofaScene :=
  {| ORIGINALSCENE := ORIGINALSCENE job;
     LISTOBJTOANIMATE := LISTOBJTOANIMATE job;
     PHASE := PHASE job;
     PERIODSAVEGIE := PERIODSAVEGIE job;
     PARAMWRAPPER := PARAMWRAPPER job;
     job_nbIterations := job_nbIterations job;
     PHASETOSAVE := PHASETOSAVE job;
     NBROFMODES := Some n |}.

(** [ReduceModel.phase3(phasesToExecute, nbrOfModes)], lines 731 to 749: the
    number of modes is settled.  The result is the object, whose stored
    [nbrOfModes] may have been set, the phases to execute and the local
    [nbrOfModes]. *)
Definition phase3_nbrOfModes (self : ReduceModel) (fs : gmap string string)
    (phasesToExecute : option (list Z)) (nbrOfModes_arg : option Z)
  : result (ReduceModel * list Z * Z) :=
  let phasesToExecute :=
    if list_truthy phasesToExecute then default [] phasesToExecute
    else Py.range (nbPossibility (reductionAnimations self)) in
  let nbrOfModes_local :=
    if int_truthy nbrOfModes_arg then default 0 nbrOfModes_arg
    else nbrOfModes (reductionParam self) in
  if negb (bool_decide
             (is_Some (fs !! (dataDir (packageBuilder self)
                                +:+ modesFileName (reductionParam self)))))
  then Raise IOError
  else
    nbrOfModesPossible ←
      checkNodeNbr (packageBuilder self) fs (modesFileName (reductionParam self));
    let nbrOfModes_local :=
      if nbrOfModes_local =? 0 then nbrOfModes (reductionParam self)
      else nbrOfModes_local in
    let '(self, nbrOfModes_local) :=
      if nbrOfModes_local =? -1
      then (set_reductionParam self
              (set_nbrOfModes (reductionParam self) nbrOfModesPossible),
            nbrOfModesPossible)
      else (self, nbrOfModes_local) in
    if (nbrOfModes_local <=? 0) || (nbrOfModesPossible <? nbrOfModes_local)
    then Raise ValueError
    else Ok (self, phasesToExecute, nbrOfModes_local).

(** [phase3] up to line 754: the scenes are listed and each is given the
    number of modes. *)
Definition phase3_scenes (self : ReduceModel) (fs : gmap string string)
    (phasesToExecute : option (list Z)) (nbrOfModes_arg : option Z)
  : result ReduceModel :=
  '(self, phases, nbrOfModes_local) ←
    phase3_nbrOfModes self fs phasesToExecute nbrOfModes_arg;
  self ← setListSofaScene self (Some phases);
  scenes ←
    foldM (fun scenes i =>
             job ← Py.getitem scenes i;
             Py.setitem scenes i (set_NBROFMODES job nbrOfModes_local))
          (listSofaScene self) (Py.range (Py.len phases));
  Ok (set_listSofaScene self scenes).

(** [ReduceModel.phase4(nbrOfModes)], lines 827 to 840. *)
Definition phase4_nbrOfModes (self : ReduceModel) (fs : gmap string string)
    (nbrOfModes_arg : option Z) : result (ReduceModel * Z) :=
  if negb (bool_decide
             (is_Some (fs !! (dataDir (packageBuilder self)
                                +:+ modesFileName (reductionParam self)))))
  then Raise IOError
  else
    nbrOfModesPossible ←
      checkNodeNbr (packageBuilder self) fs (modesFileName (reductionParam self));
    let nbrOfModes_local :=
      if int_truthy nbrOfModes_arg then default 0 nbrOfModes_arg
      else nbrOfModes (reductionParam self) in
    let '(self, nbrOfModes_local) :=
      if nbrOfModes_local =? -1
      then (set_reductionParam self
              (set_nbrOfModes (reductionParam self) nbrOfModesPossible),
            nbrOfModesPossible)
      else (self, nbrOfModes_local) in
    if (nbrOfModes_local <=? 0) || (nbrOfModesPossible <? nbrOfModes_local)
    then Raise ValueError
    else Ok (self, nbrOfModes_local).

(** ** [phase4]: the list of the active nodes *)

(** [sorted(l)] on integers *)
Definition sorted (l : list Z) : list Z := merge_sort Z.le l.

Section ActiveNodes.

(** [list(s)] on a set of integers: its elements, in the order in which the
    hash table yields them *)
Variable list_of_set : gset Z → list Z.

(** [list(set().union(finalListActiveNodes, activeNodes))] *)
Definition unionActiveNodes (finalListActiveNodes activeNodes : list Z)
  : list Z :=
  list_of_set (∅ ∪ list_to_set finalListActiveNodes ∪ list_to_set activeNodes).

(** [phase4], lines 906 to 909: the nodes of all the lists, sorted. *)
Definition finalListActiveNodes (activesNodesLists : list (list Z)) : list Z :=
  sorted (foldl unionActiveNodes [] activesNodesLists).

(** [phase4], lines 910 to 913: [listActiveNodes.txt] gets one line per
    node. *)
Definition writeActiveNodes (self : ReduceModel) (fs : gmap string string)
  : gmap string string :=
  <[ dataDir (packageBuilder self) +:+ "listActiveNodes.txt" :=
       Py.concat ((fun item => Py.str item +:+ Py.newline)
                    <$> finalListActiveNodes (activesNodesLists self)) ]> fs.

End ActiveNodes.

(** ** [phase4]: the element files put in the order of the GIE files *)

(** [sub in s] on strings *)
Definition str_in (sub s : string) : bool := negb (Py.find s sub =? -1).

(** [s.replace(old, new)]: the occurrences of [old] are replaced from left
    to right, without overlap; an empty [old] matches before every character
    and at the end. *)
Fixpoint interleave (new s : string) : string :=
  match s with
  | EmptyString => new
  | String c r => new +:+ String c (interleave new r)
  end.
Fixpoint replace_from (old new : string) (skip : nat) (s : string) : string :=
  match s with
  | EmptyString => ""
  | String c r =>
      match skip with
      | S k => replace_from old new k r
      | O =>
          if String.prefix old s
          then new +:+ replace_from old new (String.length old - 1) r
          else String c (replace_from old new 0 r)
      end
  end.
Definition replace (s old new : string) : string :=
  match old with
  | EmptyString => interleave new s
  | _ => replace_from old new 0 s
  end.

(** [enumerate(l)] *)
Definition enumerate {A} (l : list A) : list (Z * A) :=
  zip (Py.range (Py.len l)) l.

(** The body of the inner loop of lines 860 to 866, for the index [j]: the
    state is [tmp] and the list [savedElementsFilesNames], which the loop
    changes in place while it goes through it. *)
Definition alignStep (i : Z) (st : string * list string) (j : Z)
  : result (string * list string) :=
  let '(tmp, names) := st in
  elmts ← Py.getitem names j;
  if str_in tmp elmts
  then
    tmp ← Py.getitem names j;
    moved ← Py.getitem names i;
    names ← Py.setitem names j moved;
    names ← Py.setitem names i tmp;
    Ok (tmp, names)
  else Ok (tmp, names).

(** The body of the outer loop, for the GIE file of index [i]. *)
Definition alignGie (names : list string) (ig : Z * string)
  : result (list string) :=
  let '(i, gie) := ig in
  let tmp := replace gie "_Gie.txt" "" in
  st ← foldM (alignStep i) (tmp, names) (Py.range (Py.len names));
  Ok (snd st).

(** [phase4], lines 860 to 866: the result is the new value of
    [savedElementsFilesNames]. *)
Definition alignSavedElements (gieFilesNames savedElementsFilesNames : list string)
  : result (list string) :=
  foldM alignGie savedElementsFilesNames (enumerate gieFilesNames).

(** ** [PackageBuilder.addToLib]: the package is entered in [__all__] *)

(** [s[:-2]] *)
Definition but_last_two (s : string) : string :=
  String.substring 0 (String.length s - 2)%nat s.

(** Lines 328 to 336, for one line of the [__init__.py] of the library. *)
Definition registerLine (packageName line : string) : string :=
  if negb (Py.find line "__all__" =? -1)
  then
    if negb (Py.find line "[]" =? -1)
    then but_last_two line +:+ "'" +:+ packageName +:+ "']" +:+ Py.newline
    else but_last_two line +:+ ",'" +:+ packageName +:+ "']" +:+ Py.newline
  else line.

(** Lines 327 to 336: [fileinput] rewrites the [__init__.py] of the library
    in place, as in [cleanStateFile]. *)
Definition registerPackage (pathToReducedModel packageName : string)
    (fs : gmap string string) : result (gmap string string) :=
  let name := pathToReducedModel +:+ "__init__.py" in
  match fs !! name with
  | Some content =>
      Ok (delete (name +:+ ".bak")
            (<[name := Py.concat (registerLine packageName
                                    <$> Py.readlines content)]> fs))
  | None => Raise OSError
  end.

(** ** Vocabulary of the statements *)

(** *** Calls and strings *)

(** [n] successive calls of a method on the same object. *)
Fixpoint callN {S : Type} (n : nat) (method : S → result S) (s : S) : result S :=
  match n with
  | O => Ok s
  | S k => s' ← method s; callN k method s'
  end.

(** [sep.join(l)] *)
Fixpoint join (sep : string) (l : list string) : string :=
  match l with
  | [] => ""
  | [x] => x
  | x :: r => x +:+ sep +:+ join sep r
  end.

(** A string of blanks. *)
Definition blank (s : string) : Prop :=
  Forall (fun c => Ascii.is_space c = true) (Py.chars s).

(** [s.endswith("\n")] *)
Fixpoint ends_with_newline (s : string) : bool :=
  match s with
  | EmptyString => false
  | String c EmptyString => bool_decide (c = "010"%char)
  | String _ r => ends_with_newline r
  end.

(** A file made of complete lines. *)
Definition complete_lines (content : string) : Prop :=
  content = "" ∨ ends_with_newline content = true.

(** [line] is the first line of [content], without its newline. *)
Definition first_line (content line : string) : Prop :=
  ("010"%char ∉ Py.chars line) ∧
  (content = line ∨ ∃ rest, content = line +:+ Py.newline +:+ rest).

(** *** Iteration budget *)

(** The double written [50.2]. *)
Definition float_50_2 : Q := 3532510957718733 # 70368744177664.

(** *** Phases *)

(** The integer that a binary digit denotes. *)
Definition bitOf (c : ascii) : Z := if bool_decide (c = "1"%char) then 1 else 0.

(** A string of binary digits. *)
Definition binary (s : string) : Prop :=
  Forall (fun c => c = "0"%char ∨ c = "1"%char) (Py.chars s).

(** The phase vector of index [i] on [n] actuators: the [n] low bits of [i],
    most significant first. *)
Fixpoint bitsOf (n : nat) (i : Z) : list Z :=
  match n with
  | O => []
  | S k => bitsOf k (i `div` 2) ++ [i `mod` 2]
  end.

(** The integer that a vector of bits denotes in base 2. *)
Definition valueOf (v : list Z) : Z := foldl (fun acc b => 2 * acc + b) 0 v.

(** A vector of [n] bits. *)
Definition is_phase (n : Z) (v : list Z) : Prop :=
  Py.len v = n ∧ Forall (fun b => b = 0 ∨ b = 1) v.

(** The order of the phases: by weight, then by value. *)
Definition phase_lt (u v : list Z) : Prop :=
  Py.sum u < Py.sum v ∨ (Py.sum u = Py.sum v ∧ valueOf u < valueOf v).

(** The list that [generateListOfPhase] builds for [n] actuators. *)
Definition phaseClasses (n : Z) : list (list Z) :=
  concat ((fun nb =>
             filter (fun v => Py.sum v = nb)
                    (bitsOf (Z.to_nat n) <$> seqZ 0 (2 ^ n)))
            <$> seqZ 0 (n + 1)).

(** *** File names *)

(** [name] is the trailing segment of [path]: what follows the last ['/'],
    or the whole path when it has none. *)
Definition trailing_segment (path name : string) : Prop :=
  ("/"%char ∉ Py.chars name) ∧ (path = name ∨ ∃ pre, path = pre +:+ "/" +:+ name).

(** The segment that [setFilesName] takes from a path. *)
Definition nodeNameOf (path : string) : string :=
  default "" (last (Py.split "/" path)).

(** The five names that [setFilesName] derives from a node name. *)
Definition gieFileOf (nodeName : string) : string :=
  "HyperReducedFEMForceField_" +:+ nodeName +:+ "_Gie.txt".
Definition RIDFileOf (nodeName : string) : string :=
  "RID_" +:+ nodeName +:+ ".txt".
Definition weightsFileOf (nodeName : string) : string :=
  "weight_" +:+ nodeName +:+ ".txt".
Definition savedElementsFileOf (nodeName : string) : string :=
  "elmts_" +:+ nodeName +:+ ".txt".
Definition listActiveNodesFileOf (nodeName : string) : string :=
  "listActiveNodes_" +:+ nodeName +:+ ".txt".

(** Two lists hold the same names. *)
Definition same_names (l1 l2 : list string) : Prop := ∀ x, x ∈ l1 ↔ x ∈ l2.

(** *** State files *)

(** A line of a state file carries a time marker. *)
Definition is_marker (line : string) : bool := negb (Py.find line "T=" =? -1).

(** The line that replaces the [k]-th marker. *)
Definition marker_line (periodSaveGIE k : Z) : string :=
  "T= " +:+ Py.str (periodSaveGIE * k) +:+ Py.newline.

(** The marker lines among the lines of a file. *)
Definition markers (lines : list string) : list string :=
  filter (fun line => is_marker line = true) lines.

(** The state file of a job. *)
Definition stateFileOf (res : SofaResult) : string :=
  directory res +:+ Py.slash +:+ "stateFile.state".

(** What the jobs wrote, one state file after the other; a job without a
    state file adds nothing. *)
Definition mergedStates (fs : gmap string string) (results : list SofaResult)
  : string :=
  Py.concat ((fun res => default "" (fs !! stateFileOf res)) <$> results).

(** The paths that [copyAndCleanState] writes in the debug directory. *)
Definition writtenPaths (self : PackageBuilder) (stateFileName : string)
    (gie : option (list string)) : list string :=
  (debugDir self +:+ stateFileName)
    :: ((fun fileName => debugDir self +:+ fileName) <$> default [] gie).

(** *** Number of modes *)

(** The path of the modes file. *)
Definition modesPath (self : ReduceModel) : string :=
  dataDir (packageBuilder self) +:+ modesFileName (reductionParam self).

(** The object after the number of modes found in the file is stored. *)
Definition store_nbrOfModes (self : ReduceModel) (n : Z) : ReduceModel :=
  set_reductionParam self (set_nbrOfModes (reductionParam self) n).

(** *** Scenes *)

(** The state in which [setListSofaScene] finds an object that
    [ReduceModel] constructed: the phases are listed, as many as
    [nbPossibility] says, and there is at least one. *)
Definition well_formed (self : ReduceModel) (classes : list (list Z)) : Prop :=
  phaseNumClass (reductionAnimations self) = Some classes ∧
  Py.len classes = nbPossibility (reductionAnimations self) ∧
  1 ≤ nbPossibility (reductionAnimations self).

(** The phases that a call of [setListSofaScene] selects. *)
Definition selected (self : ReduceModel) (phasesToExecute : option (list Z))
  : list Z :=
  if list_truthy phasesToExecute then default [] phasesToExecute
  else Py.range (nbPossibility (reductionAnimations self)).

(** An index of phase that exists. *)
Definition valid_phase (self : ReduceModel) (i : Z) : Prop :=
  0 ≤ i < nbPossibility (reductionAnimations self).

#[global] Instance valid_phase_dec self i : Decision (valid_phase self i).
Proof. unfold valid_phase. apply _. Defined.

(** The vector of index [i]. *)
Definition phaseAt (classes : list (list Z)) (i : Z) : list Z :=
  default [] (classes !! Z.to_nat i).

(** What [setListSofaScene] takes as phase to save. *)
Definition resolvedPhaseToSave (p : option (list Z)) (classes : list (list Z))
  : list Z :=
  if list_truthy p then default [] p
  else replicate (length (default [] (head classes))) 0.

(** The dictionary that [setListSofaScene] appends for a phase vector. *)
Definition sceneOf (self : ReduceModel) (toSave phase : list Z) : SofaScene :=
  {| ORIGINALSCENE := originalScene self;
     LISTOBJTOANIMATE := listObjToAnimate (reductionAnimations self);
     PHASE := phase;
     PERIODSAVEGIE := periodSaveGIE (reductionParam self);
     PARAMWRAPPER := paramWrapper (reductionParam self);
     job_nbIterations := nbIterations (reductionAnimations self);
     PHASETOSAVE := toSave;
     NBROFMODES := None |}.

(** The loop of [setListSofaScene] leaves these attributes alone. *)
Definition same_setting (self self' : ReduceModel) : Prop :=
  originalScene self' = originalScene self ∧
  reductionAnimations self' = reductionAnimations self ∧
  reductionParam self' = reductionParam self ∧
  phaseToSave self' = phaseToSave self.

(** *** More on the iteration budget *)

(** An actuator whose value in [setNbIteration] is the integer [t], a
    number that a double holds exactly. *)
Definition iterates (obj : ObjToAnimate) (t : Z) : Prop :=
  iterationsOf obj = Ok (Py.PyInt t) ∧ Z.abs t < 2 ^ 53.

(** *** More on the merged files *)

(** The file [fileName] of a job. *)
Definition jobFileOf (res : SofaResult) (fileName : string) : string :=
  directory res +:+ Py.slash +:+ fileName.

(** What the jobs wrote under the name [fileName], one file after the other;
    a job without that file adds nothing. *)
Definition mergedFiles (fs : gmap string string) (results : list SofaResult)
    (fileName : string) : string :=
  Py.concat ((fun res => default "" (fs !! jobFileOf res fileName)) <$> results).

(** *** Lines of a file *)

(** A line with its newline, and a last line that lacks it. *)
Definition terminated (line : string) : Prop :=
  ∃ body, ("010"%char ∉ Py.chars body) ∧ line = body +:+ Py.newline.
Definition unterminated (line : string) : Prop :=
  ("010"%char ∉ Py.chars line) ∧ line ≠ "".

(** The lines of a file: every line but the last has its newline. *)
Fixpoint file_lines (lines : list string) : Prop :=
  match lines with
  | [] => True
  | line :: rest =>
      match rest with
      | [] => terminated line ∨ unterminated line
      | _ :: _ => terminated line ∧ file_lines rest
      end
  end.

(** *** Element files and GIE files *)

(** What [phase4] looks for in the names of the element files. *)
Definition stemOf (gie : string) : string := replace gie "_Gie.txt" "".

(** The element file [elmts] goes with the GIE file [gie]. *)
Definition goes_with (gie elmts : string) : Prop :=
  str_in (stemOf gie) elmts = true.

(** *** The list of the packages *)

(** A name as the list shows it. *)
Definition quoted (name : string) : string := "'" +:+ name +:+ "'".

(** The line that lists the packages [names], after the text [head]. *)
Definition registryLine (head : string) (names : list string) : string :=
  head +:+ "[" +:+ join "," (quoted <$> names) +:+ "]" +:+ Py.newline.

(** ** Sample objects *)

(** The actuator of the class documentation:
    [ObjToAnimate("myNodeToReduce/myComponentToAnimate", incr=5,
    incrPeriod=10, rangeOfAction=40)]. *)
Definition docActuator : ObjToAnimate :=
  ObjToAnimate_init "myNodeToReduce/myComponentToAnimate" "defaultShaking"
    {[ "incr" := Py.PyInt 5; "incrPeriod" := Py.PyInt 10;
       "rangeOfAction" := Py.PyInt 40 ]}.

(** A [ReductionAnimations] object before [setNbIteration] has run. *)
Definition docAnimations : ReductionAnimations :=
  {| listObjToAnimate := [docActuator];
     listOfLocation := [location docActuator];
     nbActuator := 1;
     nbPossibility := 2;
     nbIterations := 0;
     phaseNumClass := None |}.

(** [docAnimations] once its constructor has finished. *)
Definition docAnimationsReady : ReductionAnimations :=
  {| listObjToAnimate := [docActuator];
     listOfLocation := [location docActuator];
     nbActuator := 1;
     nbPossibility := 2;
     nbIterations := 89;
     phaseNumClass := Some [[0]; [1]] |}.

(** [PackageBuilder("out", "myReducedModel")] *)
Definition docBuilder : PackageBuilder :=
  {| outputDir := "out";
     meshes := [];
     addToLibBool := false;
     packageName := Some "reduced_myReducedModel";
     dataDir := "out/data/";
     debugDir := "out/debug/";
     meshDir := "out/mesh/" |}.

(** [ReductionParam(0.001, 0.05, False, "out/data/")] *)
Definition docParam : ReductionParam :=
  {| tolModes := 1 # 1000;
     tolGIE := 5 # 100;
     addRigidBodyModes := None;
     rp_dataDir := "out/data/";
     dataFolder := "/data/";
     stateFileName := "stateFile.state";
     modesFileName := "modes.txt";
     gieFilesNames := [];
     RIDFilesNames := [];
     weightsFilesNames := [];
     savedElementsFilesNames := [];
     listActiveNodesFilesNames := [];
     massName := "";
     nbrOfModes := -1;
     periodSaveGIE := 6;
     nbTrainingSet := -1;
     paramWrapper := None |}.

(** [docParam] after [addParamWrapper("body/finger")]. *)
Definition docParamWrapped : ReductionParam :=
  fst (addParamWrapper docParam "body/finger" true None None None).

(** [docParam] once the constructor of [ReduceModel] has finished with it. *)
Definition docParamReady : ReductionParam :=
  {| tolModes := 1 # 1000;
     tolGIE := 5 # 100;
     addRigidBodyModes := None;
     rp_dataDir := "out/data/";
     dataFolder := "/data/";
     stateFileName := "stateFile.state";
     modesFileName := "modes.txt";
     gieFilesNames := [gieFileOf "finger"];
     RIDFilesNames := [RIDFileOf "finger"];
     weightsFilesNames := [weightsFileOf "finger"];
     savedElementsFilesNames := [savedElementsFileOf "finger"];
     listActiveNodesFilesNames := [listActiveNodesFileOf "finger"];
     massName := "";
     nbrOfModes := -1;
     periodSaveGIE := 6;
     nbTrainingSet := 8;
     paramWrapper :=
       Some ("body/finger",
             defaultParamPrepare (set_nbTrainingSet docParam 8) "body/finger") |}.

(** Three sub-configurations that a caller supplies. *)
Definition userForcefield : gmap string PyVal :=
  {[ "prepareECSW" := VBool true; "modesPath" := VStr "/srv/modes.txt" ]}.
Definition userMappedMatrixMapping : gmap string PyVal :=
  {[ "template" := VStr "Vec1d,Vec1d"; "performECSW" := VBool false ]}.
Definition userMORMapping : gmap string PyVal :=
  {[ "input" := VStr "@../MechanicalObject" ]}.

(** [ReduceModel("scene.py", "body/finger", [docActuator], 0.001, 0.05,
    "out")] *)
Definition docModel : ReduceModel :=
  {| originalScene := "scene.py";
     nodeToReduce := "body/finger";
     reductionAnimations := docAnimationsReady;
     packageBuilder := docBuilder;
     reductionParam := docParamReady;
     phaseToSave := None;
     phaseToSaveIndex := 0;
     nbrCPU := 4;
     verbose := false;
     activesNodesLists := [];
     listSofaScene := [] |}.

(** [docModel] with a job list left by an earlier call. *)
Definition docModelUsed : ReduceModel :=
  set_listSofaScene docModel [sceneOf docModel [0] [1]; sceneOf docModel [0] [0]].

(** A modes file whose first line is ["NDOF 37 extra"]. *)
Definition docModesFile : string :=
  "NDOF 37 extra" +:+ Py.newline +:+ "0.5 0.25 0.125" +:+ Py.newline.

(** A file system that holds only the modes file of [docBuilder]. *)
Definition docModesFs : gmap string string :=
  {[ "out/data/modes.txt" := docModesFile ]}.

(** Two jobs and their state files; the first file ends in a marker line
    that has no newline. *)
Definition jobA : SofaResult := mkSofaResult "/tmp/jobA" "phase1_snapshots.py" 12.
Definition jobB : SofaResult := mkSofaResult "/tmp/jobB" "phase1_snapshots.py" 9.
Definition stateA : string :=
  "T= 0" +:+ Py.newline +:+ "  X= 1 1 1" +:+ Py.newline +:+
  "T= 1" +:+ Py.newline +:+ "  X= 2 2 2" +:+ Py.newline +:+
  "T= 2".
Definition stateB : string :=
  "T= 0" +:+ Py.newline +:+ "  X= 3 3 3" +:+ Py.newline +:+
  "T= 1" +:+ Py.newline +:+ "  X= 4 4 4" +:+ Py.newline +:+
  "T= 2" +:+ Py.newline +:+ "  X= 5 5 5" +:+ Py.newline.

(** The two state files as the jobs left them, and with the first one
    completed by a newline. *)
Definition jobsFs : gmap string string :=
  {[ "/tmp/jobA/stateFile.state" := stateA;
     "/tmp/jobB/stateFile.state" := stateB ]}.
Definition jobsFsComplete : gmap string string :=
  {[ "/tmp/jobA/stateFile.state" := stateA +:+ Py.newline;
     "/tmp/jobB/stateFile.state" := stateB ]}.

(** An actuator whose range and increment are the floats [0.3] and
    [0.1]. *)
Definition float_0_3 : Q := 5404319552844595 # 18014398509481984.
Definition float_0_1 : Q := 3602879701896397 # 36028797018963968.
Definition floatActuator : ObjToAnimate :=
  ObjToAnimate_init "body/cable" "defaultShaking"
    {[ "incr" := Py.PyFloat float_0_1; "incrPeriod" := Py.PyInt 10;
       "rangeOfAction" := Py.PyFloat float_0_3 ]}.

(** An actuator with a ramp and no range, and one with a zero increment. *)
Definition noRangeActuator : ObjToAnimate :=
  ObjToAnimate_init "body/cable" "defaultShaking"
    {[ "incr" := Py.PyInt 5; "incrPeriod" := Py.PyInt 10 ]}.
Definition zeroIncrActuator : ObjToAnimate :=
  ObjToAnimate_init "body/cable" "defaultShaking"
    {[ "incr" := Py.PyInt 0; "incrPeriod" := Py.PyInt 10;
       "rangeOfAction" := Py.PyInt 40 ]}.

(** The jobs of [jobsFs] with a [gie] file each, and an older merged [gie]
    file in the debug directory. *)
Definition jobsGieFs : gmap string string :=
  <[ "/tmp/jobA/finger_Gie.txt" := "1 2 3 " ]>
    (<[ "/tmp/jobB/finger_Gie.txt" := "4 5 6" ]>
       (<[ "out/debug/finger_Gie.txt" := "stale" ]> jobsFs)).

(** Two GIE files and three element files in another order. *)
Definition docGieFiles : list string := ["arm_Gie.txt"; "leg_Gie.txt"].
Definition docElementFiles : list string :=
  ["leg_elmts.txt"; "base.txt"; "arm_elmts.txt"].

(** An actuator without a ramp, and one with a zero increment and no
    period: [setNbIteration] passes over both. *)
Definition plainActuator : ObjToAnimate :=
  ObjToAnimate_init "body/cable" "defaultShaking" ∅.
Definition stillActuator : ObjToAnimate :=
  ObjToAnimate_init "body/cable" "defaultShaking"
    {[ "incr" := Py.PyInt 0; "rangeOfAction" := Py.PyInt 40 ]}.

(** * Properties *)

(** ** Iteration budget *)

Lemma setNbIteration_override self x :
  Py.truthy x = true →
  setNbIteration self (Some x) = (n ← Py.int_ceil x; Ok (set_nbIterations self n)).
Proof. intros Hx. unfold setNbIteration. by rewrite Hx. Qed.

(** C5, as the specification has it, fails: for the actuator of the class
    documentation the budget is not [79]. *)
Lemma setNbIteration_budget_not_79 :
  setNbIteration docAnimations None ≠ Ok (set_nbIterations docAnimations 79).
Proof. vm_compute. discriminate. Qed.

(** C5, amended.  With one actuator whose parameters are [incr = 5],
    [incrPeriod = 10] and [rangeOfAction = 40], and no override, the
    iteration budget computed from zero is
    [((40/5) - 1) * 10 + 2 * 10 - 1 = 89]; with the override [50.2] it is
    [51] whatever the actuators are. *)
Theorem setNbIteration_budget :
  (∀ self obj,
     listObjToAnimate self = [obj] → nbIterations self = 0 →
     params obj !! "incr" = Some (Py.PyInt 5) →
     params obj !! "incrPeriod" = Some (Py.PyInt 10) →
     params obj !! "rangeOfAction" = Some (Py.PyInt 40) →
     setNbIteration self None = Ok (set_nbIterations self 89)) ∧
  (∀ self,
     setNbIteration self (Some (Py.PyFloat float_50_2))
     = Ok (set_nbIterations self 51)).
Proof.
  split.
  - intros self obj Hl H0 Hi Hp Hr.
    unfold setNbIteration. rewrite Hl. cbn [foldM].
    unfold raiseNbIterations, iterationsOf, Py.dict_has, Py.dict_get.
    rewrite Hi, Hp, Hr. rewrite !bool_decide_eq_true_2 by eauto.
    cbn. rewrite H0. reflexivity.
  - intros self. rewrite setNbIteration_override by reflexivity.
    reflexivity.
Qed.

Lemma setNbIteration_budget_witness :
  setNbIteration docAnimations None = Ok (set_nbIterations docAnimations 89).
Proof.
  apply (proj1 setNbIteration_budget docAnimations docActuator);
    reflexivity.
Defined.

(** ** Strings *)

Lemma append_cons c a b : String c a +:+ b = String c (a +:+ b).
Proof. reflexivity. Qed.

Lemma append_nil_l a : "" +:+ a = a.
Proof. reflexivity. Qed.

Lemma append_nil_r a : a +:+ "" = a.
Proof. induction a as [|c a IH]; [done|]. by rewrite append_cons, IH. Qed.

Lemma append_assoc a b c : (a +:+ b) +:+ c = a +:+ (b +:+ c).
Proof. induction a as [|x a IH]; [done|]. by rewrite !append_cons, IH. Qed.

Lemma chars_app a b : Py.chars (a +:+ b) = Py.chars a ++ Py.chars b.
Proof. induction a as [|x a IH]; [done|]. rewrite append_cons. simpl. by rewrite IH. Qed.

(** ** Parameter wrapper *)

Lemma addParamWrapper_all_given self node stage ff mm mor :
  dict_truthy ff = true → dict_truthy mm = true → dict_truthy mor = true →
  addParamWrapper self node stage ff mm mor = (self, paramWrapper self).
Proof. intros Hf Hm Hr. unfold addParamWrapper. by rewrite Hf, Hm, Hr. Qed.

(** C6.  The code at an input where all three sub-configurations are
    supplied: on a new [ReductionParam] the call leaves the object as it is
    and returns the stored wrapper, which is [None]; the supplied
    sub-configurations are not returned. *)
Theorem addParamWrapper_overrides_dropped :
  addParamWrapper docParam "body/finger" true
    (Some userForcefield) (Some userMappedMatrixMapping) (Some userMORMapping)
  = (docParam, None) ∧
  snd (addParamWrapper docParam "body/finger" true
         (Some userForcefield) (Some userMappedMatrixMapping)
         (Some userMORMapping))
  ≠ Some ("body/finger",
          {| paramForcefield := userForcefield;
             paramMORMapping := userMORMapping;
             paramMappedMatrixMapping := userMappedMatrixMapping |}).
Proof.
  rewrite addParamWrapper_all_given by (vm_compute; reflexivity).
  split; [reflexivity | discriminate].
Qed.

(** ** File names *)

Lemma getitem_last {A} (l : list A) x :
  last l = Some x → Py.getitem l (-1) = Ok x.
Proof.
  intros Hl. unfold Py.getitem, Py.len.
  assert (0 < length l)%nat.
  { destruct l; [discriminate | simpl; lia]. }
  replace (-1 <? 0) with true by reflexivity.
  rewrite andb_true_intro by (split; [apply Z.leb_le | apply Z.ltb_lt]; lia).
  rewrite last_lookup in Hl.
  replace (Z.to_nat (-1 + Z.of_nat (length l))) with (pred (length l)) by lia.
  by rewrite Hl.
Qed.

Lemma split_not_nil sep s : Py.split sep s ≠ [].
Proof.
  destruct s as [|c r]; simpl; [done|].
  case_bool_decide; [done|]. by destruct (Py.split sep r).
Qed.

Lemma last_split sep s : last (Py.split sep s) = Some (default "" (last (Py.split sep s))).
Proof.
  destruct (last (Py.split sep s)) eqn:E; [done|].
  apply last_None in E. by apply split_not_nil in E.
Qed.

Lemma join_snoc sep l x :
  l ≠ [] → join sep (l ++ [x]) = join sep l +:+ sep +:+ x.
Proof.
  induction l as [|y l IH]; [done|]. intros _.
  destruct l as [|z l]; [done|].
  change (join sep ((y :: z :: l) ++ [x]))
    with (y +:+ sep +:+ join sep ((z :: l) ++ [x])).
  rewrite IH by done.
  change (join sep (y :: z :: l)) with (y +:+ sep +:+ join sep (z :: l)).
  by rewrite !append_assoc.
Qed.

Lemma join_split s : join "/" (Py.split "/" s) = s.
Proof.
  induction s as [|c r IH]; [done|]. simpl.
  case_bool_decide as Hc.
  - subst c. pose proof (split_not_nil "/" r).
    destruct (Py.split "/" r) as [|w ws] eqn:E; [done|].
    change (join "/" ("" :: w :: ws)) with ("" +:+ "/" +:+ join "/" (w :: ws)).
    by rewrite IH.
  - pose proof (split_not_nil "/" r).
    destruct (Py.split "/" r) as [|w ws] eqn:E; [done|].
    destruct ws as [|w' ws]; simpl in *; by rewrite <- IH.
Qed.

Lemma split_no_sep s :
  Forall (fun w => ("/"%char ∉ Py.chars w)) (Py.split "/" s).
Proof.
  induction s as [|c r IH]; simpl.
  - repeat constructor. simpl. apply not_elem_of_nil.
  - case_bool_decide as Hc.
    + constructor; [simpl; apply not_elem_of_nil | done].
    + destruct (Py.split "/" r) as [|w ws].
      * repeat constructor. simpl. rewrite elem_of_cons.
        intros [?|?%elem_of_nil]; congruence.
      * inversion IH; subst. constructor; [|done].
        simpl. rewrite elem_of_cons. intros [?|?]; [congruence | done].
Qed.

Lemma nodeNameOf_trailing path : trailing_segment path (nodeNameOf path).
Proof.
  unfold nodeNameOf, trailing_segment.
  pose proof (split_not_nil "/" path) as Hn.
  pose proof (split_no_sep path) as Hf.
  pose proof (join_split path) as Hj.
  revert Hn Hf Hj. generalize (Py.split "/" path). intros l.
  destruct l as [|w ws _] using rev_ind; [done|]. intros _ Hf Hj.
  rewrite last_snoc. simpl.
  apply Forall_app in Hf as [_ Hf]. inversion Hf; subst.
  split; [done|].
  destruct ws as [|y ys]; [by left |].
  right. exists (join "/" (y :: ys)). by rewrite join_snoc.
Qed.

Lemma setFilesName_step self path param :
  paramWrapper self = Some (path, param) →
  ∃ self',
    setFilesName self = Ok self' ∧
    paramWrapper self' = Some (path, param) ∧
    gieFilesNames self' = gieFilesNames self ++ [gieFileOf (nodeNameOf path)] ∧
    RIDFilesNames self' = RIDFilesNames self ++ [RIDFileOf (nodeNameOf path)] ∧
    weightsFilesNames self'
      = weightsFilesNames self ++ [weightsFileOf (nodeNameOf path)] ∧
    savedElementsFilesNames self'
      = savedElementsFilesNames self ++ [savedElementsFileOf (nodeNameOf path)] ∧
    listActiveNodesFilesNames self'
      = listActiveNodesFilesNames self ++ [listActiveNodesFileOf (nodeNameOf path)].
Proof.
  intros Hw. unfold setFilesName. rewrite Hw.
  rewrite (getitem_last _ _ (last_split "/" path)). cbn.
  eexists. split; [reflexivity|]. by repeat split.
Qed.

Lemma same_names_replicate (l : list string) x n :
  (1 ≤ n)%nat → same_names (l ++ replicate n x) (l ++ [x]).
Proof.
  intros Hn y. rewrite !elem_of_app, elem_of_replicate, list_elem_of_singleton.
  intuition lia.
Qed.

(** The lists themselves grow: a second call of [setFilesName] on the same
    object leaves every name twice where one call leaves it once. *)
Lemma setFilesName_lists_grow :
  ∃ once twice,
    callN 1 setFilesName docParamWrapped = Ok once ∧
    callN 2 setFilesName docParamWrapped = Ok twice ∧
    gieFilesNames once = ["HyperReducedFEMForceField_finger_Gie.txt"] ∧
    gieFilesNames twice = ["HyperReducedFEMForceField_finger_Gie.txt";
                           "HyperReducedFEMForceField_finger_Gie.txt"] ∧
    gieFilesNames twice ≠ gieFilesNames once ∧
    RIDFilesNames twice ≠ RIDFilesNames once ∧
    weightsFilesNames twice ≠ weightsFilesNames once ∧
    savedElementsFilesNames twice ≠ savedElementsFilesNames once ∧
    listActiveNodesFilesNames twice ≠ listActiveNodesFilesNames once.
Proof.
  eexists _, _. split; [vm_compute; reflexivity|].
  split; [vm_compute; reflexivity|]. cbn.
  repeat split; discriminate.
Qed.

(** C7.  Every call of [setFilesName] appends to each of the five lists the
    name obtained by substituting the trailing segment of the node path
    into the template of the list, and the name is the same at every call.
    So after any number [n >= 1] of calls each of the five lists holds the
    same set of names as after a single call; as lists they have [n] more
    entries than before the calls. *)
Theorem setFilesName_appends self path param n :
  paramWrapper self = Some (path, param) →
  ∃ nodeName self',
    trailing_segment path nodeName ∧
    callN n setFilesName self = Ok self' ∧
    gieFilesNames self'
      = gieFilesNames self ++ replicate n (gieFileOf nodeName) ∧
    RIDFilesNames self'
      = RIDFilesNames self ++ replicate n (RIDFileOf nodeName) ∧
    weightsFilesNames self'
      = weightsFilesNames self ++ replicate n (weightsFileOf nodeName) ∧
    savedElementsFilesNames self'
      = savedElementsFilesNames self
          ++ replicate n (savedElementsFileOf nodeName) ∧
    listActiveNodesFilesNames self'
      = listActiveNodesFilesNames self
          ++ replicate n (listActiveNodesFileOf nodeName) ∧
    ((1 ≤ n)%nat → ∀ once, setFilesName self = Ok once →
       same_names (gieFilesNames self') (gieFilesNames once) ∧
       same_names (RIDFilesNames self') (RIDFilesNames once) ∧
       same_names (weightsFilesNames self') (weightsFilesNames once) ∧
       same_names (savedElementsFilesNames self')
                  (savedElementsFilesNames once) ∧
       same_names (listActiveNodesFilesNames self')
                  (listActiveNodesFilesNames once)).
Proof.
  intros Hw. exists (nodeNameOf path).
  assert (∃ self',
    callN n setFilesName self = Ok self' ∧
    gieFilesNames self'
      = gieFilesNames self ++ replicate n (gieFileOf (nodeNameOf path)) ∧
    RIDFilesNames self'
      = RIDFilesNames self ++ replicate n (RIDFileOf (nodeNameOf path)) ∧
    weightsFilesNames self'
      = weightsFilesNames self ++ replicate n (weightsFileOf (nodeNameOf path)) ∧
    savedElementsFilesNames self'
      = savedElementsFilesNames self
          ++ replicate n (savedElementsFileOf (nodeNameOf path)) ∧
    listActiveNodesFilesNames self'
      = listActiveNodesFilesNames self
          ++ replicate n (listActiveNodesFileOf (nodeNameOf path)))
    as (self' & Hcall & Hg & Hr & Hwt & Hs & Hl).
  { clear -Hw. revert self Hw. induction n as [|n IH]; intros self Hw.
    - exists self. simpl. by rewrite !app_nil_r.
    - destruct (setFilesName_step self path param Hw)
        as (s1 & Hs1 & Hw1 & Hg1 & Hr1 & Hwt1 & Hse1 & Hl1).
      destruct (IH s1 Hw1) as (s' & Hc & Hg & Hr & Hwt & Hse & Hl).
      exists s'. simpl. rewrite Hs1. split; [exact Hc|].
      rewrite Hg, Hr, Hwt, Hse, Hl, Hg1, Hr1, Hwt1, Hse1, Hl1.
      by rewrite <- !app_assoc. }
  exists self'. split; [apply nodeNameOf_trailing|].
  do 6 (split; [assumption|]).
  intros Hn once Honce.
  destruct (setFilesName_step self path param Hw)
    as (s1 & Hs1 & _ & Hg1 & Hr1 & Hwt1 & Hse1 & Hl1).
  rewrite Hs1 in Honce. injection Honce as <-.
  rewrite Hg, Hr, Hwt, Hs, Hl, Hg1, Hr1, Hwt1, Hse1, Hl1.
  repeat split; by apply same_names_replicate.
Qed.

Lemma setFilesName_appends_witness :
  ∃ nodeName self' once,
    trailing_segment "body/finger" nodeName ∧
    callN 3 setFilesName docParamWrapped = Ok self' ∧
    setFilesName docParamWrapped = Ok once ∧
    gieFilesNames self' = [] ++ replicate 3 (gieFileOf nodeName) ∧
    same_names (gieFilesNames self') (gieFilesNames once) ∧
    same_names (RIDFilesNames self') (RIDFilesNames once) ∧
    same_names (weightsFilesNames self') (weightsFilesNames once) ∧
    same_names (savedElementsFilesNames self') (savedElementsFilesNames once) ∧
    same_names (listActiveNodesFilesNames self')
               (listActiveNodesFilesNames once).
Proof.
  destruct (setFilesName_appends docParamWrapped "body/finger"
              (defaultParamPrepare docParam "body/finger") 3 eq_refl)
    as (nodeName & self' & Ht & Hc & Hg & _ & _ & _ & _ & Hsame).
  destruct (setFilesName docParamWrapped) as [once|] eqn:Honce;
    [|discriminate Honce].
  exists nodeName, self', once. split; [exact Ht|]. split; [exact Hc|].
  split; [reflexivity|]. split; [exact Hg|].
  exact (Hsame ltac:(lia) once eq_refl).
Defined.

(** ** Lines and tokens *)

Lemma chars_inj a b : Py.chars a = Py.chars b → a = b.
Proof.
  revert b. induction a as [|x a IH]; intros [|y b] H; simplify_eq/=; [done|].
  f_equal. by apply IH.
Qed.

Lemma chars_rev_app a b :
  Py.chars (String.rev_app a b) = reverse (Py.chars a) ++ Py.chars b.
Proof.
  revert b. induction a as [|x a IH]; intros b; simpl; [done|].
  rewrite IH, reverse_cons. simpl. by rewrite <- app_assoc.
Qed.

Lemma chars_rev a : Py.chars (String.rev a) = reverse (Py.chars a).
Proof. unfold String.rev. by rewrite chars_rev_app, app_nil_r. Qed.

Lemma rev_rev a : String.rev (String.rev a) = a.
Proof. apply chars_inj. by rewrite !chars_rev, reverse_involutive. Qed.

Lemma rev_append a b : String.rev (a +:+ b) = String.rev b +:+ String.rev a.
Proof.
  apply chars_inj. by rewrite chars_rev, !chars_app, !chars_rev, reverse_app.
Qed.

Lemma blank_rev sp : blank sp → blank (String.rev sp).
Proof.
  unfold blank. rewrite chars_rev. intros H.
  rewrite Forall_forall in H |- *. intros c Hc. rewrite elem_of_reverse in Hc. by apply H.
Qed.

Lemma lstrip_split s : ∃ sp, blank sp ∧ s = sp +:+ Py.lstrip s.
Proof.
  induction s as [|c s (sp & Hsp & IH)].
  - exists "". split; [constructor | done].
  - simpl. destruct (Ascii.is_space c) eqn:Hc.
    + exists (String c sp). split; [by constructor|].
      rewrite append_cons. by rewrite <- IH.
    + exists "". split; [constructor | done].
Qed.

Lemma words_go_cons cur c s :
  String.words_go cur (String c s)
  = if Ascii.is_space c
    then option_list (String.rev <$> cur) ++ String.words_go None s
    else String.words_go (Some (from_option (String c) (String c "") cur)) s.
Proof. reflexivity. Qed.

Lemma words_go_blank cur sp :
  blank sp → String.words_go cur sp = option_list (String.rev <$> cur).
Proof.
  revert cur. induction sp as [|c sp IH]; intros cur Hsp; [done|].
  inversion Hsp as [|?? Hc Hsp']; subst.
  rewrite words_go_cons, Hc, IH by done. simpl. by rewrite app_nil_r.
Qed.

Lemma words_go_append_blank cur u sp :
  blank sp → String.words_go cur (u +:+ sp) = String.words_go cur u.
Proof.
  intros Hsp. revert cur. induction u as [|c u IH]; intros cur.
  - by rewrite append_nil_l, words_go_blank.
  - rewrite append_cons, !words_go_cons. by rewrite !IH.
Qed.

Lemma words_blank_append sp s :
  blank sp → String.words (sp +:+ s) = String.words s.
Proof.
  unfold String.words. induction sp as [|c sp IH]; intros Hsp; [done|].
  inversion Hsp as [|?? Hc Hsp']; subst.
  rewrite append_cons, words_go_cons, Hc. simpl. by apply IH.
Qed.

Lemma words_lstrip s : String.words (Py.lstrip s) = String.words s.
Proof.
  destruct (lstrip_split s) as (sp & Hsp & Hs).
  rewrite Hs at 2. by rewrite words_blank_append.
Qed.

Lemma words_strip s : String.words (Py.strip s) = String.words s.
Proof.
  unfold Py.strip.
  destruct (lstrip_split (String.rev (Py.lstrip s))) as (sp & Hsp & Hs).
  apply (f_equal String.rev) in Hs. rewrite rev_rev, rev_append in Hs.
  rewrite <- (words_lstrip s). rewrite Hs at 2.
  unfold String.words. rewrite words_go_append_blank; [done|].
  by apply blank_rev.
Qed.

Lemma readlines_no_newline line :
  ("010"%char ∉ Py.chars line) → line ≠ "" → Py.readlines line = [line].
Proof.
  induction line as [|c line IH]; [done|]. intros Hn _.
  simpl in *. apply not_elem_of_cons in Hn as [Hc Hn].
  rewrite bool_decide_eq_false_2 by done.
  destruct line as [|d line]; [done|]. by rewrite IH.
Qed.

Lemma readlines_first line rest :
  ("010"%char ∉ Py.chars line) →
  Py.readlines (line +:+ Py.newline +:+ rest)
  = (line +:+ Py.newline) :: Py.readlines rest.
Proof.
  induction line as [|c line IH]; intros Hn.
  - reflexivity.
  - simpl in Hn. apply not_elem_of_cons in Hn as [Hc Hn].
    rewrite !append_cons. simpl. rewrite bool_decide_eq_false_2 by done.
    by rewrite IH.
Qed.

Lemma words_append_newline line :
  String.words (line +:+ Py.newline) = String.words line.
Proof.
  apply words_go_append_blank. by repeat constructor.
Qed.

Lemma first_line_tokens content line :
  first_line content line →
  Py.split_ws (Py.strip (Py.readline content)) = String.words line.
Proof.
  intros [Hn [->|[rest ->]]]; unfold Py.split_ws, Py.readline.
  - rewrite words_strip. destruct line as [|c line]; [done|].
    by rewrite readlines_no_newline.
  - by rewrite readlines_first, words_strip, words_append_newline.
Qed.

(** ** Reading the number of modes *)

(** C4, as the specification has it, fails: without a modes file
    [checkNodeNbr] does not fail, it returns [-1]. *)
Lemma checkNodeNbr_missing_file_returns :
  checkNodeNbr docBuilder ∅ "modes.txt" = Ok (-1) ∧
  ¬ raises (checkNodeNbr docBuilder ∅ "modes.txt").
Proof.
  split; [reflexivity|]. intros [e He]. discriminate He.
Qed.

(** C4, amended.  When the modes file exists, [checkNodeNbr] splits its
    first line into blank-separated tokens and returns the second one as an
    integer; a first line ["NDOF 37 extra"] gives [37].  A first line with
    fewer than two tokens raises [IndexError] and a second token that is not
    an integer raises the [ValueError] of [int]: these propagate.  When the
    file is absent the [IOError] is caught and the method returns [-1]. *)
Theorem checkNodeNbr_spec self fs modeFileName :
  (fs !! (dataDir self +:+ modeFileName) = None →
   checkNodeNbr self fs modeFileName = Ok (-1)) ∧
  (∀ content line,
     fs !! (dataDir self +:+ modeFileName) = Some content →
     first_line content line →
     match String.words line with
     | _ :: count :: _ => checkNodeNbr self fs modeFileName = Py.int count
     | _ => checkNodeNbr self fs modeFileName = Raise IndexError
     end) ∧
  (∀ content,
     fs !! (dataDir self +:+ modeFileName) = Some content →
     first_line content "NDOF 37 extra" →
     checkNodeNbr self fs modeFileName = Ok 37).
Proof.
  assert (∀ content line,
     fs !! (dataDir self +:+ modeFileName) = Some content →
     first_line content line →
     match String.words line with
     | _ :: count :: _ => checkNodeNbr self fs modeFileName = Py.int count
     | _ => checkNodeNbr self fs modeFileName = Raise IndexError
     end) as Hgen.
  { intros content line Hfs Hline. unfold checkNodeNbr. rewrite Hfs.
    rewrite (first_line_tokens _ _ Hline).
    destruct (String.words line) as [|t0 [|t1 ts]]; try reflexivity.
    unfold Py.getitem, Py.len. simpl length.
    replace (1 <? 0) with false by reflexivity.
    rewrite andb_true_intro by (split; [apply Z.leb_le | apply Z.ltb_lt]; lia).
    reflexivity. }
  split; [|split].
  - intros Hfs. unfold checkNodeNbr. by rewrite Hfs.
  - exact Hgen.
  - intros content Hfs Hline. exact (Hgen content _ Hfs Hline).
Qed.

Lemma checkNodeNbr_spec_witness :
  checkNodeNbr docBuilder docModesFs "modes.txt" = Ok 37.
Proof.
  apply (proj2 (proj2 (checkNodeNbr_spec docBuilder docModesFs "modes.txt"))
           docModesFile).
  - reflexivity.
  - split.
    + vm_compute. intros H. by repeat (apply elem_of_cons in H as [H|H]; [discriminate H|]);
        apply elem_of_nil in H.
    + right. by exists ("0.5 0.25 0.125" +:+ Py.newline).
Defined.

(** ** Number of modes in [phase3] and [phase4] *)

Ltac case_Z :=
  repeat (match goal with
          | |- context [Z.eqb ?a ?b] => destruct (Z.eqb_spec a b)
          | |- context [Z.leb ?a ?b] => destruct (Z.leb_spec a b)
          | |- context [Z.ltb ?a ?b] => destruct (Z.ltb_spec a b)
          end; cbn [negb orb andb]; try lia).

Lemma docModel_constructed :
  ReduceModel_init id (fun _ => false) "morlib/" "scene.py" "body/finger"
    [docActuator] (1 # 1000) (5 # 100) "out" (Some "myReducedModel") false
    false None 4 None
  = Ok docModel.
Proof. vm_compute. reflexivity. Qed.

(** C3, as the specification has it, fails: the negative request [-1] is
    the sentinel for the available count and raises nothing. *)
Lemma nbrOfModes_minus_one_accepted :
  checkNodeNbr docBuilder docModesFs "modes.txt" = Ok 37 ∧
  phase3_nbrOfModes docModel docModesFs None (Some (-1))
    = Ok (store_nbrOfModes docModel 37, [0; 1], 37) ∧
  phase4_nbrOfModes docModel docModesFs (Some (-1))
    = Ok (store_nbrOfModes docModel 37, 37) ∧
  ¬ raises (phase3_nbrOfModes docModel docModesFs None (Some (-1))) ∧
  ¬ raises (phase4_nbrOfModes docModel docModesFs (Some (-1))).
Proof.
  assert (phase3_nbrOfModes docModel docModesFs None (Some (-1))
          = Ok (store_nbrOfModes docModel 37, [0; 1], 37)) as H3
    by (vm_compute; reflexivity).
  assert (phase4_nbrOfModes docModel docModesFs (Some (-1))
          = Ok (store_nbrOfModes docModel 37, 37)) as H4
    by (vm_compute; reflexivity).
  split; [vm_compute; reflexivity|].
  split; [exact H3|]. split; [exact H4|].
  rewrite H3, H4. split; intros [e He]; discriminate He.
Qed.

(** C3, amended.  With a modes file whose available count is [available]:
    a requested count other than [0] and [-1] that is not within
    [1 .. available] raises [ValueError] (ConfigurationError) and one
    within [1 .. available] is kept; a request of [-1], or no request while
    the stored count is still [-1], resolves to [available], which is stored,
    provided [available] is at least [1]; no request with a stored count
    other than [0] and [-1] is the request of the stored count.  Without a
    modes file both phases raise [IOError]. *)
Theorem nbrOfModes_validation self fs phases available :
  (fs !! modesPath self = None →
   ∀ req, phase3_nbrOfModes self fs phases req = Raise IOError ∧
          phase4_nbrOfModes self fs req = Raise IOError) ∧
  (is_Some (fs !! modesPath self) →
   checkNodeNbr (packageBuilder self) fs (modesFileName (reductionParam self))
     = Ok available →
   (∀ n, n ≠ 0 → n ≠ -1 → n ≤ 0 ∨ available < n →
      phase3_nbrOfModes self fs phases (Some n) = Raise ValueError ∧
      phase4_nbrOfModes self fs (Some n) = Raise ValueError) ∧
   (∀ n, 1 ≤ n ≤ available →
      phase3_nbrOfModes self fs phases (Some n)
        = Ok (self, selected self phases, n) ∧
      phase4_nbrOfModes self fs (Some n) = Ok (self, n)) ∧
   (∀ req,
      req = Some (-1) ∨ (req = None ∧ nbrOfModes (reductionParam self) = -1) →
      (1 ≤ available →
       phase3_nbrOfModes self fs phases req
         = Ok (store_nbrOfModes self available, selected self phases, available) ∧
       phase4_nbrOfModes self fs req
         = Ok (store_nbrOfModes self available, available)) ∧
      (available ≤ 0 →
       phase3_nbrOfModes self fs phases req = Raise ValueError ∧
       phase4_nbrOfModes self fs req = Raise ValueError)) ∧
   (nbrOfModes (reductionParam self) ≠ 0 →
    nbrOfModes (reductionParam self) ≠ -1 →
    phase3_nbrOfModes self fs phases None
      = phase3_nbrOfModes self fs phases (Some (nbrOfModes (reductionParam self))) ∧
    phase4_nbrOfModes self fs None
      = phase4_nbrOfModes self fs (Some (nbrOfModes (reductionParam self))))).
Proof.
  unfold modesPath. split.
  - intros Hfs req. unfold phase3_nbrOfModes, phase4_nbrOfModes.
    rewrite Hfs. rewrite bool_decide_eq_false_2 by (by intros [? ?]). done.
  - intros Hfs Hav.
    assert (Hb : bool_decide
              (is_Some (fs !! (dataDir (packageBuilder self)
                                 +:+ modesFileName (reductionParam self)))) = true)
      by (by apply bool_decide_eq_true_2).
    unfold phase3_nbrOfModes, phase4_nbrOfModes, selected, store_nbrOfModes.
    rewrite Hb, Hav. cbn [negb mbind result_bind].
    unfold int_truthy.
    split; [|split; [|split]].
    + intros n Hn ? ?. change (default 0 (Some n)) with n.
      rewrite (proj2 (Z.eqb_neq n 0) Hn). cbn [negb].
      rewrite (proj2 (Z.eqb_neq n 0) Hn). split; case_Z; done.
    + intros n ?. change (default 0 (Some n)) with n.
      assert (Hn : n ≠ 0) by lia.
      rewrite (proj2 (Z.eqb_neq n 0) Hn). cbn [negb].
      rewrite (proj2 (Z.eqb_neq n 0) Hn). split; case_Z; done.
    + intros req [->|[-> Hst]].
      * change (default 0 (Some (-1))) with (-1).
        change (negb (-1 =? 0)) with true. cbn iota.
        change (-1 =? 0) with false. cbn iota.
        change (-1 =? -1) with true. cbn iota.
        split; intros ?; split; case_Z; done.
      * rewrite Hst. cbn [negb]. cbn iota.
        change (-1 =? 0) with false. cbn iota.
        change (-1 =? -1) with true. cbn iota.
        split; intros ?; split; case_Z; done.
    + intros Hs0 ?.
      change (default 0 (Some (nbrOfModes (reductionParam self))))
        with (nbrOfModes (reductionParam self)).
      cbn [negb]. cbn iota.
      rewrite !(proj2 (Z.eqb_neq _ 0) Hs0). cbn [negb]. cbn iota.
      rewrite !(proj2 (Z.eqb_neq _ 0) Hs0). done.
Qed.

Lemma nbrOfModes_validation_witness :
  phase3_nbrOfModes docModel docModesFs None (Some 40) = Raise ValueError ∧
  phase4_nbrOfModes docModel docModesFs (Some 40) = Raise ValueError.
Proof.
  refine (proj1 (proj2 (nbrOfModes_validation docModel docModesFs None 37)
                   _ _) 40 _ _ _).
  - eexists. reflexivity.
  - vm_compute. reflexivity.
  - lia.
  - lia.
  - right. lia.
Defined.

(** ** Training set *)

Lemma setFilesName_nbTrainingSet self self' :
  setFilesName self = Ok self' → nbTrainingSet self' = nbTrainingSet self.
Proof.
  unfold setFilesName. destruct (paramWrapper self) as [[path param]|]; [|done].
  destruct (Py.getitem (Py.split "/" path) (-1)); [|done].
  cbn. by intros [= <-].
Qed.

Lemma addParamWrapper_nbTrainingSet self node stage ff mm mor :
  nbTrainingSet (fst (addParamWrapper self node stage ff mm mor))
  = nbTrainingSet self.
Proof.
  unfold addParamWrapper.
  by destruct (dict_truthy ff && dict_truthy mm && dict_truthy mor), stage.
Qed.

Lemma getitem_0 {A} (x : A) l : Py.getitem (x :: l) 0 = Ok x.
Proof.
  unfold Py.getitem, Py.len. change (0 <? 0) with false. cbn iota.
  rewrite andb_true_intro; [done|].
  split; [done|]. apply Z.ltb_lt. simpl length. lia.
Qed.

Ltac step_result :=
  match goal with
  | |- context [mbind _ ?r] =>
      let E := fresh "E" in
      destruct r eqn:E; cbn [mbind result_bind]
  end.

(** A float operation gives a float, finite or not. *)
Lemma round_double_kind q :
  match Py.round_double q with
  | Py.PyFloat _ | Py.PyInf _ => True
  | _ => False
  end.
Proof.
  unfold Py.round_double. destruct (Qeq_bool q 0); [done|]. cbv zeta.
  by destruct (Qle_bool (Qpower 2 1024) _).
Qed.

(** C10.  A [ReduceModel] that has been constructed holds as size of the
    training set [int(rangeOfAction / incr)] of the parameters of the first
    [ObjToAnimate] of its list, numbers of either kind: for two integers
    that is the floor quotient, for two floats the quotient of the floats
    cut towards zero.  The other elements of the list have no part in the
    value, and the construction raises when the first element lacks
    [rangeOfAction] or [incr]. *)
Theorem nbTrainingSet_from_first
    (normpath : string → string) (isdir : string → bool) (lib : string)
    (originalScene nodeToReduce : string) (first : ObjToAnimate)
    (others : list ObjToAnimate) (tolModes tolGIE : Q) (outputDir : string)
    (packageName : option string) (addToLib verbose : bool)
    (addRigidBodyModes : option (list Z)) (nbrCPU : Z)
    (phaseToSave : option (list Z)) :
  let construct objs :=
    ReduceModel_init normpath isdir lib originalScene nodeToReduce objs
      tolModes tolGIE outputDir packageName addToLib verbose
      addRigidBodyModes nbrCPU phaseToSave in
  (∀ self, construct (first :: others) = Ok self →
     ∃ rangeOfAction incr quotient,
       params first !! "rangeOfAction" = Some rangeOfAction ∧
       params first !! "incr" = Some incr ∧
       Py.classic_div rangeOfAction incr = Ok quotient ∧
       Py.to_int quotient = Ok (nbTrainingSet (reductionParam self))) ∧
  (∀ self rangeOfAction incr,
     construct (first :: others) = Ok self →
     params first !! "rangeOfAction" = Some (Py.PyInt rangeOfAction) →
     params first !! "incr" = Some (Py.PyInt incr) →
     incr ≠ 0 ∧
     nbTrainingSet (reductionParam self) = rangeOfAction `div` incr) ∧
  (∀ self rangeOfAction incr,
     construct (first :: others) = Ok self →
     params first !! "rangeOfAction" = Some (Py.PyFloat rangeOfAction) →
     params first !! "incr" = Some (Py.PyFloat incr) →
     ¬ (incr == 0)%Q ∧
     ∃ quotient,
       Py.round_double (rangeOfAction / incr)%Q = Py.PyFloat quotient ∧
       nbTrainingSet (reductionParam self) = Py.truncate quotient) ∧
  (∀ others' self self',
     construct (first :: others) = Ok self →
     construct (first :: others') = Ok self' →
     nbTrainingSet (reductionParam self')
     = nbTrainingSet (reductionParam self)) ∧
  (params first !! "rangeOfAction" = None ∨ params first !! "incr" = None →
   raises (construct (first :: others))).
Proof.
  intros construct.
  assert (Hval : ∀ rest self, construct (first :: rest) = Ok self →
     ∃ rangeOfAction incr quotient,
       params first !! "rangeOfAction" = Some rangeOfAction ∧
       params first !! "incr" = Some incr ∧
       Py.classic_div rangeOfAction incr = Ok quotient ∧
       Py.to_int quotient = Ok (nbTrainingSet (reductionParam self))).
  { intros rest self. unfold construct, ReduceModel_init.
    do 3 (step_result; [|done]).
    rewrite !getitem_0. cbn [mbind result_bind].
    unfold Py.dict_get.
    destruct (params first !! "rangeOfAction") as [r|]; [|done].
    destruct (params first !! "incr") as [i|]; [|done].
    cbn [mbind result_bind]. unfold setNbTrainingSet.
    destruct (Py.classic_div r i) as [q|] eqn:Hq; [|done].
    cbn [mbind result_bind].
    destruct (Py.to_int q) as [n|] eqn:Hn; [|done].
    cbn [mbind result_bind].
    step_result; [|done]. intros [= <-]. exists r, i, q.
    repeat split; [done|]. cbn [reductionParam].
    apply setFilesName_nbTrainingSet in E2. rewrite E2.
    by rewrite addParamWrapper_nbTrainingSet. }
  split; [apply Hval|]. split; [|split; [|split]].
  - intros self a b H Ha Hb.
    apply Hval in H as (r & i & q & Hr & Hi & Hq & Hn).
    rewrite Ha in Hr. rewrite Hb in Hi.
    injection Hr as <-. injection Hi as <-.
    unfold Py.classic_div, Py.div in Hq.
    destruct (Z.eqb_spec b 0) as [|Hb0]; [done|].
    cbn [mbind result_bind] in Hq. injection Hq as <-.
    cbn [Py.to_int] in Hn. injection Hn as <-. done.
  - intros self a b H Ha Hb.
    apply Hval in H as (r & i & q & Hr & Hi & Hq & Hn).
    rewrite Ha in Hr. rewrite Hb in Hi.
    injection Hr as <-. injection Hi as <-.
    cbn [Py.classic_div Py.to_float mbind result_bind Py.float_div] in Hq.
    destruct (Qeq_bool b 0) eqn:Hb0; [done|].
    split; [by intros ?%Qeq_eq_bool; congruence|].
    injection Hq as <-.
    pose proof (round_double_kind (a / b)) as Hk.
    destruct (Py.round_double (a / b)) as [z|x|s|]; try done.
    exists x. split; [done|]. cbn [Py.to_int] in Hn. by injection Hn.
  - intros others' self self' H H'.
    apply Hval in H as (r & i & q & Hr & Hi & Hq & Hn).
    apply Hval in H' as (r' & i' & q' & Hr' & Hi' & Hq' & Hn').
    congruence.
  - intros Hlack. destruct (construct (first :: others)) as [self|e] eqn:E.
    + apply Hval in E as (r & i & q & Hr & Hi & _). destruct Hlack; congruence.
    + by exists e.
Qed.

Lemma nbTrainingSet_from_first_witness :
  let construct objs :=
    ReduceModel_init id (fun _ => false) "morlib/" "scene.py" "body/finger"
      objs (1 # 1000) (5 # 100) "out" (Some "myReducedModel") false false
      None 4 None in
  (∃ self,
     construct [docActuator; floatActuator] = Ok self ∧
     nbTrainingSet (reductionParam self) = 40 `div` 5) ∧
  (∃ self,
     construct [floatActuator; docActuator] = Ok self ∧
     nbTrainingSet (reductionParam self) = 2) ∧
  (∃ self self',
     construct [docActuator; floatActuator] = Ok self ∧
     construct [docActuator; plainActuator; stillActuator] = Ok self' ∧
     nbTrainingSet (reductionParam self')
     = nbTrainingSet (reductionParam self)) ∧
  raises (construct [noRangeActuator; docActuator]) ∧
  raises (construct [plainActuator; docActuator]).
Proof.
  intros construct.
  pose (claim := λ first others,
    nbTrainingSet_from_first id (fun _ => false) "morlib/"
      "scene.py" "body/finger" first others (1 # 1000) (5 # 100)
      "out" (Some "myReducedModel") false false None 4 None).
  destruct (construct [docActuator; floatActuator]) as [self|] eqn:H;
    [|by vm_compute in H].
  destruct (construct [floatActuator; docActuator]) as [self2|] eqn:H2;
    [|by vm_compute in H2].
  destruct (construct [docActuator; plainActuator; stillActuator])
    as [self3|] eqn:H3; [|by vm_compute in H3].
  split; [|split; [|split; [|split]]].
  - exists self. split; [done|].
    exact (proj2 (proj1 (proj2 (claim docActuator [floatActuator]))
                    self 40 5 H eq_refl eq_refl)).
  - exists self2. split; [done|].
    destruct (proj1 (proj2 (proj2 (claim floatActuator [docActuator])))
                self2 float_0_3 float_0_1 H2 eq_refl eq_refl)
      as (_ & q & Hq & ->).
    vm_compute in Hq. injection Hq as <-. reflexivity.
  - exists self, self3. split; [done|]. split; [done|].
    exact (proj1 (proj2 (proj2 (proj2 (claim docActuator [floatActuator]))))
             [plainActuator; stillActuator] self self3 H H3).
  - apply (proj2 (proj2 (proj2 (proj2 (claim noRangeActuator [docActuator]))))).
    left. reflexivity.
  - apply (proj2 (proj2 (proj2 (proj2 (claim plainActuator [docActuator]))))).
    right. reflexivity.
Defined.

(** ** Loops and indexing *)

Lemma foldM_app {A S} (body : S → A → result S) s l1 l2 :
  foldM body s (l1 ++ l2) = foldM body s l1 ≫= fun s' => foldM body s' l2.
Proof.
  revert s. induction l1 as [|x l1 IH]; intros s; [done|].
  cbn [foldM app]. destruct (body s x); cbn [mbind result_bind]; [apply IH | done].
Qed.

Lemma foldM_snoc {A S} (body : S → A → result S) s l x :
  foldM body s (l ++ [x]) = foldM body s l ≫= fun s' => body s' x.
Proof.
  rewrite foldM_app. destruct (foldM body s l) as [s'|]; [|done].
  cbn. by destruct (body s' x).
Qed.

Lemma foldM_total {A S} (step : S → A → S) (body : S → A → result S) s l :
  (∀ s x, x ∈ l → body s x = Ok (step s x)) →
  foldM body s l = Ok (foldl step s l).
Proof.
  revert s. induction l as [|x l IH]; intros s Hb; [done|].
  cbn [foldM foldl]. rewrite Hb by left. cbn.
  apply IH. intros ???. apply Hb. by right.
Qed.

Lemma getitem_lookup {A} (l : list A) (k : nat) x :
  l !! k = Some x → Py.getitem l (Z.of_nat k) = Ok x.
Proof.
  intros Hk. pose proof (lookup_lt_Some _ _ _ Hk).
  unfold Py.getitem, Py.len.
  rewrite (proj2 (Z.ltb_ge _ _)) by lia.
  rewrite andb_true_intro by (split; [apply Z.leb_le | apply Z.ltb_lt]; lia).
  by rewrite Nat2Z.id, Hk.
Qed.

Lemma setitem_insert {A} (l : list A) (k : nat) x :
  (k < length l)%nat → Py.setitem l (Z.of_nat k) x = Ok (<[k := x]> l).
Proof.
  intros Hk. unfold Py.setitem, Py.len.
  rewrite (proj2 (Z.ltb_ge _ _)) by lia.
  rewrite andb_true_intro by (split; [apply Z.leb_le | apply Z.ltb_lt]; lia).
  by rewrite Nat2Z.id.
Qed.

(** ** Phase vectors *)

Lemma int_of_bit c :
  c = "0"%char ∨ c = "1"%char → Py.int (String c "") = Ok (bitOf c).
Proof. by intros [->| ->]. Qed.

Lemma fillPhase_prefix (n k : nat) binVal :
  binary binVal →
  (length (Py.chars binVal) ≤ n)%nat →
  (k ≤ length (Py.chars binVal))%nat →
  foldM (fun row j =>
           c ← Py.getitem (Py.chars binVal) j;
           bit ← Py.int (String c "");
           Py.setitem row (j + Z.of_nat n - Py.len (Py.chars binVal)) bit)
        (replicate n 0) (seqZ 0 (Z.of_nat k))
  = Ok (replicate (n - length (Py.chars binVal)) 0
          ++ (bitOf <$> take k (Py.chars binVal))
          ++ replicate (length (Py.chars binVal) - k) 0).
Proof.
  intros Hbin Hn. unfold binary in Hbin.
  set (ds := Py.chars binVal) in *. set (L := length ds) in *.
  induction k as [|k IH]; intros Hk.
  - change (seqZ 0 (Z.of_nat 0)) with (@nil Z). rewrite take_0.
    cbn [foldM fmap list_fmap app].
    rewrite Nat.sub_0_r, <- replicate_add. f_equal. f_equal. lia.
  - rewrite seqZ_S, foldM_snoc, IH by lia. cbn [mbind result_bind].
    destruct (lookup_lt_is_Some_2 ds k) as [c Hc]; [unfold L in *; lia|].
    rewrite Z.add_0_l, (getitem_lookup _ _ _ Hc). cbn [mbind result_bind].
    rewrite int_of_bit
      by (eapply Forall_forall in Hbin; [exact Hbin | by eapply list_elem_of_lookup_2]).
    cbn [mbind result_bind]. unfold Py.len. fold L.
    replace (Z.of_nat k + Z.of_nat n - Z.of_nat L)
      with (Z.of_nat (n - L + k)) by lia.
    assert (Hlt : length (bitOf <$> take k ds) = k).
    { rewrite length_fmap, length_take. unfold L in *. lia. }
    rewrite setitem_insert
      by (rewrite !length_app, !length_replicate, Hlt; lia).
    f_equal.
    rewrite insert_app_r_alt by (rewrite length_replicate; lia).
    rewrite length_replicate. f_equal.
    rewrite insert_app_r_alt by (rewrite Hlt; lia).
    rewrite Hlt. replace (n - L + k - (n - L) - k)%nat with 0%nat by lia.
    replace (L - k)%nat with (S (L - S k)) by lia.
    rewrite (take_S_r _ _ _ Hc), fmap_app. cbn. by rewrite <- app_assoc.
Qed.

Lemma fillPhase_zeros (n : nat) binVal :
  binary binVal →
  (length (Py.chars binVal) ≤ n)%nat →
  fillPhase (Z.of_nat n) binVal (replicate n 0)
  = Ok (replicate (n - length (Py.chars binVal)) 0
          ++ (bitOf <$> Py.chars binVal)).
Proof.
  intros Hbin Hn.
  pose proof (fillPhase_prefix n _ binVal Hbin Hn (le_n _)) as H.
  rewrite take_ge, Nat.sub_diag in H by done.
  cbn [replicate] in H. rewrite app_nil_r in H. exact H.
Qed.

Lemma chars_bin_pos_xO p :
  Py.chars (Py.bin_pos p~0) = Py.chars (Py.bin_pos p) ++ ["0"%char].
Proof. cbn [Py.bin_pos]. by rewrite chars_app. Qed.

Lemma chars_bin_pos_xI p :
  Py.chars (Py.bin_pos p~1) = Py.chars (Py.bin_pos p) ++ ["1"%char].
Proof. cbn [Py.bin_pos]. by rewrite chars_app. Qed.

Lemma binary_bin_pos p : binary (Py.bin_pos p).
Proof.
  unfold binary. induction p as [p IH|p IH|].
  - rewrite chars_bin_pos_xI. apply Forall_app. split; [done|].
    constructor; [by right | constructor].
  - rewrite chars_bin_pos_xO. apply Forall_app. split; [done|].
    constructor; [by left | constructor].
  - constructor; [by right | constructor].
Qed.

Lemma length_bin_pos p : length (Py.chars (Py.bin_pos p)) = Pos.size_nat p.
Proof.
  induction p as [p IH|p IH|]; [| |done].
  - rewrite chars_bin_pos_xI, length_app, IH. simpl. lia.
  - rewrite chars_bin_pos_xO, length_app, IH. simpl. lia.
Qed.

Lemma size_nat_bound p (n : nat) :
  Z.pos p < 2 ^ Z.of_nat n → (Pos.size_nat p ≤ n)%nat.
Proof.
  revert n. induction p as [p IH|p IH|]; intros [|n] Hp; simpl in *; try lia.
  - rewrite Nat2Z.inj_succ, Z.pow_succ_r in Hp by lia.
    apply le_n_S, IH. lia.
  - rewrite Nat2Z.inj_succ, Z.pow_succ_r in Hp by lia.
    apply le_n_S, IH. lia.
Qed.

Lemma bitsOf_0 n : bitsOf n 0 = replicate n 0.
Proof.
  induction n as [|n IH]; [done|]. cbn [bitsOf].
  change (0 `div` 2) with 0. change (0 `mod` 2) with 0.
  by rewrite IH, replicate_S_end.
Qed.

Lemma pad_bin_pos p (n : nat) :
  (Pos.size_nat p ≤ n)%nat →
  replicate (n - Pos.size_nat p) 0 ++ (bitOf <$> Py.chars (Py.bin_pos p))
  = bitsOf n (Z.pos p).
Proof.
  revert n. induction p as [p IH|p IH|]; intros [|n] Hn; simpl in Hn; try lia.
  - rewrite chars_bin_pos_xI, fmap_app, app_assoc. cbn [bitsOf Pos.size_nat].
    replace (Z.pos p~1 `div` 2) with (Z.pos p)
      by (rewrite Pos2Z.inj_xI; apply Z.div_unique with 1; lia).
    replace (Z.pos p~1 `mod` 2) with 1
      by (rewrite Pos2Z.inj_xI; apply Z.mod_unique with (Z.pos p); lia).
    replace (S n - S (Pos.size_nat p))%nat with (n - Pos.size_nat p)%nat by lia.
    rewrite IH by lia. done.
  - rewrite chars_bin_pos_xO, fmap_app, app_assoc. cbn [bitsOf Pos.size_nat].
    replace (Z.pos p~0 `div` 2) with (Z.pos p)
      by (rewrite Pos2Z.inj_xO; apply Z.div_unique with 0; lia).
    replace (Z.pos p~0 `mod` 2) with 0
      by (rewrite Pos2Z.inj_xO; apply Z.mod_unique with (Z.pos p); lia).
    replace (S n - S (Pos.size_nat p))%nat with (n - Pos.size_nat p)%nat by lia.
    rewrite IH by lia. done.
  - cbn [bitsOf Pos.size_nat]. change (1 `div` 2) with 0.
    change (1 `mod` 2) with 1. rewrite bitsOf_0.
    replace (S n - 1)%nat with n by lia. done.
Qed.

Lemma fillPhase_format (n : nat) i :
  (1 ≤ n)%nat → 0 ≤ i < 2 ^ Z.of_nat n →
  fillPhase (Z.of_nat n) (Py.format_b i) (replicate n 0) = Ok (bitsOf n i).
Proof.
  intros Hn [Hi0 Hi]. destruct i as [|p|p]; [| |lia].
  - rewrite fillPhase_zeros;
      [|constructor; [by left | constructor] | simpl; lia].
    rewrite bitsOf_0. cbn [Py.format_b Py.chars length fmap list_fmap].
    replace n with (S (n - 1)) at 2 by lia. by rewrite replicate_S_end.
  - pose proof (size_nat_bound p n Hi) as Hs. cbn [Py.format_b].
    rewrite fillPhase_zeros;
      [|apply binary_bin_pos | by rewrite length_bin_pos].
    by rewrite length_bin_pos, pad_bin_pos.
Qed.

Lemma phaseNumTable_prefix (n k : nat) :
  (1 ≤ n)%nat → Z.of_nat k ≤ 2 ^ Z.of_nat n →
  foldM (fun phaseNum i =>
           row ← Py.getitem phaseNum i;
           row' ← fillPhase (Z.of_nat n) (Py.format_b i) row;
           Py.setitem phaseNum i row')
        (replicate (Z.to_nat (2 ^ Z.of_nat n)) (replicate n 0))
        (seqZ 0 (Z.of_nat k))
  = Ok ((bitsOf n <$> seqZ 0 (Z.of_nat k))
          ++ replicate (Z.to_nat (2 ^ Z.of_nat n) - k) (replicate n 0)).
Proof.
  intros Hn. set (P := Z.to_nat (2 ^ Z.of_nat n)).
  assert (HP : Z.of_nat P = 2 ^ Z.of_nat n) by (unfold P; lia).
  induction k as [|k IH]; intros Hk.
  - change (seqZ 0 (Z.of_nat 0)) with (@nil Z).
    cbn [foldM fmap list_fmap app]. by rewrite Nat.sub_0_r.
  - rewrite seqZ_S, foldM_snoc, IH by lia. cbn [mbind result_bind].
    rewrite Z.add_0_l.
    assert (Hlen : length (bitsOf n <$> seqZ 0 (Z.of_nat k)) = k)
      by (rewrite length_fmap, length_seqZ; lia).
    rewrite (getitem_lookup _ _ (replicate n 0)).
    2:{ rewrite lookup_app_r by lia. rewrite Hlen.
        apply lookup_replicate_2. lia. }
    cbn [mbind result_bind]. rewrite fillPhase_format by lia.
    cbn [mbind result_bind].
    rewrite setitem_insert
      by (rewrite length_app, length_replicate, Hlen; lia).
    f_equal. rewrite insert_app_r_alt by lia.
    rewrite Hlen, Nat.sub_diag.
    replace (P - k)%nat with (S (P - S k)) by lia.
    rewrite fmap_app. cbn. by rewrite <- app_assoc.
Qed.

Lemma phaseNumTable_eq (n : nat) :
  (1 ≤ n)%nat →
  phaseNumTable (2 ^ Z.of_nat n) (Z.of_nat n)
  = Ok (bitsOf n <$> seqZ 0 (2 ^ Z.of_nat n)).
Proof.
  intros Hn. unfold phaseNumTable, Py.range. rewrite Nat2Z.id.
  pose proof (phaseNumTable_prefix n (Z.to_nat (2 ^ Z.of_nat n)) Hn) as H.
  rewrite Z2Nat.id, Nat.sub_diag in H by lia.
  cbn [replicate] in H. rewrite app_nil_r in H. apply H. lia.
Qed.

Lemma classify_inner (phaseNum : list (list Z)) nb acc (k : nat) :
  (k ≤ length phaseNum)%nat →
  foldM (fun acc i =>
           row ← Py.getitem phaseNum i;
           if Py.sum row =? nb then Ok (acc ++ [row]) else Ok acc)
        acc (seqZ 0 (Z.of_nat k))
  = Ok (acc ++ filter (fun v => Py.sum v = nb) (take k phaseNum)).
Proof.
  induction k as [|k IH]; intros Hk.
  - change (seqZ 0 (Z.of_nat 0)) with (@nil Z). rewrite take_0.
    cbn [foldM]. by rewrite filter_nil, app_nil_r.
  - rewrite seqZ_S, foldM_snoc, IH by lia. cbn [mbind result_bind].
    destruct (lookup_lt_is_Some_2 phaseNum k) as [row Hrow]; [lia|].
    rewrite Z.add_0_l, (getitem_lookup _ _ _ Hrow). cbn [mbind result_bind].
    rewrite (take_S_r _ _ _ Hrow), filter_app.
    destruct (Z.eqb_spec (Py.sum row) nb).
    + rewrite (filter_cons_True _ row []) by done. by rewrite <- app_assoc.
    + rewrite (filter_cons_False _ row []) by done. by rewrite app_nil_r.
Qed.

Lemma classifyPhases_eq (phaseNum : list (list Z)) nbActuator :
  classifyPhases phaseNum (Py.len phaseNum) nbActuator
  = Ok (concat ((fun nb => filter (fun v => Py.sum v = nb) phaseNum)
                  <$> seqZ 0 (nbActuator + 1))).
Proof.
  unfold classifyPhases, Py.range, Py.len.
  rewrite (foldM_total
             (fun acc nb => acc ++ filter (fun v => Py.sum v = nb) phaseNum)).
  - f_equal. generalize (seqZ 0 (nbActuator + 1)).
    assert (∀ (l : list Z) (acc : list (list Z)),
      foldl (fun acc nb => acc ++ filter (fun v => Py.sum v = nb) phaseNum) acc l
      = acc ++ concat ((fun nb => filter (fun v => Py.sum v = nb) phaseNum) <$> l))
      as H.
    { induction l as [|x l IH]; intros acc; cbn; [by rewrite app_nil_r|].
      by rewrite IH, app_assoc. }
    intros l. apply (H l []).
  - intros acc nb _. rewrite classify_inner by done.
    by rewrite take_ge.
Qed.

Lemma generateListOfPhase_eq self n :
  1 ≤ n →
  generateListOfPhase self (2 ^ n) n
  = Ok (set_phaseNumClass self (Some (phaseClasses n))).
Proof.
  intros Hn. unfold generateListOfPhase.
  rewrite <- (Z2Nat.id n) at 1 2 by lia.
  rewrite phaseNumTable_eq by lia. cbn [mbind result_bind].
  rewrite Z2Nat.id by lia.
  pose proof (classifyPhases_eq (bitsOf (Z.to_nat n) <$> seqZ 0 (2 ^ n)) n) as H.
  replace (Py.len (bitsOf (Z.to_nat n) <$> seqZ 0 (2 ^ n))) with (2 ^ n) in H
    by (unfold Py.len; rewrite length_fmap, length_seqZ; lia).
  by rewrite H.
Qed.

Lemma valueOf_snoc l b : valueOf (l ++ [b]) = 2 * valueOf l + b.
Proof. unfold valueOf. by rewrite foldl_app. Qed.

Lemma sum_snoc l b : Py.sum (l ++ [b]) = Py.sum l + b.
Proof. unfold Py.sum. induction l as [|x l IH]; cbn in *; lia. Qed.

Lemma length_bitsOf n i : length (bitsOf n i) = n.
Proof.
  revert i. induction n as [|n IH]; intros i; [done|].
  cbn [bitsOf]. rewrite length_app, IH. simpl. lia.
Qed.

Lemma bits_bitsOf n i : Forall (fun b => b = 0 ∨ b = 1) (bitsOf n i).
Proof.
  revert i. induction n as [|n IH]; intros i; [constructor|].
  cbn [bitsOf]. apply Forall_app. split; [apply IH|].
  constructor; [|constructor]. pose proof (Z.mod_pos_bound i 2). lia.
Qed.

Lemma valueOf_bitsOf n i :
  0 ≤ i < 2 ^ Z.of_nat n → valueOf (bitsOf n i) = i.
Proof.
  revert i. induction n as [|n IH]; intros i Hi.
  - change (2 ^ Z.of_nat 0) with 1 in Hi. cbn. lia.
  - rewrite Nat2Z.inj_succ, Z.pow_succ_r in Hi by lia.
    cbn [bitsOf]. rewrite valueOf_snoc, IH.
    + pose proof (Z.div_mod i 2). lia.
    + split; [apply Z.div_pos; lia | apply Z.div_lt_upper_bound; lia].
Qed.

Lemma bitsOf_valueOf v :
  Forall (fun b => b = 0 ∨ b = 1) v →
  bitsOf (length v) (valueOf v) = v ∧ 0 ≤ valueOf v < 2 ^ Z.of_nat (length v).
Proof.
  induction v as [|b v IH] using rev_ind; intros Hv.
  - split; [done|]. cbn. lia.
  - apply Forall_app in Hv as [Hv Hb]. inversion Hb as [|?? Hb' _]; subst.
    destruct (IH Hv) as [IH1 IH2].
    rewrite length_app, Nat.add_1_r, valueOf_snoc.
    rewrite Nat2Z.inj_succ, Z.pow_succ_r by lia.
    split; [|lia]. cbn [bitsOf].
    replace ((2 * valueOf v + b) `div` 2) with (valueOf v)
      by (apply Z.div_unique with b; lia).
    replace ((2 * valueOf v + b) `mod` 2) with b
      by (apply Z.mod_unique with (valueOf v); lia).
    by rewrite IH1.
Qed.

Lemma sum_bits v :
  Forall (fun b => b = 0 ∨ b = 1) v → 0 ≤ Py.sum v ≤ Py.len v.
Proof.
  unfold Py.sum, Py.len. induction 1 as [|b v Hb _ IH]; cbn [foldr length]; lia.
Qed.

(** ** Lists split into classes *)

Lemma filter_lt_succ {A} (w : A → Z) (l : list A) (m : Z) :
  filter (fun x => w x < m + 1) l
  ≡ₚ filter (fun x => w x < m) l ++ filter (fun x => w x = m) l.
Proof.
  induction l as [|x l IH]; [done|].
  rewrite !filter_cons.
  destruct (decide (w x < m + 1)), (decide (w x < m)), (decide (w x = m));
    try lia; rewrite IH; [done| |done].
  by rewrite Permutation_middle.
Qed.

Lemma classes_perm {A} (w : A → Z) (l : list A) (m : nat) :
  (∀ x, x ∈ l → 0 ≤ w x) →
  concat ((fun k => filter (fun x => w x = k) l) <$> seqZ 0 (Z.of_nat m))
  ≡ₚ filter (fun x => w x < Z.of_nat m) l.
Proof.
  intros Hw. induction m as [|m IH].
  - change (seqZ 0 (Z.of_nat 0)) with (@nil Z). cbn [fmap list_fmap concat].
    symmetry. apply Permutation_nil_r.
    apply elem_of_nil_inv. intros x [Hx Hin]%list_elem_of_filter.
    specialize (Hw x Hin). cbn in Hx. lia.
  - rewrite seqZ_S, fmap_app, concat_app, IH. cbn [fmap list_fmap concat].
    rewrite app_nil_r, Z.add_0_l, Nat2Z.inj_succ, <- Z.add_1_r.
    by rewrite filter_lt_succ.
Qed.

Lemma classes_sorted (l : list (list Z)) (m : nat) :
  StronglySorted (fun u v => valueOf u < valueOf v) l →
  StronglySorted phase_lt
    (concat ((fun k => filter (fun v => Py.sum v = k) l) <$> seqZ 0 (Z.of_nat m)))
  ∧ ∀ v, v ∈ concat ((fun k => filter (fun v => Py.sum v = k) l)
                        <$> seqZ 0 (Z.of_nat m)) → Py.sum v < Z.of_nat m.
Proof.
  intros Hl. induction m as [|m [IH1 IH2]].
  - change (seqZ 0 (Z.of_nat 0)) with (@nil Z). cbn [fmap list_fmap concat].
    split; [constructor|]. by intros v ?%elem_of_nil.
  - rewrite seqZ_S, fmap_app, concat_app. cbn [fmap list_fmap concat].
    rewrite app_nil_r, Z.add_0_l. split.
    + apply StronglySorted_app. split; [|split; [done|]].
      * intros u v Hu [Hv _]%list_elem_of_filter. left.
        specialize (IH2 u Hu). lia.
      * clear IH1 IH2. induction Hl as [|u l Hl IH Hu]; [constructor|].
        rewrite filter_cons. destruct (decide (Py.sum u = Z.of_nat m)); [|done].
        constructor; [done|].
        apply Forall_forall. intros v [Hv Hin]%list_elem_of_filter.
        right. split; [congruence|].
        rewrite Forall_forall in Hu. by apply Hu.
    + intros v [Hv|[Hv _]%list_elem_of_filter]%elem_of_app.
      * specialize (IH2 v Hv). lia.
      * lia.
Qed.

Lemma bitsOf_table_sorted (n k : nat) :
  Z.of_nat k ≤ 2 ^ Z.of_nat n →
  StronglySorted (fun u v => valueOf u < valueOf v)
    (bitsOf n <$> seqZ 0 (Z.of_nat k)).
Proof.
  induction k as [|k IH]; intros Hk.
  - change (seqZ 0 (Z.of_nat 0)) with (@nil Z). constructor.
  - rewrite seqZ_S, fmap_app. apply StronglySorted_app.
    split; [|split; [apply IH; lia | repeat constructor]].
    intros u v (i & -> & Hi%elem_of_seqZ)%list_elem_of_fmap
      ->%list_elem_of_singleton.
    rewrite !valueOf_bitsOf by lia. lia.
Qed.

Lemma StronglySorted_lookup {A} (R : A → A → Prop) l (a b : nat) u v :
  StronglySorted R l → (a < b)%nat →
  l !! a = Some u → l !! b = Some v → R u v.
Proof.
  intros Hl Hab Hu Hv. rewrite <- (take_drop b l) in Hl.
  eapply StronglySorted_app_1_elem_of; [exact Hl | |].
  - apply (list_elem_of_lookup_2 _ a). by rewrite lookup_take_lt.
  - apply (list_elem_of_lookup_2 _ 0). by rewrite lookup_drop, Nat.add_0_r.
Qed.

Lemma filter_all {A} (P : A → Prop) `{∀ x, Decision (P x)} (l : list A) :
  (∀ x, x ∈ l → P x) → filter P l = l.
Proof.
  induction l as [|x l IH]; intros Hl; [done|].
  rewrite filter_cons_True by (apply Hl; left).
  f_equal. apply IH. intros y Hy. apply Hl. by right.
Qed.

Lemma phaseClasses_perm n :
  0 ≤ n → phaseClasses n ≡ₚ bitsOf (Z.to_nat n) <$> seqZ 0 (2 ^ n).
Proof.
  intros Hn. unfold phaseClasses.
  replace (n + 1) with (Z.of_nat (S (Z.to_nat n))) by lia.
  rewrite classes_perm.
  - rewrite filter_all; [done|].
    intros v (i & -> & _)%list_elem_of_fmap.
    pose proof (sum_bits _ (bits_bitsOf (Z.to_nat n) i)) as Hs.
    unfold Py.len in Hs. rewrite length_bitsOf in Hs. cbn beta. lia.
  - intros v (i & -> & _)%list_elem_of_fmap.
    apply (sum_bits _ (bits_bitsOf (Z.to_nat n) i)).
Qed.

Lemma phaseClasses_len n : 0 ≤ n → Py.len (phaseClasses n) = 2 ^ n.
Proof.
  intros Hn. unfold Py.len.
  rewrite (phaseClasses_perm n Hn), length_fmap, length_seqZ. lia.
Qed.

Lemma phaseClasses_elem n v :
  0 ≤ n → v ∈ phaseClasses n ↔ is_phase n v.
Proof.
  intros Hn. rewrite (phaseClasses_perm n Hn), list_elem_of_fmap.
  unfold is_phase, Py.len. split.
  - intros (i & -> & _). rewrite length_bitsOf.
    split; [lia | apply bits_bitsOf].
  - intros [Hlen Hbits]. destruct (bitsOf_valueOf v Hbits) as [Hv Hr].
    exists (valueOf v). replace (Z.to_nat n) with (length v) by lia.
    split; [done|]. apply elem_of_seqZ. rewrite <- Hlen. lia.
Qed.

Lemma phaseClasses_NoDup n : 0 ≤ n → NoDup (phaseClasses n).
Proof.
  intros Hn. rewrite (phaseClasses_perm n Hn).
  apply NoDup_fmap_2_strong; [|apply NoDup_seqZ].
  intros i j Hi%elem_of_seqZ Hj%elem_of_seqZ Heq.
  apply (f_equal valueOf) in Heq.
  rewrite !valueOf_bitsOf in Heq by (rewrite Z2Nat.id; lia). done.
Qed.

Lemma phaseClasses_sorted n :
  0 ≤ n → StronglySorted phase_lt (phaseClasses n).
Proof.
  intros Hn. unfold phaseClasses.
  replace (n + 1) with (Z.of_nat (S (Z.to_nat n))) by lia.
  apply classes_sorted.
  replace (2 ^ n) with (Z.of_nat (Z.to_nat (2 ^ n))) by lia.
  apply bitsOf_table_sorted. rewrite !Z2Nat.id; lia.
Qed.

(** C2, as the specification has it, fails at [n = 0]: the binary text of
    [0] has one digit and no place in a vector of length [0]. *)
Lemma generateListOfPhase_zero_actuators :
  generateListOfPhase docAnimations (2 ^ 0) 0 = Raise IndexError ∧
  ReductionAnimations_init [] = Raise IndexError.
Proof. split; vm_compute; reflexivity. Qed.

(** C2, amended.  For every number [n >= 1] of actuators (so for [n] from
    [1] to [6]), [generateListOfPhase] stores a list of [2^n] vectors that
    holds every vector of [n] bits exactly once, by increasing weight and,
    among vectors of equal weight, by strictly increasing value of the
    bits read in base 2. *)
Theorem generateListOfPhase_enumerates self n :
  1 ≤ n →
  ∃ classes,
    generateListOfPhase self (2 ^ n) n
      = Ok (set_phaseNumClass self (Some classes)) ∧
    Py.len classes = 2 ^ n ∧
    NoDup classes ∧
    (∀ v, v ∈ classes ↔ is_phase n v) ∧
    (∀ (a b : nat) u v,
       (a < b)%nat → classes !! a = Some u → classes !! b = Some v →
       phase_lt u v).
Proof.
  intros Hn. exists (phaseClasses n).
  split; [by apply generateListOfPhase_eq|].
  split; [apply phaseClasses_len; lia|].
  split; [apply phaseClasses_NoDup; lia|].
  split; [intros v; apply phaseClasses_elem; lia|].
  intros a b u v. apply StronglySorted_lookup, phaseClasses_sorted. lia.
Qed.

Lemma generateListOfPhase_enumerates_witness :
  ∃ classes,
    generateListOfPhase docAnimations (2 ^ 2) 2
      = Ok (set_phaseNumClass docAnimations (Some classes)) ∧
    Py.len classes = 2 ^ 2 ∧
    NoDup classes ∧
    (∀ v, v ∈ classes ↔ is_phase 2 v) ∧
    (∀ (a b : nat) u v,
       (a < b)%nat → classes !! a = Some u → classes !! b = Some v →
       phase_lt u v).
Proof.
  apply (generateListOfPhase_enumerates docAnimations 2). lia.
Defined.

Example generateListOfPhase_two_actuators :
  generateListOfPhase docAnimations (2 ^ 2) 2
  = Ok (set_phaseNumClass docAnimations (Some [[0; 0]; [0; 1]; [1; 0]; [1; 1]])).
Proof. vm_compute. reflexivity. Qed.

(** ** The list of scenes *)

Lemma index_from_elem `{EqDecision A} (x : A) l i :
  x ∈ l → ∃ idx, index_from i x l = Ok idx.
Proof.
  revert i. induction l as [|y l IH]; intros i Hx; [by apply elem_of_nil in Hx|].
  cbn [index_from]. destruct (decide (y = x)); [by eexists|].
  apply elem_of_cons in Hx as [->|Hx]; [done|]. by apply IH.
Qed.

Lemma getitem_phaseAt classes i :
  0 ≤ i < Py.len classes → Py.getitem classes i = Ok (phaseAt classes i).
Proof.
  intros Hi. unfold phaseAt, Py.len in *.
  destruct (lookup_lt_is_Some_2 classes (Z.to_nat i)) as [v Hv]; [lia|].
  rewrite Hv. cbn. rewrite <- (Z2Nat.id i) at 1 by lia.
  by apply getitem_lookup.
Qed.

Lemma appendSofaScene_valid self classes toSave i :
  phaseNumClass (reductionAnimations self) = Some classes →
  Py.len classes = nbPossibility (reductionAnimations self) →
  phaseToSave self = Some toSave →
  valid_phase self i →
  ∃ self',
    appendSofaScene self i = Ok self' ∧
    same_setting self self' ∧
    listSofaScene self'
    = listSofaScene self ++ [sceneOf self toSave (phaseAt classes i)].
Proof.
  intros Hc Hl Hp [Hi0 Hi]. unfold appendSofaScene.
  rewrite (proj2 (Z.leb_gt _ _)) by lia.
  rewrite (proj2 (Z.ltb_ge _ _)) by lia. cbn [orb].
  rewrite Hc, getitem_phaseAt by lia. cbn [mbind result_bind].
  rewrite Hp. change (default [] (Some toSave)) with toSave.
  destruct (decide (toSave = phaseAt classes i)) as [Heq|Hne].
  - destruct (index_from_elem toSave classes 0) as [idx Hidx].
    { rewrite Heq. unfold phaseAt.
      destruct (lookup_lt_is_Some_2 classes (Z.to_nat i)) as [v Hv];
        [unfold Py.len in *; lia|].
      rewrite Hv. by eapply list_elem_of_lookup_2. }
    rewrite Hidx. cbn [mbind result_bind].
    eexists. split; [reflexivity|]. split; [done|].
    cbn. by rewrite Hp.
  - cbn [mbind result_bind]. eexists. split; [reflexivity|]. split; [done|].
    cbn. by rewrite Hp.
Qed.

Lemma sceneOf_same_setting self self' toSave phase :
  same_setting self self' → sceneOf self' toSave phase = sceneOf self toSave phase.
Proof. intros (Ho & Hra & Hrp & _). unfold sceneOf. by rewrite Ho, Hra, Hrp. Qed.

Lemma scene_loop self classes toSave phases :
  phaseNumClass (reductionAnimations self) = Some classes →
  Py.len classes = nbPossibility (reductionAnimations self) →
  phaseToSave self = Some toSave →
  Forall (valid_phase self) phases →
  ∃ self',
    foldM appendSofaScene self phases = Ok self' ∧
    same_setting self self' ∧
    listSofaScene self'
    = listSofaScene self ++ (sceneOf self toSave ∘ phaseAt classes <$> phases).
Proof.
  intros Hc Hl Hp Hv. revert self Hc Hl Hp Hv.
  induction phases as [|i phases IH]; intros self Hc Hl Hp Hv.
  - exists self. cbn. by rewrite app_nil_r.
  - inversion Hv as [|?? Hi Hv']; subst. cbn [foldM].
    destruct (appendSofaScene_valid self classes toSave i Hc Hl Hp Hi)
      as (s & Hs & Hsame & Hls).
    rewrite Hs. cbn [mbind result_bind].
    pose proof Hsame as (Ho & Hra & Hrp & Hps).
    destruct (IH s) as (self' & Hf & (Ho' & Hra' & Hrp' & Hps') & Hl').
    + by rewrite Hra.
    + by rewrite Hra.
    + by rewrite Hps.
    + eapply Forall_impl; [exact Hv'|]. intros j. unfold valid_phase.
      by rewrite Hra.
    + exists self'. split; [exact Hf|]. split.
      * repeat split; congruence.
      * rewrite Hl', Hls, <- app_assoc. f_equal. cbn [fmap list_fmap app].
        f_equal. apply list_fmap_ext. intros _ j _. cbn.
        by apply sceneOf_same_setting.
Qed.

Lemma setListSofaScene_loop self phases classes :
  well_formed self classes →
  setListSofaScene self phases
  = foldM appendSofaScene
      (set_phaseToSave (set_listSofaScene self [])
         (Some (resolvedPhaseToSave (phaseToSave self) classes)))
      (selected self phases).
Proof.
  intros (Hc & Hl & Hn). unfold setListSofaScene, selected, resolvedPhaseToSave.
  cbn [reductionAnimations phaseToSave set_listSofaScene].
  destruct (list_truthy (phaseToSave self)) eqn:Ht.
  - cbn [mbind result_bind]. f_equal.
    destruct self as [? ? ? ? ? [[|x l]|] ? ? ? ? ?]; try discriminate Ht.
    reflexivity.
  - rewrite Hc, getitem_phaseAt by lia. cbn [mbind result_bind].
    unfold phaseAt, Py.len. rewrite Nat2Z.id. change (Z.to_nat 0) with 0%nat.
    by rewrite head_lookup.
Qed.

Lemma resolvedPhaseToSave_again p classes :
  resolvedPhaseToSave (Some (resolvedPhaseToSave p classes)) classes
  = resolvedPhaseToSave p classes.
Proof.
  assert (∀ r : list Z,
            r = replicate (length (default [] (head classes))) 0 →
            resolvedPhaseToSave (Some r) classes = r) as Hr.
  { intros r Hr. unfold resolvedPhaseToSave. by destruct r. }
  unfold resolvedPhaseToSave at 2 3.
  destruct p as [[|y k]|]; cbn [list_truthy]; [by apply Hr | done | by apply Hr].
Qed.

Lemma setListSofaScene_ok self phases classes :
  well_formed self classes →
  Forall (valid_phase self) (selected self phases) →
  ∃ self',
    setListSofaScene self phases = Ok self' ∧
    originalScene self' = originalScene self ∧
    reductionAnimations self' = reductionAnimations self ∧
    reductionParam self' = reductionParam self ∧
    phaseToSave self' = Some (resolvedPhaseToSave (phaseToSave self) classes) ∧
    listSofaScene self'
    = sceneOf self (resolvedPhaseToSave (phaseToSave self) classes)
        ∘ phaseAt classes <$> selected self phases.
Proof.
  intros Hwf Hv. rewrite (setListSofaScene_loop self phases classes Hwf).
  destruct Hwf as (Hc & Hl & Hn).
  set (toSave := resolvedPhaseToSave (phaseToSave self) classes).
  set (start := set_phaseToSave (set_listSofaScene self []) (Some toSave)).
  destruct (scene_loop start classes toSave (selected self phases))
    as (self' & Hf & (Ho & Hra & Hrp & Hps) & Hls); try done.
  exists self'. split; [exact Hf|]. by repeat split.
Qed.

Lemma first_invalid {A} (P : A → Prop) `{∀ x, Decision (P x)} (l : list A) bad :
  bad ∈ l → ¬ P bad →
  ∃ pre b post, l = pre ++ b :: post ∧ Forall P pre ∧ ¬ P b.
Proof.
  induction l as [|x l IH]; intros Hin Hbad; [by apply elem_of_nil in Hin|].
  destruct (decide (P x)) as [Hx|Hx].
  - apply elem_of_cons in Hin as [->|Hin]; [done|].
    destruct (IH Hin Hbad) as (pre & b & post & -> & Hpre & Hb).
    exists (x :: pre), b, post. split; [done|]. split; [by constructor | done].
  - exists [], x, l. split; [done|]. split; [constructor | done].
Qed.

Lemma setListSofaScene_invalid self phases classes bad :
  well_formed self classes →
  bad ∈ phases → ¬ valid_phase self bad →
  setListSofaScene self (Some phases) = Raise TypeError.
Proof.
  intros Hwf Hin Hbad.
  rewrite (setListSofaScene_loop self (Some phases) classes Hwf).
  destruct Hwf as (Hc & Hl & Hn).
  assert (selected self (Some phases) = phases) as ->.
  { unfold selected. destruct phases; [by apply elem_of_nil in Hin | done]. }
  destruct (first_invalid (valid_phase self) phases bad Hin Hbad)
    as (pre & b & post & -> & Hpre & Hb).
  set (toSave := resolvedPhaseToSave (phaseToSave self) classes).
  set (start := set_phaseToSave (set_listSofaScene self []) (Some toSave)).
  destruct (scene_loop start classes toSave pre)
    as (s & Hf & (Ho & Hra & Hrp & Hps) & Hls); try done.
  rewrite foldM_app, Hf. cbn [mbind result_bind foldM].
  unfold appendSofaScene. rewrite Hra. cbn [start reductionAnimations
    set_phaseToSave set_listSofaScene].
  unfold valid_phase in Hb.
  destruct (Z.leb_spec (nbPossibility (reductionAnimations self)) b);
    destruct (Z.ltb_spec b 0); cbn [orb mbind result_bind]; (done || lia).
Qed.

(** C8.  The code at a phase index that does not exist: with one actuator
    there are the phases [0] and [1], and [phasesToExecute = [2]] makes
    [setListSofaScene] raise [TypeError], not [ValueError]. *)
Theorem setListSofaScene_invalid_phase_TypeError :
  nbPossibility (reductionAnimations docModel) = 2 ∧
  setListSofaScene docModel (Some [2]) = Raise TypeError ∧
  setListSofaScene docModel (Some [2]) ≠ Raise ValueError.
Proof.
  split; [reflexivity|].
  assert (setListSofaScene docModel (Some [2]) = Raise TypeError) as ->.
  { apply (setListSofaScene_invalid docModel [2] [[0]; [1]] 2).
    - by repeat split.
    - by left.
    - unfold valid_phase. cbn. lia. }
  split; [reflexivity | discriminate].
Qed.

(** C9.  On an object in the state that the constructor leaves, a call of
    [setListSofaScene] with phases that exist returns with a job list that
    has, in order, one job per selected phase, whose ['PHASE'] is the vector
    of that index; the list does not depend on the jobs that were there
    before the call, and a second call with the same argument yields the
    same list. *)
Theorem setListSofaScene_resets self phases classes :
  well_formed self classes →
  Forall (valid_phase self) (selected self phases) →
  ∃ self',
    setListSofaScene self phases = Ok self' ∧
    Forall2 (fun i job => classes !! Z.to_nat i = Some (PHASE job))
            (selected self phases) (listSofaScene self') ∧
    (∀ earlier, ∃ other,
       setListSofaScene (set_listSofaScene self earlier) phases = Ok other ∧
       listSofaScene other = listSofaScene self') ∧
    (∃ again,
       setListSofaScene self' phases = Ok again ∧
       listSofaScene again = listSofaScene self').
Proof.
  intros Hwf Hv.
  destruct (setListSofaScene_ok self phases classes Hwf Hv)
    as (self' & Hcall & Ho & Hra & Hrp & Hps & Hls).
  exists self'. split; [exact Hcall|]. split; [|split].
  - rewrite Hls. apply Forall2_fmap_r, Forall_Forall2_diag.
    eapply Forall_impl; [exact Hv|]. intros i [Hi0 Hi].
    destruct Hwf as (_ & Hl & _). unfold compose, phaseAt, Py.len in *. cbn.
    destruct (lookup_lt_is_Some_2 classes (Z.to_nat i)) as [v Hvi]; [lia|].
    by rewrite Hvi.
  - intros earlier.
    destruct (setListSofaScene_ok (set_listSofaScene self earlier) phases classes)
      as (other & Hcall' & _ & _ & _ & _ & Hls'); [done | done |].
    exists other. split; [exact Hcall'|]. by rewrite Hls', Hls.
  - assert (Hwf' : well_formed self' classes)
      by (unfold well_formed; by rewrite Hra).
    assert (Hsel : selected self' phases = selected self phases)
      by (unfold selected; by rewrite Hra).
    destruct (setListSofaScene_ok self' phases classes Hwf')
      as (again & Hcall' & _ & _ & _ & _ & Hls').
    { rewrite Hsel. eapply Forall_impl; [exact Hv|].
      intros i. unfold valid_phase. by rewrite Hra. }
    exists again. split; [exact Hcall'|].
    rewrite Hls', Hls, Hsel, Hps, resolvedPhaseToSave_again.
    apply list_fmap_ext. intros _ i _. unfold compose, sceneOf.
    by rewrite Ho, Hra, Hrp.
Qed.

Lemma setListSofaScene_resets_witness :
  ∃ self',
    setListSofaScene docModelUsed (Some [1; 0; 1]) = Ok self' ∧
    Forall2 (fun i job => [[0]; [1]] !! Z.to_nat i = Some (PHASE job))
            (selected docModelUsed (Some [1; 0; 1])) (listSofaScene self') ∧
    (∀ earlier, ∃ other,
       setListSofaScene (set_listSofaScene docModelUsed earlier) (Some [1; 0; 1])
         = Ok other ∧
       listSofaScene other = listSofaScene self') ∧
    (∃ again,
       setListSofaScene self' (Some [1; 0; 1]) = Ok again ∧
       listSofaScene again = listSofaScene self').
Proof.
  apply (setListSofaScene_resets docModelUsed (Some [1; 0; 1]) [[0]; [1]]).
  - repeat split. vm_compute. discriminate.
  - unfold valid_phase. cbn. repeat constructor; lia.
Defined.

(** ** Constructed objects are well formed *)

Lemma foldM_invariant {A S} (I : S → Prop) (body : S → A → result S) l :
  (∀ s x s', I s → body s x = Ok s' → I s') →
  ∀ s s', I s → foldM body s l = Ok s' → I s'.
Proof.
  intros Hb. induction l as [|x l IH]; intros s s' Hs; cbn [foldM].
  - by intros [= <-].
  - destruct (body s x) as [s1|] eqn:E; cbn [mbind result_bind]; [|done].
    apply IH. by eapply Hb.
Qed.

Lemma setNbIteration_None_keeps self self' :
  setNbIteration self None = Ok self' →
  nbPossibility self' = nbPossibility self ∧
  nbActuator self' = nbActuator self.
Proof.
  unfold setNbIteration.
  apply (foldM_invariant
           (fun s => nbPossibility s = nbPossibility self ∧
                     nbActuator s = nbActuator self)); [|done].
  intros s obj s1 Hs. unfold raiseNbIterations.
  destruct (iterationsOf obj) as [tmp|]; [|done].
  cbn [mbind result_bind].
  destruct (Py.gt tmp (Py.PyInt (nbIterations s))).
  - destruct (Py.int_ceil tmp); [|done]. cbn. by intros [= <-].
  - by intros [= <-].
Qed.

Lemma ReductionAnimations_init_phases objs self :
  ReductionAnimations_init objs = Ok self →
  objs ≠ [] ∧
  phaseNumClass self = Some (phaseClasses (Py.len objs)) ∧
  nbPossibility self = 2 ^ Py.len objs.
Proof.
  unfold ReductionAnimations_init.
  destruct (setNbIteration _ None) as [s|] eqn:E; [|done].
  cbn [mbind result_bind].
  apply setNbIteration_None_keeps in E as [HP HA]. cbn in HP, HA.
  rewrite HP, HA. destruct objs as [|obj objs].
  - unfold generateListOfPhase. by vm_compute phaseNumTable.
  - rewrite generateListOfPhase_eq by (unfold Py.len; cbn [length]; lia).
    intros [= <-]. by cbn.
Qed.

Lemma ReduceModel_init_well_formed
    (normpath : string → string) (isdir : string → bool) (lib : string)
    originalScene nodeToReduce objs tolModes tolGIE outputDir packageName
    addToLib verbose addRigidBodyModes nbrCPU phaseToSave self :
  ReduceModel_init normpath isdir lib originalScene nodeToReduce objs
    tolModes tolGIE outputDir packageName addToLib verbose
    addRigidBodyModes nbrCPU phaseToSave = Ok self →
  well_formed self (phaseClasses (Py.len objs)).
Proof.
  unfold ReduceModel_init.
  destruct (ReductionAnimations_init objs) as [ra|] eqn:E; [|done].
  cbn [mbind result_bind].
  apply ReductionAnimations_init_phases in E as (Hne & Hc & HP).
  repeat (step_result; [|done]). intros [= <-].
  unfold well_formed. cbn [reductionAnimations].
  rewrite Hc, HP. split; [done|]. split.
  - apply phaseClasses_len. unfold Py.len. lia.
  - unfold Py.len. assert (0 ≤ Z.of_nat (length objs)) by lia.
    pose proof (Z.pow_pos_nonneg 2 (Z.of_nat (length objs))). lia.
Qed.

(** ** Merging the state files *)

Lemma default_some {A} (d x : A) : default d (Some x) = x.
Proof. reflexivity. Qed.

Lemma copyFileIntoAnother_other (fs : gmap string string) src dst p :
  p ≠ dst → copyFileIntoAnother fs src dst !! p = fs !! p.
Proof.
  intros Hp. unfold copyFileIntoAnother.
  destruct (fs !! dst) eqn:Hd.
  - destruct (fs !! src); [|done]. by rewrite lookup_insert_ne.
  - destruct (<[dst:=""]> fs !! src).
    + by rewrite !lookup_insert_ne.
    + by rewrite lookup_insert_ne.
Qed.

Lemma copyFileIntoAnother_dst (fs : gmap string string) src dst :
  src ≠ dst →
  copyFileIntoAnother fs src dst !! dst
  = Some (default "" (fs !! dst) +:+ default "" (fs !! src)).
Proof.
  intros Hs. unfold copyFileIntoAnother.
  destruct (fs !! dst) as [d|] eqn:Hd.
  - destruct (fs !! src) as [c|] eqn:Hc.
    + rewrite Hd. by rewrite lookup_insert_eq.
    + rewrite Hd. cbn. by rewrite append_nil_r.
  - rewrite lookup_insert_ne by done.
    destruct (fs !! src) as [c|] eqn:Hc.
    + by rewrite lookup_insert_eq, lookup_insert_eq.
    + by rewrite lookup_insert_eq.
Qed.

Lemma gie_copies_other (self : PackageBuilder) dir gieFiles
    (fs : gmap string string) p :
  p ∉ ((fun fileName => debugDir self +:+ fileName) <$> gieFiles) →
  foldl (fun fs fileName =>
           copyFileIntoAnother fs (dir +:+ Py.slash +:+ fileName)
             (debugDir self +:+ fileName)) fs gieFiles !! p
  = fs !! p.
Proof.
  revert fs. induction gieFiles as [|f gieFiles IH]; intros fs Hp; [done|].
  cbn [foldl]. rewrite fmap_cons in Hp. apply not_elem_of_cons in Hp as [Hf Hp].
  rewrite IH by done. by apply copyFileIntoAnother_other.
Qed.

Lemma deletes_other (self : PackageBuilder) gieFiles (fs : gmap string string) p :
  p ∉ ((fun fileName => debugDir self +:+ fileName) <$> gieFiles) →
  foldl (fun fs fileName => delete (debugDir self +:+ fileName) fs) fs gieFiles !! p
  = fs !! p.
Proof.
  revert fs. induction gieFiles as [|f gieFiles IH]; intros fs Hp; [done|].
  cbn [foldl]. rewrite fmap_cons in Hp. apply not_elem_of_cons in Hp as [Hf Hp].
  rewrite IH by done. by apply lookup_delete_ne.
Qed.

Lemma copyJob_other self stateFileName gieFiles fs res p :
  p ∉ writtenPaths self stateFileName (Some gieFiles) →
  copyJob self stateFileName gieFiles fs res !! p = fs !! p.
Proof.
  unfold writtenPaths, copyJob. cbn [default]. intros [Hp Hg]%not_elem_of_cons.
  rewrite gie_copies_other by done. by apply copyFileIntoAnother_other.
Qed.

Lemma copyJob_out self stateFileName gieFiles fs res :
  stateFileName ∉ gieFiles →
  stateFileOf res ≠ debugDir self +:+ stateFileName →
  copyJob self stateFileName gieFiles fs res !! (debugDir self +:+ stateFileName)
  = Some (default "" (fs !! (debugDir self +:+ stateFileName))
            +:+ default "" (fs !! stateFileOf res)).
Proof.
  intros Hn Hs. unfold copyJob. rewrite gie_copies_other.
  - by apply copyFileIntoAnother_dst.
  - intros (f & Hf & Hin)%list_elem_of_fmap.
    apply (inj (String.app (debugDir self))) in Hf. by subst.
Qed.

Lemma concat_app_strings l1 l2 :
  Py.concat (l1 ++ l2) = Py.concat l1 +:+ Py.concat l2.
Proof.
  induction l1 as [|x l1 IH]; [done|].
  cbn [app Py.concat]. by rewrite IH, append_assoc.
Qed.

Lemma merge_loop self stateFileName gieFiles results :
  stateFileName ∉ gieFiles →
  (∀ res, res ∈ results →
          stateFileOf res ∉ writtenPaths self stateFileName (Some gieFiles)) →
  ∀ fs : gmap string string,
    (∀ p, p ∉ writtenPaths self stateFileName (Some gieFiles) →
          foldl (copyJob self stateFileName gieFiles) fs results !! p = fs !! p) ∧
    (results ≠ [] →
     foldl (copyJob self stateFileName gieFiles) fs results
       !! (debugDir self +:+ stateFileName)
     = Some (default "" (fs !! (debugDir self +:+ stateFileName))
               +:+ mergedStates fs results)).
Proof.
  intros Hn. unfold mergedStates.
  induction results as [|res results IH]; intros Hres fs; [done|].
  cbn [foldl].
  assert (Hr : stateFileOf res ∉ writtenPaths self stateFileName (Some gieFiles))
    by (apply Hres; left).
  destruct (IH (fun r Hin => Hres r (list_elem_of_further _ _ _ Hin))
              (copyJob self stateFileName gieFiles fs res)) as [IH1 IH2].
  split.
  - intros p Hp. rewrite IH1 by done. by apply copyJob_other.
  - intros _. assert (Hout : stateFileOf res ≠ debugDir self +:+ stateFileName).
    { intros Heq. apply Hr. rewrite Heq. left. }
    assert (Hsame : (fun r => default "" (copyJob self stateFileName gieFiles fs res
                                         !! stateFileOf r)) <$> results
                    = (fun r => default "" (fs !! stateFileOf r)) <$> results).
    { apply list_fmap_ext. intros i r Hi. cbn.
      rewrite copyJob_other; [done|].
      apply Hres. right. by eapply list_elem_of_lookup_2. }
    destruct results as [|r2 results].
    + cbn [foldl fmap list_fmap Py.concat]. rewrite copyJob_out by done.
      by rewrite append_nil_r.
    + rewrite IH2 by done. rewrite copyJob_out by done.
      rewrite default_some, Hsame. rewrite (fmap_cons _ res). cbn [Py.concat].
      by rewrite append_assoc.
Qed.

Lemma append_ne s t : t ≠ "" → s +:+ t ≠ s.
Proof.
  intros Ht. induction s as [|c s IH]; [done|].
  rewrite append_cons. intros [= H]. by apply IH.
Qed.

Lemma concat_readlines s : Py.concat (Py.readlines s) = s.
Proof.
  induction s as [|c s IH]; [done|]. cbn [Py.readlines].
  case_bool_decide.
  - cbn [Py.concat]. by rewrite IH.
  - destruct (Py.readlines s) as [|l ls]; cbn [Py.concat] in *.
    + by rewrite <- IH.
    + by rewrite append_cons, IH.
Qed.

Lemma readlines_not_nil s : s ≠ "" → Py.readlines s ≠ [].
Proof.
  destruct s as [|c s]; [done|]. intros _. cbn [Py.readlines].
  case_bool_decide; [done|]. by destruct (Py.readlines s).
Qed.

Lemma readlines_app a b :
  complete_lines a → Py.readlines (a +:+ b) = Py.readlines a ++ Py.readlines b.
Proof.
  induction a as [|c a IH]; intros Ha; [done|].
  destruct Ha as [Ha|Ha]; [done|].
  rewrite append_cons. cbn [Py.readlines].
  case_bool_decide as Hc.
  - rewrite IH; [done|]. destruct a as [|d a]; [by left | by right].
  - destruct a as [|d a].
    + cbn in Ha. by rewrite bool_decide_eq_false_2 in Ha.
    + rewrite IH by (by right).
      pose proof (readlines_not_nil (String d a)) as Hne.
      destruct (Py.readlines (String d a)); [by destruct Hne | done].
Qed.

Lemma is_marker_marker_line p k : is_marker (marker_line p k) = true.
Proof. reflexivity. Qed.

Lemma length_cleanLines p c lines :
  length (cleanLines p c lines) = length lines.
Proof.
  revert c. induction lines as [|l lines IH]; intros c; [done|].
  cbn [cleanLines]. destruct (negb _); cbn [length]; by rewrite IH.
Qed.

Lemma markers_cons line lines :
  markers (line :: lines)
  = if is_marker line then line :: markers lines else markers lines.
Proof.
  unfold markers. rewrite filter_cons.
  destruct (is_marker line); [by rewrite decide_True | by rewrite decide_False].
Qed.

Lemma markers_app l1 l2 : markers (l1 ++ l2) = markers l1 ++ markers l2.
Proof. unfold markers. apply filter_app. Qed.

Lemma cleanLines_lookup p c lines (i : nat) line :
  lines !! i = Some line →
  cleanLines p c lines !! i
  = Some (if is_marker line
          then marker_line p (c + Py.len (markers (take i lines)))
          else line).
Proof.
  revert c i. induction lines as [|l lines IH]; intros c i Hi; [done|].
  cbn [cleanLines]. fold (is_marker l). destruct i as [|i].
  - injection Hi as ->. rewrite take_0.
    destruct (is_marker line); [|done]. cbn. by rewrite Z.add_0_r.
  - cbn in Hi. cbn [take]. rewrite markers_cons.
    destruct (is_marker l); cbn [negb]; rewrite lookup_cons, (IH _ _ Hi).
    + unfold Py.len. cbn [length].
      destruct (is_marker line); [|done]. do 2 f_equal. lia.
    + done.
Qed.

Lemma markers_cleanLines p c lines :
  markers (cleanLines p c lines)
  = marker_line p <$> seqZ c (Py.len (markers lines)).
Proof.
  revert c. induction lines as [|l lines IH]; intros c; [done|].
  cbn [cleanLines]. fold (is_marker l). rewrite (markers_cons l).
  destruct (is_marker l) eqn:E; cbn [negb].
  - fold (marker_line p c). rewrite markers_cons, is_marker_marker_line, IH.
    unfold Py.len. cbn [length].
    rewrite (seqZ_cons c) by lia. rewrite fmap_cons. do 3 f_equal; lia.
  - by rewrite markers_cons, E, IH.
Qed.

Lemma copyAndCleanState_eq self fs results periodSaveGIE stateFileName gie :
  results ≠ [] →
  stateFileName ∉ default [] gie →
  (∀ res, res ∈ results →
          stateFileOf res ∉ writtenPaths self stateFileName gie) →
  ∃ fs',
    copyAndCleanState self fs results periodSaveGIE stateFileName gie = Ok fs' ∧
    fs' !! (debugDir self +:+ stateFileName)
    = Some (Py.concat (cleanLines periodSaveGIE 1
                         (Py.readlines (mergedStates fs results)))).
Proof.
  intros Hne Hn Hres. unfold copyAndCleanState.
  set (gieFiles := default [] gie) in *.
  set (out := debugDir self +:+ stateFileName).
  set (fs0 := foldl (fun fs fileName => delete (debugDir self +:+ fileName) fs)
                    (delete out fs) gieFiles).
  assert (Hout : out ∉ (fun fileName => debugDir self +:+ fileName) <$> gieFiles).
  { intros (f & Hf & Hin)%list_elem_of_fmap.
    apply (inj (String.app (debugDir self))) in Hf. by subst. }
  assert (H0 : fs0 !! out = None).
  { unfold fs0. rewrite deletes_other by done. apply lookup_delete_eq. }
  assert (Hsrc : mergedStates fs0 results = mergedStates fs results).
  { unfold mergedStates. f_equal. apply list_fmap_ext. intros i res Hi. cbn.
    assert (Hw : stateFileOf res ∉ writtenPaths self stateFileName gie)
      by (apply Hres; by eapply list_elem_of_lookup_2).
    apply not_elem_of_cons in Hw as [Hw1 Hw2].
    unfold fs0. rewrite deletes_other by done. by rewrite lookup_delete_ne. }
  destruct (merge_loop self stateFileName gieFiles results Hn Hres fs0)
    as [_ Hmerged].
  specialize (Hmerged Hne). fold out in Hmerged.
  rewrite H0, Hsrc in Hmerged. cbn [default] in Hmerged.
  rewrite append_nil_l in Hmerged.
  unfold cleanStateFile. fold out. rewrite Hmerged.
  eexists. split; [reflexivity|].
  rewrite lookup_delete_ne by (by apply append_ne).
  by rewrite lookup_insert_eq.
Qed.

(** C1, as the specification has it, fails: with no result at all there is
    no file to rewrite and the call raises; and two jobs whose files have
    three marker lines each yield five markers when the first file does not
    end with a newline, its last marker line and the first one of the
    second file being one line of the merged file. *)
Lemma copyAndCleanState_not_always_six :
  raises (copyAndCleanState docBuilder jobsFs [] 6 "stateFile.state" None) ∧
  length (markers (Py.readlines stateA)) = 3%nat ∧
  length (markers (Py.readlines stateB)) = 3%nat ∧
  ∃ fs' content,
    copyAndCleanState docBuilder jobsFs [jobA; jobB] 6 "stateFile.state" None
      = Ok fs' ∧
    fs' !! "out/debug/stateFile.state" = Some content ∧
    markers (Py.readlines content)
    = [marker_line 6 1; marker_line 6 2; marker_line 6 3; marker_line 6 4;
       marker_line 6 5].
Proof.
  split; [exists OSError; vm_compute; reflexivity|].
  split; [vm_compute; reflexivity|]. split; [vm_compute; reflexivity|].
  destruct (copyAndCleanState docBuilder jobsFs [jobA; jobB] 6
              "stateFile.state" None) as [fs'|e] eqn:E;
    [|vm_compute in E; discriminate E].
  exists fs'.
  assert (fs' !! "out/debug/stateFile.state"
          = Some (Py.concat (cleanLines 6 1
                    (Py.readlines (mergedStates jobsFs [jobA; jobB]))))) as H.
  { destruct (copyAndCleanState_eq docBuilder jobsFs [jobA; jobB] 6
                "stateFile.state" None) as (fs2 & Hc & Hl).
    - done.
    - apply not_elem_of_nil.
    - intros res Hin. unfold writtenPaths. cbn [default fmap list_fmap].
      rewrite list_elem_of_singleton.
      apply elem_of_cons in Hin as [->|Hin];
        [|apply list_elem_of_singleton in Hin as ->]; vm_compute; discriminate.
    - rewrite E in Hc. injection Hc as <-. exact Hl. }
  eexists. split; [reflexivity|]. split; [exact H|].
  vm_compute. reflexivity.
Qed.

(** C1, amended.  For a list of results that is not empty, and jobs whose
    state files are none of the files that the merge writes (the name of
    the merged file not being one of the [gie] names),
    [copyAndCleanState] leaves in the debug directory a state file made of
    the state files of the jobs, in the order of the list (a job without a
    state file adds nothing), in which every line of the merged text that
    contains ["T="] has become ["T= " + str(periodSaveGIE * k)], [k] counting
    these lines from [1] over the whole merged text, and every other line is
    kept.  Two jobs whose files have three such lines each, the first file
    being made of complete lines, give with a period of [6] the six markers
    [6, 12, 18, 24, 30, 36] in this order. *)
Theorem copyAndCleanState_merges self fs results periodSaveGIE stateFileName gie :
  results ≠ [] →
  stateFileName ∉ default [] gie →
  (∀ res, res ∈ results →
          stateFileOf res ∉ writtenPaths self stateFileName gie) →
  ∃ fs' cleaned,
    copyAndCleanState self fs results periodSaveGIE stateFileName gie = Ok fs' ∧
    fs' !! (debugDir self +:+ stateFileName) = Some (Py.concat cleaned) ∧
    Py.concat (Py.readlines (mergedStates fs results)) = mergedStates fs results ∧
    length cleaned = length (Py.readlines (mergedStates fs results)) ∧
    (∀ (i : nat) line,
       Py.readlines (mergedStates fs results) !! i = Some line →
       cleaned !! i
       = Some (if is_marker line
               then marker_line periodSaveGIE
                      (1 + Py.len (markers (take i (Py.readlines
                                                     (mergedStates fs results)))))
               else line)) ∧
    markers cleaned
    = marker_line periodSaveGIE
        <$> seqZ 1 (Py.len (markers (Py.readlines (mergedStates fs results)))) ∧
    (∀ a b ca cb,
       results = [a; b] →
       fs !! stateFileOf a = Some ca → fs !! stateFileOf b = Some cb →
       complete_lines ca →
       length (markers (Py.readlines ca)) = 3%nat →
       length (markers (Py.readlines cb)) = 3%nat →
       periodSaveGIE = 6 →
       markers cleaned
       = ["T= 6" +:+ Py.newline; "T= 12" +:+ Py.newline; "T= 18" +:+ Py.newline;
          "T= 24" +:+ Py.newline; "T= 30" +:+ Py.newline; "T= 36" +:+ Py.newline]).
Proof.
  intros Hne Hn Hres.
  destruct (copyAndCleanState_eq self fs results periodSaveGIE stateFileName gie
              Hne Hn Hres) as (fs' & Hcall & Hout).
  exists fs', (cleanLines periodSaveGIE 1 (Py.readlines (mergedStates fs results))).
  split; [exact Hcall|]. split; [exact Hout|].
  split; [apply concat_readlines|]. split; [apply length_cleanLines|].
  split; [intros i line; apply cleanLines_lookup|].
  split; [apply markers_cleanLines|].
  intros a b ca cb -> Ha Hb Hca Hma Hmb ->.
  rewrite markers_cleanLines. unfold mergedStates.
  cbn [fmap list_fmap Py.concat]. rewrite Ha, Hb.
  rewrite !default_some, append_nil_r, readlines_app by done.
  rewrite markers_app. unfold Py.len. rewrite length_app, Hma, Hmb.
  reflexivity.
Qed.

Lemma copyAndCleanState_merges_witness :
  ∃ fs' cleaned,
    copyAndCleanState docBuilder jobsFsComplete [jobA; jobB] 6
      "stateFile.state" None = Ok fs' ∧
    fs' !! "out/debug/stateFile.state" = Some (Py.concat cleaned) ∧
    markers cleaned
    = ["T= 6" +:+ Py.newline; "T= 12" +:+ Py.newline; "T= 18" +:+ Py.newline;
       "T= 24" +:+ Py.newline; "T= 30" +:+ Py.newline; "T= 36" +:+ Py.newline].
Proof.
  destruct (copyAndCleanState_merges docBuilder jobsFsComplete [jobA; jobB] 6
              "stateFile.state" None)
    as (fs' & cleaned & Hcall & Hout & _ & _ & _ & _ & Hsix).
  - discriminate.
  - apply not_elem_of_nil.
  - intros res Hin. unfold writtenPaths. cbn [default fmap list_fmap].
    rewrite list_elem_of_singleton.
    apply elem_of_cons in Hin as [->|Hin];
      [|apply list_elem_of_singleton in Hin as ->]; vm_compute; discriminate.
  - exists fs', cleaned. split; [exact Hcall|]. split; [exact Hout|].
    apply (Hsix jobA jobB (stateA +:+ Py.newline) stateB);
      try reflexivity.
    right. reflexivity.
Defined.

(** * Further properties *)

(** ** The iteration budget as a running maximum *)

Lemma double_of_int_exact z : Z.abs z < 2 ^ 53 → Py.double_of_int z = Ok z.
Proof.
  intros Hz. unfold Py.double_of_int.
  by rewrite (proj2 (Z.ltb_lt _ _) Hz).
Qed.

Lemma classic_div_by_zero x :
  Py.classic_div x (Py.PyInt 0) = Raise ZeroDivisionError.
Proof. by destruct x; vm_compute. Qed.

Lemma set_nbIterations_same self : set_nbIterations self (nbIterations self) = self.
Proof. by destruct self. Qed.

Lemma raiseNbIterations_max self obj t :
  iterates obj t →
  raiseNbIterations self obj
  = Ok (set_nbIterations self (Z.max (nbIterations self) t)).
Proof.
  intros [Ht Hb]. unfold raiseNbIterations. rewrite Ht.
  cbn [mbind result_bind Py.gt].
  destruct (Z.ltb_spec (nbIterations self) t).
  - cbn [Py.int_ceil]. rewrite double_of_int_exact by done.
    cbn [mbind result_bind]. by rewrite Z.max_r by lia.
  - rewrite Z.max_l by lia. by rewrite set_nbIterations_same.
Qed.

Lemma foldM_raiseNbIterations self objs ts :
  Forall2 iterates objs ts →
  foldM raiseNbIterations self objs
  = Ok (set_nbIterations self (foldl Z.max (nbIterations self) ts)).
Proof.
  intros H. revert self. induction H as [|obj t objs ts Ht _ IH]; intros self.
  - cbn. by rewrite set_nbIterations_same.
  - cbn [foldM foldl]. rewrite (raiseNbIterations_max _ _ _ Ht).
    cbn [mbind result_bind]. by rewrite IH.
Qed.

Lemma foldl_max_bounds (c : Z) ts :
  c ≤ foldl Z.max c ts ∧ Forall (fun t => t ≤ foldl Z.max c ts) ts.
Proof.
  revert c. induction ts as [|t ts IH]; intros c; cbn [foldl].
  - split; [lia | constructor].
  - destruct (IH (Z.max c t)) as [IH1 IH2]. split; [lia|].
    constructor; [lia|]. done.
Qed.

(** X1.  Without an override and for actuators whose values are integers
    that a double holds exactly, [setNbIteration] raises the budget to the
    largest of its current value and the values of the actuators: it never
    lowers it, and no actuator asks for more. *)
Theorem setNbIteration_running_max self ts :
  Forall2 iterates (listObjToAnimate self) ts →
  setNbIteration self None
    = Ok (set_nbIterations self (foldl Z.max (nbIterations self) ts)) ∧
  nbIterations self ≤ foldl Z.max (nbIterations self) ts ∧
  Forall (fun t => t ≤ foldl Z.max (nbIterations self) ts) ts.
Proof.
  intros H. split; [|apply foldl_max_bounds].
  unfold setNbIteration. by apply foldM_raiseNbIterations.
Qed.

Lemma setNbIteration_running_max_witness :
  setNbIteration docAnimations None
    = Ok (set_nbIterations docAnimations (foldl Z.max 0 [89])) ∧
  0 ≤ foldl Z.max 0 [89] ∧
  Forall (fun t => t ≤ foldl Z.max 0 [89]) [89].
Proof.
  apply (setNbIteration_running_max docAnimations [89]).
  repeat constructor; vm_compute; reflexivity.
Defined.

(** X2.  An actuator that has [incr] and [incrPeriod] but no
    [rangeOfAction] makes [setNbIteration] raise [KeyError], and one whose
    [incr] is the integer zero makes it raise [ZeroDivisionError], wherever
    the actuator stands in the list, after actuators whose values are
    integers that a double holds exactly; the constructor of [ReduceModel]
    then raises the same exception, although it only reads the parameters of
    the first actuator itself. *)
Theorem setNbIteration_bad_actuator pre bad post ts :
  Forall2 iterates pre ts →
  is_Some (params bad !! "incr") → is_Some (params bad !! "incrPeriod") →
  (params bad !! "rangeOfAction" = None →
   (∀ self, listObjToAnimate self = pre ++ bad :: post →
            setNbIteration self None = Raise KeyError) ∧
   (∀ (normpath : string → string) isdir lib scene node tolModes tolGIE out
       name addToLib verbose rigid cpu toSave,
       ReduceModel_init normpath isdir lib scene node (pre ++ bad :: post)
         tolModes tolGIE out name addToLib verbose rigid cpu toSave
       = Raise KeyError)) ∧
  (is_Some (params bad !! "rangeOfAction") →
   params bad !! "incr" = Some (Py.PyInt 0) →
   (∀ self, listObjToAnimate self = pre ++ bad :: post →
            setNbIteration self None = Raise ZeroDivisionError) ∧
   (∀ (normpath : string → string) isdir lib scene node tolModes tolGIE out
       name addToLib verbose rigid cpu toSave,
       ReduceModel_init normpath isdir lib scene node (pre ++ bad :: post)
         tolModes tolGIE out name addToLib verbose rigid cpu toSave
       = Raise ZeroDivisionError)).
Proof.
  intros Hpre Hi Hp.
  assert (Hloop : ∀ e, iterationsOf bad = Raise e →
            ∀ self, listObjToAnimate self = pre ++ bad :: post →
                    setNbIteration self None = Raise e).
  { intros e He self Hl. unfold setNbIteration. rewrite Hl, foldM_app.
    rewrite (foldM_raiseNbIterations _ _ _ Hpre). cbn [mbind result_bind foldM].
    unfold raiseNbIterations. by rewrite He. }
  assert (Hinit : ∀ e, iterationsOf bad = Raise e →
            ∀ (normpath : string → string) isdir lib scene node tolModes tolGIE
              out name addToLib verbose rigid cpu toSave,
              ReduceModel_init normpath isdir lib scene node (pre ++ bad :: post)
                tolModes tolGIE out name addToLib verbose rigid cpu toSave
              = Raise e).
  { intros e He **. unfold ReduceModel_init, ReductionAnimations_init.
    by rewrite (Hloop e He). }
  split.
  - intros Hr.
    assert (iterationsOf bad = Raise KeyError) as He.
    { unfold iterationsOf, Py.dict_has, Py.dict_get.
      rewrite !bool_decide_eq_true_2 by done. by rewrite Hr. }
    split; [apply Hloop | apply Hinit]; done.
  - intros [r Hr] H0.
    assert (iterationsOf bad = Raise ZeroDivisionError) as He.
    { unfold iterationsOf, Py.dict_has, Py.dict_get.
      rewrite !bool_decide_eq_true_2 by done. rewrite Hr, H0.
      cbn [mbind result_bind]. by rewrite classic_div_by_zero. }
    split; [apply Hloop | apply Hinit]; done.
Qed.

Lemma setNbIteration_bad_actuator_witness :
  ReduceModel_init id (fun _ => false) "morlib/" "scene.py" "body/finger"
    ([docActuator] ++ noRangeActuator :: []) (1 # 1000) (5 # 100) "out"
    (Some "myReducedModel") false false None 4 None
  = Raise KeyError ∧
  ReduceModel_init id (fun _ => false) "morlib/" "scene.py" "body/finger"
    ([docActuator] ++ zeroIncrActuator :: []) (1 # 1000) (5 # 100) "out"
    (Some "myReducedModel") false false None 4 None
  = Raise ZeroDivisionError.
Proof.
  split.
  - refine (proj2 (proj1 (setNbIteration_bad_actuator [docActuator]
              noRangeActuator [] [89] _ _ _) _) _ _ _ _ _ _ _ _ _ _ _ _ _ _).
    + repeat constructor; vm_compute; reflexivity.
    + by eexists.
    + by eexists.
    + reflexivity.
  - refine (proj2 (proj2 (setNbIteration_bad_actuator [docActuator]
              zeroIncrActuator [] [89] _ _ _) _ _) _ _ _ _ _ _ _ _ _ _ _ _ _ _).
    + repeat constructor; vm_compute; reflexivity.
    + by eexists.
    + by eexists.
    + by eexists.
    + reflexivity.
Defined.

(** ** What the constructors establish *)

Lemma split_app_sep a b :
  Py.split "/" (a +:+ "/" +:+ b) = Py.split "/" a ++ Py.split "/" b.
Proof.
  induction a as [|c a IH]; [done|].
  rewrite append_cons. cbn [Py.split]. rewrite IH.
  case_bool_decide; [done|].
  pose proof (split_not_nil "/" a). by destruct (Py.split "/" a).
Qed.

Lemma split_no_slash s : ("/"%char ∉ Py.chars s) → Py.split "/" s = [s].
Proof.
  induction s as [|c s IH]; [done|]. cbn [Py.chars Py.split].
  intros [Hc Hs]%not_elem_of_cons.
  rewrite bool_decide_eq_false_2 by done. by rewrite IH.
Qed.

Lemma getitem_minus2 {A} (l : list A) x y :
  Py.getitem (l ++ [x; y]) (-2) = Ok x.
Proof.
  unfold Py.getitem, Py.len. rewrite length_app. cbn [length].
  change (-2 <? 0) with true. cbn iota.
  rewrite andb_true_intro by (split; [apply Z.leb_le | apply Z.ltb_lt]; lia).
  replace (Z.to_nat (-2 + Z.of_nat (length l + 2))) with (length l + 0)%nat by lia.
  by rewrite lookup_app_r, Nat.add_0_r, Nat.sub_diag by lia.
Qed.

Lemma dataFolder_of_outputDir tolModes tolGIE rigid out :
  ∃ rp,
    ReductionParam_init tolModes tolGIE rigid
      (out +:+ Py.slash +:+ "data" +:+ Py.slash) = Ok rp ∧
    dataFolder rp = "/data/" ∧
    rp_dataDir rp = out +:+ Py.slash +:+ "data" +:+ Py.slash ∧
    nbTrainingSet rp = -1 ∧ nbrOfModes rp = -1 ∧ periodSaveGIE rp = 6 ∧
    modesFileName rp = "modes.txt" ∧ stateFileName rp = "stateFile.state" ∧
    paramWrapper rp = None ∧
    gieFilesNames rp = [] ∧ RIDFilesNames rp = [] ∧ weightsFilesNames rp = [] ∧
    savedElementsFilesNames rp = [] ∧ listActiveNodesFilesNames rp = [].
Proof.
  unfold ReductionParam_init.
  change (out +:+ Py.slash +:+ "data" +:+ Py.slash)
    with (out +:+ "/" +:+ "data/").
  rewrite split_app_sep.
  change (Py.split "/" "data/") with ["data"; ""].
  rewrite getitem_minus2. cbn [mbind result_bind].
  eexists. split; [reflexivity|]. by repeat split.
Qed.

(** X3.  Whatever the output directory is, the data directory of a
    [PackageBuilder] gives a [ReductionParam] whose relative data folder is
    ["/data/"]; a data directory without any ['/'] makes the constructor of
    [ReductionParam] raise [IndexError]. *)
Theorem ReductionParam_init_dataFolder isdir lib out name addToLib pb
    tolModes tolGIE rigid :
  (PackageBuilder_init isdir lib out name addToLib = Ok pb →
   ∃ rp,
     ReductionParam_init tolModes tolGIE rigid (dataDir pb) = Ok rp ∧
     dataFolder rp = "/data/" ∧
     rp_dataDir rp = out +:+ "/data/") ∧
  (∀ dir, ("/"%char ∉ Py.chars dir) →
          ReductionParam_init tolModes tolGIE rigid dir = Raise IndexError).
Proof.
  split.
  - unfold PackageBuilder_init. step_result; [|done]. intros [= <-].
    cbn [dataDir].
    destruct (dataFolder_of_outputDir tolModes tolGIE rigid out)
      as (rp & Hrp & Hf & Hd & _).
    exists rp. by repeat split.
  - intros dir Hdir. unfold ReductionParam_init.
    by rewrite split_no_slash.
Qed.

Lemma ReductionParam_init_dataFolder_witness :
  ∃ rp,
    ReductionParam_init (1 # 1000) (5 # 100) None (dataDir docBuilder) = Ok rp ∧
    dataFolder rp = "/data/" ∧
    rp_dataDir rp = "out" +:+ "/data/".
Proof.
  apply (proj1 (ReductionParam_init_dataFolder (fun _ => false) "morlib/" "out"
                  (Some "myReducedModel") false docBuilder (1 # 1000) (5 # 100)
                  None)).
  reflexivity.
Defined.

Lemma PackageBuilder_init_free isdir lib out name addToLib :
  (addToLib = true → ∀ n, name = Some n →
                          isdir (lib +:+ "reduced_" +:+ n) = false) →
  ∃ pb,
    PackageBuilder_init isdir lib out name addToLib = Ok pb ∧
    dataDir pb = out +:+ Py.slash +:+ "data" +:+ Py.slash ∧
    debugDir pb = out +:+ Py.slash +:+ "debug" +:+ Py.slash.
Proof.
  intros Hfree. unfold PackageBuilder_init.
  destruct name as [n|]; [|by eexists].
  case_bool_decide; [by eexists|].
  destruct addToLib.
  - rewrite (Hfree eq_refl n eq_refl). by eexists.
  - rewrite andb_false_r. by eexists.
Qed.

Lemma ReductionAnimations_init_ok objs ts :
  objs ≠ [] → Forall2 iterates objs ts →
  ReductionAnimations_init objs
  = Ok {| listObjToAnimate := objs;
          listOfLocation := location <$> objs;
          nbActuator := Py.len objs;
          nbPossibility := 2 ^ Py.len objs;
          nbIterations := foldl Z.max 0 ts;
          phaseNumClass := Some (phaseClasses (Py.len objs)) |}.
Proof.
  intros Hne Hts. unfold ReductionAnimations_init, setNbIteration.
  cbn [listObjToAnimate]. rewrite (foldM_raiseNbIterations _ _ _ Hts).
  cbn [mbind result_bind nbPossibility nbActuator set_nbIterations].
  rewrite generateListOfPhase_eq; [done|].
  unfold Py.len. destruct objs; [done | cbn [length]; lia].
Qed.

(** X4.  The constructor of [ReduceModel] succeeds as soon as the list of
    actuators is not empty, every actuator has for the iteration budget an
    integer value that a double holds exactly, the first one has integers
    for [rangeOfAction] and [incr], the latter not zero, and no package of
    that name is in the way.  The object it returns lists the phases of all
    the actuators, has as budget the largest of zero and the actuators'
    values, as size of the training set the floor quotient of
    [rangeOfAction] by [incr], holds the training stage wrapper of the node,
    with that size in it, and one file name of each kind, and has no job
    yet. *)
Theorem ReduceModel_init_ok
    (normpath : string → string) (isdir : string → bool) (lib : string)
    scene node first others ts rangeOfAction incr tolModes tolGIE out name
    addToLib verbose rigid cpu toSave :
  Forall2 iterates (first :: others) ts →
  params first !! "rangeOfAction" = Some (Py.PyInt rangeOfAction) →
  params first !! "incr" = Some (Py.PyInt incr) →
  incr ≠ 0 →
  (addToLib = true → ∀ n, name = Some n →
                          isdir (lib +:+ "reduced_" +:+ n) = false) →
  ∃ self wrapper,
    ReduceModel_init normpath isdir lib scene node (first :: others)
      tolModes tolGIE out name addToLib verbose rigid cpu toSave = Ok self ∧
    well_formed self (phaseClasses (Py.len (first :: others))) ∧
    listObjToAnimate (reductionAnimations self) = first :: others ∧
    nbIterations (reductionAnimations self) = foldl Z.max 0 ts ∧
    nbTrainingSet (reductionParam self) = rangeOfAction `div` incr ∧
    paramWrapper (reductionParam self) = Some (node, wrapper) ∧
    paramForcefield wrapper !! "nbTrainingSet"
      = Some (VInt (rangeOfAction `div` incr)) ∧
    paramForcefield wrapper !! "periodSaveGIE" = Some (VInt 6) ∧
    paramForcefield wrapper !! "modesPath"
      = Some (VStr (normpath out +:+ "/data/modes.txt")) ∧
    paramMappedMatrixMapping wrapper !! "nodeToParse"
      = Some (VStr ("@." +:+ node)) ∧
    gieFilesNames (reductionParam self) = [gieFileOf (nodeNameOf node)] ∧
    RIDFilesNames (reductionParam self) = [RIDFileOf (nodeNameOf node)] ∧
    weightsFilesNames (reductionParam self) = [weightsFileOf (nodeNameOf node)] ∧
    savedElementsFilesNames (reductionParam self)
      = [savedElementsFileOf (nodeNameOf node)] ∧
    listActiveNodesFilesNames (reductionParam self)
      = [listActiveNodesFileOf (nodeNameOf node)] ∧
    dataFolder (reductionParam self) = "/data/" ∧
    nbrOfModes (reductionParam self) = -1 ∧
    listSofaScene self = [] ∧ phaseToSaveIndex self = 0 ∧
    phaseToSave self = toSave ∧ originalScene self = normpath scene.
Proof.
  intros Hts Hr Hi Hi0 Hfree.
  destruct (PackageBuilder_init_free isdir lib (normpath out) name addToLib Hfree)
    as (pb & Hpb & Hdata & _).
  destruct (dataFolder_of_outputDir tolModes tolGIE rigid (normpath out))
    as (rp & Hrp & Hfolder & Hdir & Hnb & Hmodes & Hperiod & Hmf & Hsf & Hw
        & Hg & Hrid & Hwt & Hse & Hla).
  set (rp1 := set_nbTrainingSet rp (rangeOfAction `div` incr)).
  set (rp2 := set_paramWrapper rp1 (Some (node, defaultParamPrepare rp1 node))).
  destruct (setFilesName_step rp2 node (defaultParamPrepare rp1 node) eq_refl)
    as (rp3 & Hrp3 & Hw3 & Hg3 & Hrid3 & Hwt3 & Hse3 & Hla3).
  assert (Hnt : nbTrainingSet rp3 = rangeOfAction `div` incr)
    by (by rewrite (setFilesName_nbTrainingSet _ _ Hrp3)).
  assert (Hkeep : dataFolder rp3 = dataFolder rp ∧ nbrOfModes rp3 = nbrOfModes rp).
  { revert Hrp3. unfold setFilesName. cbn [rp2 paramWrapper set_paramWrapper].
    destruct (Py.getitem (Py.split "/" node) (-1)); [|done].
    cbn [mbind result_bind]. by intros [= <-]. }
  destruct Hkeep as [Hf3 Hm3].
  exists {| originalScene := normpath scene;
            nodeToReduce := node;
            reductionAnimations :=
              {| listObjToAnimate := first :: others;
                 listOfLocation := location <$> first :: others;
                 nbActuator := Py.len (first :: others);
                 nbPossibility := 2 ^ Py.len (first :: others);
                 nbIterations := foldl Z.max 0 ts;
                 phaseNumClass := Some (phaseClasses (Py.len (first :: others))) |};
            packageBuilder := pb;
            reductionParam := rp3;
            phaseToSave := toSave;
            phaseToSaveIndex := 0;
            nbrCPU := cpu;
            verbose := verbose;
            activesNodesLists := [];
            listSofaScene := [] |}, (defaultParamPrepare rp1 node).
  split.
  { unfold ReduceModel_init.
    rewrite (ReductionAnimations_init_ok (first :: others) ts ltac:(done) Hts).
    cbn [mbind result_bind]. rewrite Hpb. cbn [mbind result_bind].
    rewrite Hdata, Hrp. cbn [mbind result_bind].
    rewrite !getitem_0. cbn [mbind result_bind].
    unfold Py.dict_get. rewrite Hr, Hi. cbn [mbind result_bind].
    unfold setNbTrainingSet, Py.classic_div, Py.div.
    rewrite (proj2 (Z.eqb_neq _ _) Hi0). cbn [mbind result_bind Py.to_int].
    change (fst (addParamWrapper (set_nbTrainingSet rp (rangeOfAction `div` incr))
                   node true None None None)) with rp2.
    by rewrite Hrp3. }
  cbn [reductionAnimations reductionParam listSofaScene phaseToSaveIndex
       phaseToSave originalScene listObjToAnimate nbIterations].
  split.
  { repeat split; cbn [phaseNumClass nbPossibility].
    - apply phaseClasses_len. unfold Py.len. lia.
    - assert (0 < 2 ^ Py.len (first :: others))
        by (apply Z.pow_pos_nonneg; unfold Py.len; lia).
      cbn [reductionAnimations nbPossibility]. lia. }
  rewrite Hg3, Hrid3, Hwt3, Hse3, Hla3, Hf3, Hm3, Hfolder, Hmodes, Hnt, Hw3.
  cbn [rp2 rp1 gieFilesNames RIDFilesNames weightsFilesNames
       savedElementsFilesNames listActiveNodesFilesNames set_paramWrapper
       set_nbTrainingSet].
  rewrite Hg, Hrid, Hwt, Hse, Hla.
  unfold defaultParamPrepare.
  cbn [paramForcefield paramMappedMatrixMapping rp_dataDir modesFileName
       periodSaveGIE nbTrainingSet set_nbTrainingSet].
  unfold rp1.
  cbn [rp_dataDir modesFileName periodSaveGIE nbTrainingSet set_nbTrainingSet].
  rewrite Hdir, Hmf, Hperiod.
  repeat split; try done.
  by rewrite append_assoc.
Qed.

Lemma ReduceModel_init_ok_witness :
  ∃ self wrapper,
    ReduceModel_init id (fun _ => false) "morlib/" "scene.py" "body/finger"
      [docActuator] (1 # 1000) (5 # 100) "out" (Some "myReducedModel") false
      false None 4 None = Ok self ∧
    well_formed self (phaseClasses (Py.len [docActuator])) ∧
    nbTrainingSet (reductionParam self) = 40 `div` 5 ∧
    paramWrapper (reductionParam self) = Some ("body/finger", wrapper) ∧
    paramForcefield wrapper !! "nbTrainingSet" = Some (VInt (40 `div` 5)) ∧
    gieFilesNames (reductionParam self) = [gieFileOf (nodeNameOf "body/finger")].
Proof.
  destruct (ReduceModel_init_ok id (fun _ => false) "morlib/" "scene.py"
              "body/finger" docActuator [] [89] 40 5 (1 # 1000) (5 # 100) "out"
              (Some "myReducedModel") false false None 4 None)
    as (self & wrapper & Hinit & Hwf & _ & _ & Hnt & Hw & Hwn & _ & _ & _ & Hg & _).
  - repeat constructor; vm_compute; reflexivity.
  - reflexivity.
  - reflexivity.
  - lia.
  - intros [=].
  - exists self, wrapper.
    exact (conj Hinit (conj Hwf (conj Hnt (conj Hw (conj Hwn Hg))))).
Defined.

(** ** The jobs of [setListSofaScene] and the index of the phase to save *)

Lemma index_from_NoDup `{EqDecision A} (x : A) l (k : nat) i :
  NoDup l → l !! k = Some x → index_from i x l = Ok (i + Z.of_nat k).
Proof.
  intros Hnd. revert k i. induction Hnd as [|y l Hy Hnd IH]; intros k i Hk.
  - by rewrite lookup_nil in Hk.
  - cbn [index_from]. destruct k as [|k]; cbn in Hk.
    + injection Hk as ->. rewrite decide_True by done. f_equal. lia.
    + rewrite decide_False.
      * rewrite (IH k (i + 1) Hk). f_equal. lia.
      * intros ->. apply Hy. by eapply list_elem_of_lookup_2.
Qed.

Lemma phaseAt_lookup classes i :
  0 ≤ i < Py.len classes → classes !! Z.to_nat i = Some (phaseAt classes i).
Proof.
  intros Hi. unfold phaseAt, Py.len in *.
  destruct (lookup_lt_is_Some_2 classes (Z.to_nat i)) as [v Hv]; [lia|].
  by rewrite Hv.
Qed.

Lemma phaseAt_range classes :
  phaseAt classes <$> Py.range (Py.len classes) = classes.
Proof.
  unfold Py.range, Py.len. apply list_eq. intros k.
  rewrite list_lookup_fmap.
  destruct (decide (k < length classes)%nat) as [Hk|Hk].
  - rewrite lookup_seqZ_lt by lia. cbn. unfold phaseAt.
    replace (Z.to_nat (0 + Z.of_nat k)) with k by lia.
    destruct (lookup_lt_is_Some_2 classes k Hk) as [v Hv]. by rewrite Hv.
  - rewrite lookup_seqZ_ge by lia. cbn. symmetry. apply lookup_ge_None. lia.
Qed.

Lemma range_valid self :
  Forall (valid_phase self) (Py.range (nbPossibility (reductionAnimations self))).
Proof.
  apply Forall_forall. intros i Hi%elem_of_seqZ. unfold valid_phase. lia.
Qed.

Lemma appendSofaScene_index self classes toSave i :
  phaseNumClass (reductionAnimations self) = Some classes →
  Py.len classes = nbPossibility (reductionAnimations self) →
  NoDup classes →
  phaseToSave self = Some toSave →
  valid_phase self i →
  ∃ self',
    appendSofaScene self i = Ok self' ∧
    same_setting self self' ∧
    phaseToSaveIndex self'
    = if decide (toSave = phaseAt classes i) then i else phaseToSaveIndex self.
Proof.
  intros Hc Hl Hnd Hp [Hi0 Hi]. unfold appendSofaScene.
  rewrite (proj2 (Z.leb_gt _ _)) by lia.
  rewrite (proj2 (Z.ltb_ge _ _)) by lia. cbn [orb].
  rewrite Hc, getitem_phaseAt by lia. cbn [mbind result_bind].
  rewrite Hp. change (default [] (Some toSave)) with toSave.
  destruct (decide (toSave = phaseAt classes i)) as [Heq|Hne].
  - rewrite (index_from_NoDup toSave classes (Z.to_nat i) 0 Hnd)
      by (rewrite Heq; apply phaseAt_lookup; lia).
    cbn [mbind result_bind].
    eexists. split; [reflexivity|]. split; [done|]. cbn. lia.
  - cbn [mbind result_bind]. eexists. split; [reflexivity|]. by split.
Qed.

Lemma index_loop self classes toSave phases :
  phaseNumClass (reductionAnimations self) = Some classes →
  Py.len classes = nbPossibility (reductionAnimations self) →
  NoDup classes →
  phaseToSave self = Some toSave →
  Forall (valid_phase self) phases →
  ∃ self',
    foldM appendSofaScene self phases = Ok self' ∧
    phaseToSaveIndex self'
    = foldl (fun idx i => if decide (toSave = phaseAt classes i) then i else idx)
        (phaseToSaveIndex self) phases.
Proof.
  intros Hc Hl Hnd Hp Hv. revert self Hc Hl Hp Hv.
  induction phases as [|i phases IH]; intros self Hc Hl Hp Hv.
  - by exists self.
  - inversion Hv as [|?? Hi Hv']; subst. cbn [foldM foldl].
    destruct (appendSofaScene_index self classes toSave i Hc Hl Hnd Hp Hi)
      as (s & Hs & (Ho & Hra & Hrp & Hps) & Hidx).
    rewrite Hs. cbn [mbind result_bind].
    destruct (IH s) as (self' & Hf & Hidx').
    + by rewrite Hra.
    + by rewrite Hra.
    + by rewrite Hps.
    + eapply Forall_impl; [exact Hv'|]. intros j. unfold valid_phase.
      by rewrite Hra.
    + exists self'. split; [exact Hf|]. by rewrite Hidx', Hidx.
Qed.

Lemma last_hit_none {A} (P : A → Prop) `{∀ x, Decision (P x)} (l : list A) a :
  Forall (fun x => ¬ P x) l →
  foldl (fun acc x => if decide (P x) then x else acc) a l = a.
Proof.
  intros Hl. revert a. induction Hl as [|x l Hx _ IH]; intros a; [done|].
  cbn [foldl]. by rewrite decide_False, IH.
Qed.

Lemma last_hit_unique {A} (P : A → Prop) `{∀ x, Decision (P x)} (l : list A) a x :
  x ∈ l → P x → (∀ y, y ∈ l → P y → y = x) →
  foldl (fun acc x => if decide (P x) then x else acc) a l = x.
Proof.
  revert a. induction l as [|y l IH] using rev_ind; intros a Hx HP Huniq.
  - by apply elem_of_nil in Hx.
  - rewrite foldl_app. cbn [foldl].
    destruct (decide (P y)) as [Hy|Hy].
    + apply Huniq; [|done]. apply elem_of_app. right. by left.
    + apply elem_of_app in Hx as [Hx|Hx%list_elem_of_singleton];
        [|by subst].
      apply IH; [done | done |]. intros z Hz. apply Huniq.
      apply elem_of_app. by left.
Qed.

Lemma hit_index classes toSave (phases : list Z) idx i :
  NoDup classes →
  Forall (fun j => 0 ≤ j < Py.len classes) phases →
  i ∈ phases → phaseAt classes i = toSave →
  foldl (fun idx i => if decide (toSave = phaseAt classes i) then i else idx)
    idx phases = i.
Proof.
  intros Hnd Hv Hi Hsave.
  apply (last_hit_unique (fun i => toSave = phaseAt classes i)); [done..|].
  intros j Hj Hsave'.
  pose proof (proj1 (Forall_forall _ _) Hv i Hi) as [Hi0 Hi1].
  pose proof (proj1 (Forall_forall _ _) Hv j Hj) as [Hj0 Hj1].
  assert (Z.to_nat j = Z.to_nat i); [|lia].
  apply (NoDup_lookup classes _ _ toSave Hnd).
  - rewrite Hsave'. apply phaseAt_lookup. lia.
  - rewrite <- Hsave. apply phaseAt_lookup. lia.
Qed.

Lemma setListSofaScene_index self phases classes :
  well_formed self classes →
  NoDup classes →
  Forall (valid_phase self) (selected self phases) →
  ∃ self',
    setListSofaScene self phases = Ok self' ∧
    phaseToSaveIndex self'
    = foldl (fun idx i =>
               if decide (resolvedPhaseToSave (phaseToSave self) classes
                          = phaseAt classes i) then i else idx)
        (phaseToSaveIndex self) (selected self phases).
Proof.
  intros Hwf Hnd Hv. rewrite (setListSofaScene_loop self phases classes Hwf).
  destruct Hwf as (Hc & Hl & Hn).
  set (toSave := resolvedPhaseToSave (phaseToSave self) classes).
  set (start := set_phaseToSave (set_listSofaScene self []) (Some toSave)).
  destruct (index_loop start classes toSave (selected self phases))
    as (self' & Hf & Hidx); try done.
  by exists self'.
Qed.

(** X5.  The index that [setListSofaScene] stores for the phase to save is
    the index of that phase in the table of the phases: when one of the
    selected phases is the phase to save, [phaseToSaveIndex] is that phase
    index, wherever the phase stands among the selected ones; when none is,
    the call leaves [phaseToSaveIndex] as it was. *)
Theorem setListSofaScene_phaseToSaveIndex self phases classes :
  well_formed self classes →
  NoDup classes →
  Forall (valid_phase self) (selected self phases) →
  ∃ self',
    setListSofaScene self phases = Ok self' ∧
    (∀ i, i ∈ selected self phases →
          phaseAt classes i = resolvedPhaseToSave (phaseToSave self) classes →
          phaseToSaveIndex self' = i) ∧
    (Forall (fun i => phaseAt classes i
                      ≠ resolvedPhaseToSave (phaseToSave self) classes)
            (selected self phases) →
     phaseToSaveIndex self' = phaseToSaveIndex self).
Proof.
  intros Hwf Hnd Hv.
  destruct (setListSofaScene_index self phases classes Hwf Hnd Hv)
    as (self' & Hcall & Hidx).
  exists self'. split; [exact Hcall|]. rewrite Hidx. split.
  - intros i Hi Hsave. apply hit_index; [done| |done..].
    destruct Hwf as (_ & Hl & _). rewrite Hl. exact Hv.
  - intros Hnone.
    apply (last_hit_none
             (fun i => resolvedPhaseToSave (phaseToSave self) classes
                       = phaseAt classes i)).
    eapply Forall_impl; [exact Hnone|]. intros i Hi Heq. by apply Hi.
Qed.

Lemma setListSofaScene_phaseToSaveIndex_witness :
  ∃ self',
    setListSofaScene (set_phaseToSave docModel (Some [1])) (Some [1]) = Ok self' ∧
    phaseToSaveIndex self' = 1 ∧
    length (listSofaScene self') = 1%nat.
Proof.
  destruct (setListSofaScene_phaseToSaveIndex
              (set_phaseToSave docModel (Some [1])) (Some [1]) [[0]; [1]])
    as (self' & Hcall & Hidx & _).
  - repeat split. vm_compute. discriminate.
  - apply (bool_decide_unpack _). by vm_compute.
  - unfold valid_phase. cbn. repeat constructor; lia.
  - exists self'. split; [exact Hcall|]. split.
    + apply Hidx; [by left | reflexivity].
    + revert Hcall. vm_compute. by intros [= <-].
Defined.

(** X6.  Without a selection [setListSofaScene] always returns on an object
    whose table of phases is in place, with one job per phase of the table,
    in the order of the table; every job carries the phase to save, which is
    the vector of zeros when none was given; and the job that stands at
    [phaseToSaveIndex] is then the job of the phase to save. *)
Theorem setListSofaScene_default self classes :
  well_formed self classes →
  NoDup classes →
  ∃ self',
    setListSofaScene self None = Ok self' ∧
    PHASE <$> listSofaScene self' = classes ∧
    Forall (fun job =>
              PHASETOSAVE job = resolvedPhaseToSave (phaseToSave self) classes ∧
              NBROFMODES job = None ∧
              LISTOBJTOANIMATE job = listObjToAnimate (reductionAnimations self) ∧
              job_nbIterations job = nbIterations (reductionAnimations self))
           (listSofaScene self') ∧
    (phaseToSave self = None →
     Forall (fun job => Forall (fun b => b = 0) (PHASETOSAVE job))
            (listSofaScene self')) ∧
    (resolvedPhaseToSave (phaseToSave self) classes ∈ classes →
     PHASE <$> listSofaScene self' !! Z.to_nat (phaseToSaveIndex self')
     = Some (resolvedPhaseToSave (phaseToSave self) classes)).
Proof.
  intros Hwf Hnd.
  assert (Hsel : selected self None
                 = Py.range (nbPossibility (reductionAnimations self))) by done.
  assert (Hv : Forall (valid_phase self) (selected self None))
    by (rewrite Hsel; apply range_valid).
  destruct (setListSofaScene_ok self None classes Hwf Hv)
    as (self' & Hcall & Ho & Hra & Hrp & Hps & Hls).
  destruct (setListSofaScene_index self None classes Hwf Hnd Hv)
    as (self2 & Hcall2 & Hidx).
  rewrite Hcall in Hcall2. injection Hcall2 as <-.
  pose proof Hwf as (Hc & Hl & Hn).
  assert (Hphases : PHASE <$> listSofaScene self' = classes).
  { rewrite Hls, <- list_fmap_compose, Hsel, <- Hl.
    etrans; [|apply phaseAt_range]. by apply list_fmap_ext. }
  exists self'. split; [exact Hcall|]. split; [exact Hphases|].
  split; [|split].
  - rewrite Hls. apply Forall_fmap, Forall_forall. by intros i _.
  - intros Hnone. rewrite Hls. apply Forall_fmap, Forall_forall. intros i _.
    cbn. rewrite Hnone. unfold resolvedPhaseToSave. cbn [list_truthy].
    apply Forall_replicate. done.
  - intros [k Hk]%list_elem_of_lookup.
    assert (Hkl : (k < length classes)%nat) by (by eapply lookup_lt_Some).
    assert (Hidx' : phaseToSaveIndex self' = Z.of_nat k).
    { rewrite Hidx. apply hit_index; [done| | |].
      - rewrite Hl. exact Hv.
      - rewrite Hsel. apply elem_of_seqZ. unfold Py.len in Hl. lia.
      - unfold phaseAt. by rewrite Nat2Z.id, Hk. }
    by rewrite Hidx', Nat2Z.id, <- list_lookup_fmap, Hphases, Hk.
Qed.

Lemma setListSofaScene_default_witness :
  ∃ self',
    setListSofaScene docModel None = Ok self' ∧
    PHASE <$> listSofaScene self' = [[0]; [1]] ∧
    Forall (fun job => Forall (fun b => b = 0) (PHASETOSAVE job))
           (listSofaScene self').
Proof.
  destruct (setListSofaScene_default docModel [[0]; [1]])
    as (self' & Hcall & Hphases & _ & Hzero & _).
  - repeat split. vm_compute. discriminate.
  - apply (bool_decide_unpack _). by vm_compute.
  - exists self'. split; [exact Hcall|]. split; [exact Hphases|].
    by apply Hzero.
Defined.

(** ** What [copyAndCleanState] writes and what it leaves *)

Lemma copyFileIntoAnother_creates (fs : gmap string string) src dst :
  is_Some (copyFileIntoAnother fs src dst !! dst).
Proof.
  unfold copyFileIntoAnother. destruct (fs !! dst) as [d|] eqn:Hd.
  - destruct (fs !! src); [by rewrite lookup_insert_eq | by rewrite Hd].
  - destruct (<[dst:=""]> fs !! src); by rewrite lookup_insert_eq.
Qed.

Lemma copyFileIntoAnother_keeps (fs : gmap string string) src dst p :
  is_Some (fs !! p) → is_Some (copyFileIntoAnother fs src dst !! p).
Proof.
  intros Hp. destruct (decide (p = dst)) as [->|Hne].
  - apply copyFileIntoAnother_creates.
  - by rewrite copyFileIntoAnother_other.
Qed.

Lemma gie_copies_keeps (self : PackageBuilder) dir gieFiles
    (fs : gmap string string) p :
  is_Some (fs !! p) →
  is_Some (foldl (fun fs fileName =>
                    copyFileIntoAnother fs (dir +:+ Py.slash +:+ fileName)
                      (debugDir self +:+ fileName)) fs gieFiles !! p).
Proof.
  revert fs. induction gieFiles as [|f gieFiles IH]; intros fs Hp; [done|].
  cbn [foldl]. by apply IH, copyFileIntoAnother_keeps.
Qed.

Lemma copyJob_creates self stateFileName gieFiles fs res :
  is_Some (copyJob self stateFileName gieFiles fs res
             !! (debugDir self +:+ stateFileName)).
Proof. apply gie_copies_keeps, copyFileIntoAnother_creates. Qed.

Lemma copyJob_keeps self stateFileName gieFiles fs res p :
  is_Some (fs !! p) → is_Some (copyJob self stateFileName gieFiles fs res !! p).
Proof. intros Hp. by apply gie_copies_keeps, copyFileIntoAnother_keeps. Qed.

Lemma jobs_keep self stateFileName gieFiles results fs p :
  is_Some (fs !! p) →
  is_Some (foldl (copyJob self stateFileName gieFiles) fs results !! p).
Proof.
  revert fs. induction results as [|res results IH]; intros fs Hp; [done|].
  cbn [foldl]. by apply IH, copyJob_keeps.
Qed.

Lemma deletes_none (self : PackageBuilder) gieFiles (fs : gmap string string) p :
  fs !! p = None →
  foldl (fun fs fileName => delete (debugDir self +:+ fileName) fs) fs gieFiles !! p
  = None.
Proof.
  revert fs. induction gieFiles as [|f gieFiles IH]; intros fs Hp; [done|].
  cbn [foldl]. apply IH, lookup_delete_None. by right.
Qed.

Lemma deletes_in (self : PackageBuilder) gieFiles (fs : gmap string string) f :
  f ∈ gieFiles →
  foldl (fun fs fileName => delete (debugDir self +:+ fileName) fs) fs gieFiles
    !! (debugDir self +:+ f) = None.
Proof.
  revert fs. induction gieFiles as [|g gieFiles IH]; intros fs Hf;
    [by apply elem_of_nil in Hf|].
  cbn [foldl]. apply elem_of_cons in Hf as [->|Hf]; [|by apply IH].
  apply deletes_none, lookup_delete_eq.
Qed.

Lemma copyAndCleanState_nonempty self fs res results periodSaveGIE stateFileName
    gie :
  ∃ fs',
    copyAndCleanState self fs (res :: results) periodSaveGIE stateFileName gie
      = Ok fs' ∧
    is_Some (fs' !! (debugDir self +:+ stateFileName)) ∧
    fs' !! ((debugDir self +:+ stateFileName) +:+ ".bak") = None.
Proof.
  unfold copyAndCleanState, cleanStateFile. cbn [foldl].
  match goal with
  | |- context [foldl (copyJob ?s ?n ?g) ?f ?r] =>
      destruct (jobs_keep s n g r f (debugDir self +:+ stateFileName))
        as [merged Hm]
  end; [apply copyJob_creates|].
  rewrite Hm. eexists. split; [reflexivity|]. split.
  - rewrite lookup_delete_ne by (by apply append_ne).
    by rewrite lookup_insert_eq.
  - apply lookup_delete_eq.
Qed.


Lemma gie_copies_dst (self : PackageBuilder) dir gieFiles
    (fs : gmap string string) f :
  NoDup gieFiles → f ∈ gieFiles →
  (dir +:+ Py.slash +:+ f)
    ∉ ((fun fileName => debugDir self +:+ fileName) <$> gieFiles) →
  foldl (fun fs fileName =>
           copyFileIntoAnother fs (dir +:+ Py.slash +:+ fileName)
             (debugDir self +:+ fileName)) fs gieFiles
    !! (debugDir self +:+ f)
  = Some (default "" (fs !! (debugDir self +:+ f))
            +:+ default "" (fs !! (dir +:+ Py.slash +:+ f))).
Proof.
  intros Hnd. revert fs. induction Hnd as [|g gieFiles Hg Hnd IH];
    intros fs Hf Hsrc; [by apply elem_of_nil in Hf|].
  cbn [foldl]. rewrite fmap_cons in Hsrc.
  apply not_elem_of_cons in Hsrc as [Hsrc1 Hsrc2].
  apply elem_of_cons in Hf as [->|Hf].
  - rewrite gie_copies_other.
    + by apply copyFileIntoAnother_dst.
    + intros (h & Hh & Hin)%list_elem_of_fmap.
      apply (inj (String.app (debugDir self))) in Hh. by subst.
  - rewrite IH by done.
    assert (f ≠ g) by (by intros ->).
    rewrite !copyFileIntoAnother_other; [done | done |].
    intros Heq. apply (inj (String.app (debugDir self))) in Heq. done.
Qed.

Lemma copyJob_gie self stateFileName gieFiles fs res f :
  NoDup gieFiles → f ∈ gieFiles → stateFileName ∉ gieFiles →
  jobFileOf res f ∉ writtenPaths self stateFileName (Some gieFiles) →
  copyJob self stateFileName gieFiles fs res !! (debugDir self +:+ f)
  = Some (default "" (fs !! (debugDir self +:+ f))
            +:+ default "" (fs !! jobFileOf res f)).
Proof.
  intros Hnd Hf Hn [Hs1 Hs2]%not_elem_of_cons. unfold copyJob, jobFileOf in *.
  cbn [default] in Hs2. rewrite gie_copies_dst by done.
  rewrite !copyFileIntoAnother_other; [done | done |].
  intros Heq. apply (inj (String.app (debugDir self))) in Heq. by subst.
Qed.

Lemma gie_loop self stateFileName gieFiles results f :
  NoDup gieFiles → f ∈ gieFiles → stateFileName ∉ gieFiles →
  (∀ res, res ∈ results →
          jobFileOf res f ∉ writtenPaths self stateFileName (Some gieFiles)) →
  results ≠ [] →
  ∀ fs : gmap string string,
    foldl (copyJob self stateFileName gieFiles) fs results
      !! (debugDir self +:+ f)
    = Some (default "" (fs !! (debugDir self +:+ f))
              +:+ mergedFiles fs results f).
Proof.
  intros Hnd Hf Hn. unfold mergedFiles.
  induction results as [|res results IH]; intros Hres Hne fs; [done|].
  cbn [foldl].
  assert (Hr : jobFileOf res f ∉ writtenPaths self stateFileName (Some gieFiles))
    by (apply Hres; left).
  assert (Hsame : (fun r => default "" (copyJob self stateFileName gieFiles fs res
                                       !! jobFileOf r f)) <$> results
                  = (fun r => default "" (fs !! jobFileOf r f)) <$> results).
  { apply list_fmap_ext. intros i r Hi. cbn.
    rewrite copyJob_other; [done|].
    apply Hres. right. by eapply list_elem_of_lookup_2. }
  destruct results as [|r2 results].
  - cbn [foldl fmap list_fmap Py.concat]. rewrite copyJob_gie by done.
    by rewrite append_nil_r.
  - rewrite IH; [|intros r Hin; apply Hres; by right | done].
    rewrite copyJob_gie by done.
    rewrite default_some, Hsame. rewrite (fmap_cons _ res). cbn [Py.concat].
    by rewrite append_assoc.
Qed.

Lemma jobs_other self stateFileName gieFiles results (fs : gmap string string) p :
  p ∉ writtenPaths self stateFileName (Some gieFiles) →
  foldl (copyJob self stateFileName gieFiles) fs results !! p = fs !! p.
Proof.
  intros Hp. revert fs. induction results as [|res results IH]; intros fs; [done|].
  cbn [foldl]. rewrite IH. by apply copyJob_other.
Qed.

(** X8.  For a list of results that is not empty, distinct [gie] names
    other than the name of the state file, and job files that are none of
    the files written: the [gie] files of the jobs are merged like the state
    files, each under its own name in the debug directory and in the order
    of the jobs, but their text is not touched: what an earlier run left
    under these names is discarded, a job without the file adds nothing, and
    no line is renumbered.  The one exception is a [gie] name that is the
    name of the state file followed by [.bak]: this is the backup that the
    cleaning removes, and nothing is left under it.  Every file other than
    those written and this backup is as it was. *)
Theorem copyAndCleanState_gie self fs results periodSaveGIE stateFileName gieFiles :
  results ≠ [] →
  NoDup gieFiles →
  stateFileName ∉ gieFiles →
  (∀ res f, res ∈ results → f ∈ gieFiles →
            jobFileOf res f ∉ writtenPaths self stateFileName (Some gieFiles)) →
  ∃ fs',
    copyAndCleanState self fs results periodSaveGIE stateFileName (Some gieFiles)
      = Ok fs' ∧
    (∀ f, f ∈ gieFiles → f ≠ stateFileName +:+ ".bak" →
          fs' !! (debugDir self +:+ f) = Some (mergedFiles fs results f)) ∧
    fs' !! (debugDir self +:+ stateFileName +:+ ".bak") = None ∧
    (∀ p, p ∉ writtenPaths self stateFileName (Some gieFiles) →
          p ≠ (debugDir self +:+ stateFileName) +:+ ".bak" →
          fs' !! p = fs !! p).
Proof.
  intros Hne Hnd Hn Hsrc.
  destruct results as [|res0 results0] eqn:Hresults; [done|].
  destruct (copyAndCleanState_nonempty self fs res0 results0 periodSaveGIE
              stateFileName (Some gieFiles)) as (fs' & Hcall & _ & Hnobak).
  rewrite <- Hresults in *. clear Hne.
  exists fs'. split; [exact Hcall|].
  rewrite append_assoc in Hnobak. revert Hcall. unfold copyAndCleanState, cleanStateFile. cbv zeta.
  change (default [] (Some gieFiles)) with gieFiles.
  set (out := debugDir self +:+ stateFileName).
  set (fs0 := foldl (fun fs fileName => delete (debugDir self +:+ fileName) fs)
                    (delete out fs) gieFiles).
  set (fsM := foldl (copyJob self stateFileName gieFiles) fs0 results).
  destruct (fsM !! out) as [merged|] eqn:Hm; [|done]. intros [= <-].
  split; [|split; [exact Hnobak|]].
  - intros f Hf Hbak.
    assert (Hfout : debugDir self +:+ f ≠ out).
    { intros Heq. apply (inj (String.app (debugDir self))) in Heq. by subst. }
    rewrite lookup_delete_ne, lookup_insert_ne; [|done|].
    + unfold fsM. rewrite gie_loop; [|done|done|done| |by rewrite Hresults].
      * unfold fs0 at 1. rewrite deletes_in by done. cbn [default].
        rewrite append_nil_l. unfold mergedFiles.
        apply (f_equal Some), (f_equal Py.concat).
        apply list_fmap_ext. intros i res Hi. cbn.
        assert (Hw : jobFileOf res f
                     ∉ writtenPaths self stateFileName (Some gieFiles))
          by (apply Hsrc; [by eapply list_elem_of_lookup_2 | done]).
        apply not_elem_of_cons in Hw as [Hw1 Hw2]. cbn [default] in Hw2.
        unfold fs0. rewrite deletes_other by done. by rewrite lookup_delete_ne.
      * intros res Hres. by apply Hsrc.
    + unfold out. rewrite append_assoc. intros Heq.
      apply (inj (String.app (debugDir self))) in Heq. by subst.
  - intros p Hp Hbak. pose proof Hp as [Hp1 Hp2]%not_elem_of_cons.
    cbn [default] in Hp2.
    rewrite lookup_delete_ne, lookup_insert_ne by done.
    unfold fsM. rewrite jobs_other by done.
    unfold fs0. rewrite deletes_other by done. by rewrite lookup_delete_ne.
Qed.

Lemma copyAndCleanState_gie_witness :
  ∃ fs',
    copyAndCleanState docBuilder jobsGieFs [jobA; jobB] 6 "stateFile.state"
      (Some ["finger_Gie.txt"]) = Ok fs' ∧
    fs' !! "out/debug/finger_Gie.txt" = Some "1 2 3 4 5 6".
Proof.
  destruct (copyAndCleanState_gie docBuilder jobsGieFs [jobA; jobB] 6
              "stateFile.state" ["finger_Gie.txt"])
    as (fs' & Hcall & Hgie & _).
  - discriminate.
  - apply (bool_decide_unpack _). by vm_compute.
  - apply (bool_decide_unpack _). by vm_compute.
  - intros res f Hres Hf. apply list_elem_of_singleton in Hf as ->.
    apply (bool_decide_unpack _).
    apply elem_of_cons in Hres as [->|Hres];
      [|apply list_elem_of_singleton in Hres as ->]; by vm_compute.
  - exists fs'. split; [exact Hcall|].
    exact (Hgie "finger_Gie.txt" ltac:(by left) ltac:(discriminate)).
Defined.

(** ** The index of the phase to save is not a position in the job list *)

Lemma getitem_beyond {A} (l : list A) i :
  Py.len l ≤ i → Py.getitem l i = Raise IndexError.
Proof.
  intros Hi. unfold Py.getitem. unfold Py.len in *.
  rewrite (proj2 (Z.ltb_ge i 0)) by lia.
  rewrite (proj2 (Z.ltb_ge i (Z.of_nat (length l)))) by lia.
  by rewrite andb_false_r.
Qed.

(** X9.  [phase1] and [phase3] read [results[self.phaseToSaveIndex]], the
    launcher giving one result per job.  When phases are selected and the
    phase to save is one of them, with an index that is not less than the
    number of selected phases, the job list that [setListSofaScene] leaves
    makes this access raise [IndexError]: the stored index is the one of the
    phase in the table, not the place of its job. *)
Theorem phaseToSaveIndex_beyond_results self phases classes i :
  well_formed self classes →
  NoDup classes →
  Forall (valid_phase self) (selected self phases) →
  i ∈ selected self phases →
  phaseAt classes i = resolvedPhaseToSave (phaseToSave self) classes →
  Py.len (selected self phases) ≤ i →
  ∃ self',
    setListSofaScene self phases = Ok self' ∧
    Py.len (listSofaScene self') = Py.len (selected self phases) ∧
    ∀ results : list SofaResult,
      Py.len results = Py.len (listSofaScene self') →
      Py.getitem results (phaseToSaveIndex self') = Raise IndexError.
Proof.
  intros Hwf Hnd Hv Hi Hsave Hlen.
  destruct (setListSofaScene_ok self phases classes Hwf Hv)
    as (self' & Hcall & _ & _ & _ & _ & Hls).
  destruct (setListSofaScene_index self phases classes Hwf Hnd Hv)
    as (self2 & Hcall2 & Hidx).
  rewrite Hcall in Hcall2. injection Hcall2 as <-.
  assert (Hjobs : Py.len (listSofaScene self') = Py.len (selected self phases))
    by (unfold Py.len; by rewrite Hls, length_fmap).
  assert (Hi' : phaseToSaveIndex self' = i).
  { rewrite Hidx. apply hit_index; [done| |done..].
    destruct Hwf as (_ & Hl & _). rewrite Hl. exact Hv. }
  exists self'. split; [exact Hcall|]. split; [exact Hjobs|].
  intros results Hres. apply getitem_beyond. lia.
Qed.

Lemma phaseToSaveIndex_beyond_results_witness :
  ∃ self',
    setListSofaScene (set_phaseToSave docModel (Some [1])) (Some [1]) = Ok self' ∧
    Py.getitem [jobB] (phaseToSaveIndex self') = Raise IndexError.
Proof.
  destruct (phaseToSaveIndex_beyond_results
              (set_phaseToSave docModel (Some [1])) (Some [1]) [[0]; [1]] 1)
    as (self' & Hcall & Hjobs & Hres).
  - repeat split. vm_compute. discriminate.
  - apply (bool_decide_unpack _). by vm_compute.
  - unfold valid_phase. cbn. repeat constructor; lia.
  - by left.
  - reflexivity.
  - vm_compute. discriminate.
  - exists self'. split; [exact Hcall|]. apply Hres.
    by rewrite Hjobs.
Defined.

(** ** The jobs of [phase3] *)

Lemma tag_loop (f : SofaScene → SofaScene) (l : list SofaScene) (k : nat) :
  (k ≤ length l)%nat →
  foldM (fun scenes i => job ← Py.getitem scenes i; Py.setitem scenes i (f job))
        l (seqZ 0 (Z.of_nat k))
  = Ok ((f <$> take k l) ++ drop k l).
Proof.
  induction k as [|k IH]; intros Hk.
  - by rewrite drop_0.
  - rewrite seqZ_S, foldM_snoc, IH by lia. cbn [mbind result_bind].
    destruct (lookup_lt_is_Some_2 l k) as [x Hx]; [lia|].
    rewrite Z.add_0_l.
    assert (Hlen : length (f <$> take k l) = k)
      by (rewrite length_fmap, length_take_le; lia).
    rewrite (getitem_lookup _ k x).
    2:{ rewrite lookup_app_r by lia. rewrite Hlen, Nat.sub_diag.
        by rewrite (drop_S _ _ _ Hx). }
    cbn [mbind result_bind].
    rewrite setitem_insert by (rewrite length_app, length_drop; lia).
    f_equal. rewrite insert_app_r_alt by lia. rewrite Hlen, Nat.sub_diag.
    rewrite (drop_S _ _ _ Hx). cbn [insert list_insert].
    rewrite (take_S_r _ _ _ Hx), fmap_app, <- app_assoc. done.
Qed.

Lemma tag_all (f : SofaScene → SofaScene) (l : list SofaScene) :
  foldM (fun scenes i => job ← Py.getitem scenes i; Py.setitem scenes i (f job))
        l (Py.range (Py.len l))
  = Ok (f <$> l).
Proof.
  unfold Py.range, Py.len. rewrite tag_loop by lia.
  by rewrite firstn_all, drop_all, app_nil_r.
Qed.

Lemma phase3_nbrOfModes_inv self fs phases req self1 phases1 n :
  phase3_nbrOfModes self fs phases req = Ok (self1, phases1, n) →
  ∃ available,
    checkNodeNbr (packageBuilder self) fs (modesFileName (reductionParam self))
      = Ok available ∧
    1 ≤ n ≤ available ∧
    phases1 = selected self phases ∧
    (self1 = self ∨ self1 = store_nbrOfModes self n).
Proof.
  unfold phase3_nbrOfModes, selected, store_nbrOfModes.
  destruct (negb _); [done|].
  destruct (checkNodeNbr _ _ _) as [available|]; [|done].
  cbn [mbind result_bind]. intros H. exists available. split; [done|].
  revert H.
  repeat match goal with
         | |- context [if ?b then _ else _] => destruct b eqn:?
         end; try done; intros [= <- <- <-];
    repeat match goal with
           | H : (_ || _) = false |- _ => apply orb_false_elim in H as [? ?]
           | H : (_ <=? _) = false |- _ => apply Z.leb_gt in H
           | H : (_ <? _) = false |- _ => apply Z.ltb_ge in H
           end;
    (split; [lia|]); (split; [done|]); auto.
Qed.

Lemma selected_not_nil self phases classes :
  well_formed self classes →
  list_truthy (Some (selected self phases)) = true.
Proof.
  intros (_ & _ & Hn). unfold selected.
  destruct (list_truthy phases) eqn:Ht.
  - by destruct phases as [[|? ?]|].
  - unfold Py.range.
    replace (nbPossibility (reductionAnimations self))
      with (Z.succ (Z.pred (nbPossibility (reductionAnimations self)))) by lia.
    by rewrite seqZ_cons by lia.
Qed.

(** X10.  On an object with its table of phases and for selected phases
    that all exist: when [phase3] has settled the number of modes, it lists
    the jobs of the selected phases and gives every one of them that number,
    which is at least [1] and at most the number that the modes file offers:
    there is one job per selected phase, in order, with the vector of that
    phase. *)
Theorem phase3_scenes_tagged self fs phases req classes self1 phases1 n :
  well_formed self classes →
  Forall (valid_phase self) (selected self phases) →
  phase3_nbrOfModes self fs phases req = Ok (self1, phases1, n) →
  ∃ self' available,
    phase3_scenes self fs phases req = Ok self' ∧
    checkNodeNbr (packageBuilder self) fs (modesFileName (reductionParam self))
      = Ok available ∧
    1 ≤ n ≤ available ∧
    Forall2 (fun i job => classes !! Z.to_nat i = Some (PHASE job) ∧
                          NBROFMODES job = Some n)
            (selected self phases) (listSofaScene self').
Proof.
  intros Hwf Hv Hn.
  destruct (phase3_nbrOfModes_inv _ _ _ _ _ _ _ Hn)
    as (available & Hav & Hrange & -> & Hself1).
  assert (Hra : reductionAnimations self1 = reductionAnimations self)
    by (by destruct Hself1 as [->| ->]).
  assert (Hwf1 : well_formed self1 classes)
    by (unfold well_formed; by rewrite Hra).
  pose proof (selected_not_nil self phases classes Hwf) as Htruthy.
  assert (Hsel : selected self1 (Some (selected self phases))
                 = selected self phases)
    by (unfold selected at 1; by rewrite Htruthy).
  destruct (setListSofaScene_ok self1 (Some (selected self phases)) classes Hwf1)
    as (self2 & Hcall & _ & _ & _ & _ & Hls).
  { rewrite Hsel. eapply Forall_impl; [exact Hv|].
    intros i. unfold valid_phase. by rewrite Hra. }
  rewrite Hsel in Hls.
  unfold phase3_scenes. rewrite Hn. cbn [mbind result_bind].
  rewrite Hcall. cbn [mbind result_bind].
  replace (Py.len (selected self phases)) with (Py.len (listSofaScene self2))
    by (unfold Py.len; by rewrite Hls, length_fmap).
  rewrite (tag_all (fun job => set_NBROFMODES job n)). cbn [mbind result_bind].
  eexists _, available. split; [reflexivity|]. split; [exact Hav|].
  split; [exact Hrange|].
  cbn [listSofaScene set_listSofaScene]. rewrite Hls.
  apply Forall2_fmap_r, Forall2_fmap_r, Forall_Forall2_diag.
  eapply Forall_impl; [exact Hv|]. intros i [Hi0 Hi].
  destruct Hwf as (_ & Hl & _). split; [|done].
  cbn. apply phaseAt_lookup. lia.
Qed.

Lemma phase3_scenes_tagged_witness :
  ∃ self' available,
    phase3_scenes docModel docModesFs None (Some 20) = Ok self' ∧
    checkNodeNbr (packageBuilder docModel) docModesFs
      (modesFileName (reductionParam docModel)) = Ok available ∧
    1 ≤ 20 ≤ available ∧
    Forall2 (fun i job => [[0]; [1]] !! Z.to_nat i = Some (PHASE job) ∧
                          NBROFMODES job = Some 20)
            (selected docModel None) (listSofaScene self').
Proof.
  apply (phase3_scenes_tagged docModel docModesFs None (Some 20) [[0]; [1]]
           docModel (selected docModel None) 20).
  - repeat split. vm_compute. discriminate.
  - unfold valid_phase. cbn. repeat constructor; lia.
  - vm_compute. reflexivity.
Defined.

(** ** Cleaning a state file again *)

Lemma string_of_uint_no_newline d :
  "010"%char ∉ Py.chars (NilEmpty.string_of_uint d).
Proof.
  induction d; cbn [NilEmpty.string_of_uint Py.chars];
    [apply not_elem_of_nil | apply not_elem_of_cons; split; [done|exact IHd] ..].
Qed.

Lemma str_no_newline n : "010"%char ∉ Py.chars (Py.str n).
Proof.
  unfold Py.str, NilZero.string_of_int.
  assert (∀ d, "010"%char ∉ Py.chars (NilZero.string_of_uint d)) as Hu.
  { intros d. pose proof (string_of_uint_no_newline d).
    destruct d; [|done..]. cbn. apply not_elem_of_cons. split; [done|].
    apply not_elem_of_nil. }
  destruct (Z.to_int n) as [d|d]; [apply Hu|].
  cbn [Py.chars]. apply not_elem_of_cons. split; [done | apply Hu].
Qed.

Lemma marker_line_terminated p k : terminated (marker_line p k).
Proof.
  exists ("T= " +:+ Py.str (p * k)). split.
  - rewrite chars_app. apply not_elem_of_app. split; [|apply str_no_newline].
    cbn. rewrite !not_elem_of_cons. repeat split; try done. apply not_elem_of_nil.
  - unfold marker_line. by rewrite append_assoc.
Qed.

Lemma terminated_cons c line :
  c ≠ "010"%char → terminated line → terminated (String c line).
Proof.
  intros Hc (body & Hb & ->). exists (String c body). split.
  - cbn. by apply not_elem_of_cons.
  - by rewrite append_cons.
Qed.

Lemma readlines_file_lines s : file_lines (Py.readlines s).
Proof.
  induction s as [|c s IH]; [done|]. cbn [Py.readlines].
  case_bool_decide as Hc.
  - assert (terminated (String c "")) as Ht.
    { exists "". split; [apply not_elem_of_nil | by subst]. }
    cbn [file_lines]. destruct (Py.readlines s); [by left | by split].
  - destruct (Py.readlines s) as [|l ls].
    + right. split; [|done]. cbn. apply not_elem_of_cons. split; [done|].
      apply not_elem_of_nil.
    + cbn [file_lines] in *. destruct ls as [|l2 ls].
      * destruct IH as [Ht|[Hn Hne]].
        -- left. by apply terminated_cons.
        -- right. split; [|done]. cbn. by apply not_elem_of_cons.
      * destruct IH as [Ht Hrest]. split; [|done]. by apply terminated_cons.
Qed.

Lemma readlines_concat lines :
  file_lines lines → Py.readlines (Py.concat lines) = lines.
Proof.
  induction lines as [|line rest IH]; [done|]. cbn [file_lines Py.concat].
  destruct rest as [|l2 rest].
  - cbn [Py.concat]. rewrite append_nil_r.
    intros [(body & Hb & ->)|[Hn Hne]].
    + rewrite <- (append_nil_r Py.newline) at 1.
      by rewrite (readlines_first body "" Hb).
    + by apply readlines_no_newline.
  - intros [(body & Hb & ->) Hrest].
    rewrite append_assoc, (readlines_first body _ Hb). by rewrite IH.
Qed.

Lemma file_lines_cons line rest line' rest' :
  file_lines (line :: rest) →
  length rest' = length rest →
  file_lines rest' →
  (terminated line → terminated line') →
  (unterminated line → terminated line' ∨ unterminated line') →
  file_lines (line' :: rest').
Proof.
  intros Hl Hlen Hrest Ht Hu. cbn [file_lines] in *.
  destruct rest as [|r2 rest], rest' as [|r2' rest']; try done.
  - destruct Hl as [Hl|Hl]; [left; by apply Ht | by apply Hu].
  - split; [apply Ht, Hl | done].
Qed.

Lemma file_lines_tail line rest : file_lines (line :: rest) → file_lines rest.
Proof. cbn [file_lines]. destruct rest; [done | by intros [_ ?]]. Qed.

Lemma cleanLines_file_lines p c lines :
  file_lines lines → file_lines (cleanLines p c lines).
Proof.
  revert c. induction lines as [|line rest IH]; intros c; [done|].
  intros Hl. pose proof (file_lines_tail _ _ Hl) as Hrest.
  cbn [cleanLines]. destruct (negb (Py.find line "T=" =? -1)).
  - apply (file_lines_cons line rest); [done | apply length_cleanLines | by apply IH | |].
    + intros _. apply marker_line_terminated.
    + intros _. left. apply marker_line_terminated.
  - apply (file_lines_cons line rest); [done | apply length_cleanLines | by apply IH | |].
    + done.
    + by right.
Qed.

Lemma cleanLines_again p p' c lines :
  cleanLines p' c (cleanLines p c lines) = cleanLines p' c lines.
Proof.
  revert c. induction lines as [|line rest IH]; intros c; [done|].
  cbn [cleanLines]. destruct (negb (Py.find line "T=" =? -1)) eqn:E.
  - cbn [cleanLines].
    change (negb (Py.find ("T= " +:+ Py.str (p * c) +:+ Py.newline) "T=" =? -1))
      with (is_marker (marker_line p c)).
    by rewrite is_marker_marker_line, IH.
  - cbn [cleanLines]. by rewrite E, IH.
Qed.

(** X11.  Cleaning a state file that was cleaned before gives what cleaning
    the original file would have given: the value of a marker depends only
    on its rank and on the period, the other lines are kept, and the lines
    are cut at the same places.  In particular a second cleaning with the
    same period changes nothing. *)
Theorem cleanStateFile_again self fs periodSaveGIE stateFileName fs1 :
  cleanStateFile self fs periodSaveGIE stateFileName = Ok fs1 →
  (∀ period,
     cleanStateFile self fs1 period stateFileName
     = cleanStateFile self fs period stateFileName) ∧
  cleanStateFile self fs1 periodSaveGIE stateFileName = Ok fs1.
Proof.
  intros Hfirst.
  assert (Hagain : ∀ period,
            cleanStateFile self fs1 period stateFileName
            = cleanStateFile self fs period stateFileName);
    [|split; [exact Hagain | by rewrite Hagain]].
  intros period. revert Hfirst. unfold cleanStateFile. cbv zeta.
  set (out := debugDir self +:+ stateFileName).
  destruct (fs !! out) as [content|] eqn:Hc; [|done]. intros [= <-].
  assert (Hbak : out +:+ ".bak" ≠ out) by (by apply append_ne).
  rewrite lookup_delete_ne, lookup_insert_eq by done.
  rewrite readlines_concat
    by apply cleanLines_file_lines, readlines_file_lines.
  rewrite cleanLines_again. f_equal.
  apply map_eq. intros q.
  destruct (decide (q = out +:+ ".bak")) as [->|Hq1];
    [by rewrite !lookup_delete_eq|].
  rewrite !lookup_delete_ne by done.
  destruct (decide (q = out)) as [->|Hq2]; [by rewrite !lookup_insert_eq|].
  rewrite !lookup_insert_ne by done. rewrite lookup_delete_ne by done.
  by rewrite lookup_insert_ne.
Qed.

Lemma cleanStateFile_again_witness :
  ∃ fs1,
    cleanStateFile docBuilder (<["out/debug/stateFile.state" := stateA]> jobsFs)
      6 "stateFile.state" = Ok fs1 ∧
    cleanStateFile docBuilder fs1 6 "stateFile.state" = Ok fs1.
Proof.
  eexists. split; [reflexivity|].
  apply (cleanStateFile_again docBuilder
           (<["out/debug/stateFile.state" := stateA]> jobsFs) 6 "stateFile.state").
  reflexivity.
Defined.

(** ** The active nodes that [phase4] writes *)

Lemma active_nodes_loop (list_of_set : gset Z → list Z) lists :
  (∀ s, list_of_set s ≡ₚ elements s) →
  ∀ acc, NoDup acc →
    NoDup (foldl (unionActiveNodes list_of_set) acc lists) ∧
    ∀ x, x ∈ foldl (unionActiveNodes list_of_set) acc lists
         ↔ x ∈ acc ∨ ∃ l, l ∈ lists ∧ x ∈ l.
Proof.
  intros Hperm. induction lists as [|l lists IH]; intros acc Hacc.
  - split; [done|]. intros x. cbn. split; [by left|].
    intros [?|(l & Hl & _)]; [done | by apply elem_of_nil in Hl].
  - cbn [foldl].
    destruct (IH (unionActiveNodes list_of_set acc l)) as [Hnd Hin].
    { unfold unionActiveNodes. rewrite Hperm. apply NoDup_elements. }
    split; [exact Hnd|]. intros x. rewrite Hin.
    unfold unionActiveNodes. rewrite Hperm, elem_of_elements.
    rewrite !elem_of_union, !elem_of_list_to_set. split.
    + intros [[[Hx|Hx]|Hx]|(l' & Hl' & Hx)].
      * by apply elem_of_empty in Hx.
      * by left.
      * right. exists l. split; [by left | done].
      * right. exists l'. split; [by right | done].
    + intros [Hx|(l' & [->|Hl']%elem_of_cons & Hx)].
      * left. left. by right.
      * left. by right.
      * right. by exists l'.
Qed.

Lemma sorted_distinct (l : list Z) :
  StronglySorted Z.le l → NoDup l → StronglySorted Z.lt l.
Proof.
  induction 1 as [|x l Hs IH Hx]; intros Hnd; [constructor|].
  apply NoDup_cons in Hnd as [Hxl Hnd]. constructor; [by apply IH|].
  apply Forall_forall. intros y Hy.
  pose proof (proj1 (Forall_forall _ _) Hx y Hy).
  assert (x ≠ y) by (by intros ->). lia.
Qed.

Lemma node_lines_file_lines (l : list Z) :
  file_lines ((fun item => Py.str item +:+ Py.newline) <$> l).
Proof.
  assert (∀ x, terminated (Py.str x +:+ Py.newline)) as Ht.
  { intros x. exists (Py.str x). split; [apply str_no_newline | done]. }
  induction l as [|x l IH]; [done|]. rewrite fmap_cons. cbn [file_lines].
  destruct l as [|y l]; [left; apply Ht | split; [apply Ht | exact IH]].
Qed.

(** X12.  Whatever the order in which a set yields its elements, the list of
    active nodes of [phase4] is strictly increasing and holds exactly the
    nodes that occur in one of the lists; it only depends on these nodes,
    not on the number or the order of the lists, so that lists added twice
    change nothing; and [listActiveNodes.txt] has one line per node of the
    list, in this order. *)
Theorem finalListActiveNodes_sorted_union (list_of_set : gset Z → list Z) lists :
  (∀ s, list_of_set s ≡ₚ elements s) →
  StronglySorted Z.lt (finalListActiveNodes list_of_set lists) ∧
  (∀ x, x ∈ finalListActiveNodes list_of_set lists ↔ ∃ l, l ∈ lists ∧ x ∈ l) ∧
  (∀ (other : gset Z → list Z) lists',
     (∀ s, other s ≡ₚ elements s) →
     (∀ x, (∃ l, l ∈ lists ∧ x ∈ l) ↔ (∃ l, l ∈ lists' ∧ x ∈ l)) →
     finalListActiveNodes other lists' = finalListActiveNodes list_of_set lists) ∧
  (∀ self fs,
     activesNodesLists self = lists →
     Py.readlines
       (default "" (writeActiveNodes list_of_set self fs
                      !! (dataDir (packageBuilder self) +:+ "listActiveNodes.txt")))
     = (fun item => Py.str item +:+ Py.newline)
         <$> finalListActiveNodes list_of_set lists).
Proof.
  intros Hperm.
  assert (Hspec : ∀ (los : gset Z → list Z) ls,
            (∀ s, los s ≡ₚ elements s) →
            StronglySorted Z.le (finalListActiveNodes los ls) ∧
            NoDup (finalListActiveNodes los ls) ∧
            ∀ x, x ∈ finalListActiveNodes los ls ↔ ∃ l, l ∈ ls ∧ x ∈ l).
  { intros los ls Hlos. unfold finalListActiveNodes, sorted.
    destruct (active_nodes_loop los ls Hlos [] (NoDup_nil_2)) as [Hnd Hin].
    split; [apply (StronglySorted_merge_sort Z.le)|].
    split; [by rewrite merge_sort_Permutation|].
    intros x. rewrite merge_sort_Permutation, Hin. split.
    - intros [Hx|Hx]; [by apply elem_of_nil in Hx | done].
    - by right. }
  destruct (Hspec list_of_set lists Hperm) as (Hsorted & Hnd & Hin).
  split; [by apply sorted_distinct|]. split; [exact Hin|]. split.
  - intros other lists' Hother Hsame.
    destruct (Hspec other lists' Hother) as (Hsorted' & Hnd' & Hin').
    apply (StronglySorted_unique Z.le); [done | done |].
    apply NoDup_Permutation; [done | done |].
    intros x. by rewrite Hin, Hin', Hsame.
  - intros self fs Hl. unfold writeActiveNodes.
    rewrite Hl, lookup_insert_eq, default_some.
    apply readlines_concat, node_lines_file_lines.
Qed.

Lemma finalListActiveNodes_sorted_union_witness :
  finalListActiveNodes elements [[7; 2]; [5; 2]; []] = [2; 5; 7] ∧
  finalListActiveNodes elements ([[7; 2]; [5; 2]; []] ++ [[7; 2]; [5; 2]; []])
  = [2; 5; 7] ∧
  StronglySorted Z.lt (finalListActiveNodes elements [[7; 2]; [5; 2]; []]).
Proof.
  destruct (finalListActiveNodes_sorted_union elements [[7; 2]; [5; 2]; []])
    as (Hsorted & _ & Hsame & _); [done|].
  split; [by vm_compute|]. split; [|exact Hsorted].
  rewrite (Hsame elements _ ltac:(done)); [by vm_compute|].
  intros x. split; intros (l & Hl & Hx); exists l; (split; [|done]).
  - apply elem_of_app. by left.
  - by apply elem_of_app in Hl as [?|?].
Defined.

(** ** Element files in the order of the GIE files *)

Lemma enumerate_lookup {A} (l : list A) (k : nat) x :
  l !! k = Some x → enumerate l !! k = Some (Z.of_nat k, x).
Proof.
  intros Hk. pose proof (lookup_lt_Some _ _ _ Hk) as Hlt.
  unfold enumerate, Py.range, Py.len.
  rewrite lookup_zip_with, lookup_seqZ_lt by lia. cbn. rewrite Hk. cbn.
  by rewrite Z.add_0_l.
Qed.

Lemma length_enumerate {A} (l : list A) : length (enumerate l) = length l.
Proof.
  unfold enumerate, Py.range, Py.len.
  rewrite length_zip_with, length_seqZ. lia.
Qed.

Lemma enumerate_prefix {A St} (body : St → Z * A → result St) (I : nat → St → Prop)
    (l : list A) s0 (n : nat) :
  I 0%nat s0 →
  (∀ (k : nat) x s, (k < n)%nat → l !! k = Some x → I k s →
                    ∃ s', body s (Z.of_nat k, x) = Ok s' ∧ I (S k) s') →
  (n ≤ length l)%nat →
  ∃ s, foldM body s0 (take n (enumerate l)) = Ok s ∧ I n s.
Proof.
  intros H0 Hstep. induction n as [|n IH]; intros Hn.
  - exists s0. by rewrite take_0.
  - destruct IH as (s & Hs & HI); [intros; apply Hstep; auto with lia | lia |].
    destruct (lookup_lt_is_Some_2 l n) as [x Hx]; [lia|].
    rewrite (take_S_r _ _ _ (enumerate_lookup l n x Hx)), foldM_snoc, Hs.
    cbn [mbind result_bind]. apply (Hstep n x s); [lia | done | done].
Qed.

Lemma enumerate_loop {A St} (body : St → Z * A → result St) (I : nat → St → Prop)
    (l : list A) s0 :
  I 0%nat s0 →
  (∀ (k : nat) x s, l !! k = Some x → I k s →
                    ∃ s', body s (Z.of_nat k, x) = Ok s' ∧ I (S k) s') →
  ∃ s, foldM body s0 (enumerate l) = Ok s ∧ I (length l) s.
Proof.
  intros H0 Hstep.
  destruct (enumerate_prefix body I l s0 (length l) H0) as (s & Hs & HI);
    [intros; by apply Hstep | done |].
  exists s. split; [|done].
  by rewrite <- Hs, <- (length_enumerate l), firstn_all.
Qed.

Lemma enumerate_loop_raise {A St} (body : St → Z * A → result St)
    (I : nat → St → Prop) (l : list A) s0 (n : nat) x e :
  I 0%nat s0 →
  (∀ (k : nat) x s, (k < n)%nat → l !! k = Some x → I k s →
                    ∃ s', body s (Z.of_nat k, x) = Ok s' ∧ I (S k) s') →
  l !! n = Some x →
  (∀ s, I n s → body s (Z.of_nat n, x) = Raise e) →
  foldM body s0 (enumerate l) = Raise e.
Proof.
  intros H0 Hstep Hx Hraise.
  pose proof (lookup_lt_Some _ _ _ Hx) as Hlt.
  destruct (enumerate_prefix body I l s0 n H0 Hstep) as (s & Hs & HI); [lia|].
  rewrite <- (take_drop_middle _ _ _ (enumerate_lookup l n x Hx)).
  rewrite foldM_app, Hs. cbn [mbind result_bind foldM].
  by rewrite (Hraise s HI).
Qed.

Lemma swap_Permutation {A} (l : list A) (i j : nat) a b :
  l !! i = Some a → l !! j = Some b → <[i := b]> (<[j := a]> l) ≡ₚ l.
Proof.
  intros Hi Hj.
  pose proof (lookup_lt_Some _ _ _ Hi). pose proof (lookup_lt_Some _ _ _ Hj).
  apply Permutation_inj. split; [by rewrite !length_insert|].
  exists (fun k => if decide (k = i) then j else if decide (k = j) then i else k).
  split.
  - intros x y. repeat case_decide; intros; subst; congruence.
  - intros k. destruct (decide (k = i)) as [->|Hki].
    + by rewrite list_lookup_insert_eq by (by rewrite length_insert).
    + rewrite list_lookup_insert_ne by done.
      destruct (decide (k = j)) as [->|Hkj].
      * by rewrite list_lookup_insert_eq.
      * by rewrite list_lookup_insert_ne.
Qed.

Lemma alignStep_eq names (i j : nat) a b tmp :
  names !! i = Some a → names !! j = Some b →
  alignStep (Z.of_nat i) (tmp, names) (Z.of_nat j)
  = Ok (if str_in tmp b then (b, <[i := b]> (<[j := a]> names))
        else (tmp, names)).
Proof.
  intros Hi Hj.
  pose proof (lookup_lt_Some _ _ _ Hi). pose proof (lookup_lt_Some _ _ _ Hj).
  unfold alignStep. cbv beta iota. rewrite (getitem_lookup _ _ _ Hj). cbn [mbind result_bind].
  destruct (str_in tmp b); [|done].
  rewrite (getitem_lookup _ _ _ Hi). cbn [mbind result_bind].
  rewrite setitem_insert by done. cbn [mbind result_bind].
  by rewrite setitem_insert by (by rewrite length_insert).
Qed.

Lemma alignStep_beyond names (i : Z) (j : nat) b tmp :
  Py.len names ≤ i → names !! j = Some b → str_in tmp b = true →
  alignStep i (tmp, names) (Z.of_nat j) = Raise IndexError.
Proof.
  intros Hi Hj Hin. unfold alignStep. cbv beta iota.
  rewrite (getitem_lookup _ _ _ Hj). cbn [mbind result_bind]. rewrite Hin.
  cbn [mbind result_bind]. by rewrite getitem_beyond.
Qed.

Lemma alignStep_skip names (i : Z) (j : nat) b tmp :
  names !! j = Some b → str_in tmp b = false →
  alignStep i (tmp, names) (Z.of_nat j) = Ok (tmp, names).
Proof.
  intros Hj Hin. unfold alignStep. cbv beta iota.
  rewrite (getitem_lookup _ _ _ Hj). cbn [mbind result_bind]. by rewrite Hin.
Qed.

Lemma align_inner_skip names (i : Z) tmp (js : list Z) :
  Forall (fun j => ∃ (k : nat) b, j = Z.of_nat k ∧ names !! k = Some b ∧
                                  str_in tmp b = false) js →
  foldM (alignStep i) (tmp, names) js = Ok (tmp, names).
Proof.
  induction 1 as [|j js (k & b & -> & Hk & Hb) _ IH]; [done|].
  cbn [foldM]. rewrite (alignStep_skip _ _ _ _ _ Hk Hb). exact IH.
Qed.

Lemma align_inner_total names0 (i : nat) (js : list Z) :
  (i < length names0)%nat →
  Forall (fun j => 0 ≤ j < Py.len names0) js →
  ∀ tmp names, names ≡ₚ names0 →
    ∃ st, foldM (alignStep (Z.of_nat i)) (tmp, names) js = Ok st ∧
          snd st ≡ₚ names0.
Proof.
  intros Hi. induction 1 as [|j js Hj _ IH]; intros tmp names Hperm.
  - by exists (tmp, names).
  - cbn [foldM]. pose proof (Permutation_length Hperm) as Hlen.
    unfold Py.len in Hj.
    destruct (lookup_lt_is_Some_2 names i) as [a Ha]; [lia|].
    destruct (lookup_lt_is_Some_2 names (Z.to_nat j)) as [b Hb]; [lia|].
    rewrite <- (Z2Nat.id j) by lia.
    rewrite (alignStep_eq _ _ _ _ _ _ Ha Hb). cbn [mbind result_bind].
    destruct (str_in tmp b).
    + apply IH. by rewrite (swap_Permutation _ _ _ _ _ Ha Hb).
    + by apply IH.
Qed.

Lemma range_in_range (n : Z) : Forall (fun j => 0 ≤ j < n) (Py.range n).
Proof. apply Forall_forall. intros j Hj%elem_of_seqZ. lia. Qed.

Lemma alignGie_total names0 names (i : nat) gie :
  (i < length names0)%nat → names ≡ₚ names0 →
  ∃ names', alignGie names (Z.of_nat i, gie) = Ok names' ∧ names' ≡ₚ names0.
Proof.
  intros Hi Hperm. unfold alignGie.
  destruct (align_inner_total names0 i (Py.range (Py.len names)) Hi)
    with (tmp := replace gie "_Gie.txt" "") (names := names)
    as (st & Hst & Hp); [|done|].
  - unfold Py.len. rewrite (Permutation_length Hperm). apply range_in_range.
  - rewrite Hst. cbn [mbind result_bind]. by exists st.2.
Qed.

Lemma align_inner_raise names (i : Z) tmp (js : list Z) :
  Py.len names ≤ i →
  Forall (fun j => 0 ≤ j < Py.len names) js →
  (∃ j b, j ∈ js ∧ names !! Z.to_nat j = Some b ∧ str_in tmp b = true) →
  foldM (alignStep i) (tmp, names) js = Raise IndexError.
Proof.
  intros Hi. induction 1 as [|j js Hj _ IH]; intros (j' & b' & Hin & Hb' & Hm).
  - by apply elem_of_nil in Hin.
  - cbn [foldM]. unfold Py.len in Hj.
    destruct (lookup_lt_is_Some_2 names (Z.to_nat j)) as [b Hb]; [lia|].
    rewrite <- (Z2Nat.id j) by lia.
    destruct (str_in tmp b) eqn:E.
    + by rewrite (alignStep_beyond _ _ _ _ _ Hi Hb E).
    + rewrite (alignStep_skip _ _ _ _ _ Hb E). cbn [mbind result_bind].
      apply IH. exists j', b'. split; [|done].
      apply elem_of_cons in Hin as [->|Hin]; [congruence | done].
Qed.

(** X13.  The loop of [phase4] that puts the element files in the order of
    the GIE files only rearranges [savedElementsFilesNames]: with at least
    as many element files as GIE files it always returns, and the new list
    is a permutation of the old one.  With fewer element files, the first
    GIE file that has no place in the list makes the loop raise
    [IndexError] as soon as an element file goes with it. *)
Theorem alignSavedElements_rearranges (gies names : list string) :
  ((length gies ≤ length names)%nat →
   ∃ names', alignSavedElements gies names = Ok names' ∧ names' ≡ₚ names) ∧
  (∀ gie elmts,
     gies !! length names = Some gie → elmts ∈ names → goes_with gie elmts →
     alignSavedElements gies names = Raise IndexError).
Proof.
  unfold alignSavedElements. split.
  - intros Hlen.
    destruct (enumerate_loop alignGie (fun _ cur => cur ≡ₚ names) gies names)
      as (names' & Hcall & Hperm); [done| |by exists names'].
    intros k gie cur Hk Hcur. apply alignGie_total; [|done].
    pose proof (lookup_lt_Some _ _ _ Hk). lia.
  - intros gie elmts Hgie Helmts Hgoes.
    apply (enumerate_loop_raise alignGie (fun _ cur => cur ≡ₚ names) gies names
             (length names) gie); [done| |done|].
    + intros k g cur Hk _ Hcur. by apply alignGie_total.
    + intros cur Hcur. unfold alignGie.
      rewrite align_inner_raise; [done| | |].
      * unfold Py.len. by rewrite (Permutation_length Hcur).
      * apply range_in_range.
      * rewrite <- Hcur in Helmts.
        apply list_elem_of_lookup in Helmts as [j Hj].
        exists (Z.of_nat j), elmts. rewrite Nat2Z.id. split; [|done].
        apply elem_of_seqZ. pose proof (lookup_lt_Some _ _ _ Hj).
        unfold Py.len. lia.
Qed.

Lemma alignSavedElements_rearranges_witness :
  (∃ names',
     alignSavedElements docGieFiles docElementFiles = Ok names' ∧
     names' ≡ₚ docElementFiles) ∧
  alignSavedElements docGieFiles ["leg_elmts.txt"] = Raise IndexError.
Proof.
  split.
  - apply (proj1 (alignSavedElements_rearranges docGieFiles docElementFiles)).
    cbn. lia.
  - apply (proj2 (alignSavedElements_rearranges docGieFiles ["leg_elmts.txt"])
             "leg_Gie.txt" "leg_elmts.txt").
    + reflexivity.
    + by left.
    + by vm_compute.
Defined.

Lemma align_inner_swap names (i j0 : nat) a e tmp :
  (i ≤ j0)%nat →
  names !! i = Some a → names !! j0 = Some e →
  str_in tmp e = true →
  (∀ (j : nat) b, (j < j0)%nat → names !! j = Some b → str_in tmp b = false) →
  (∀ (j : nat) b, (j0 < j)%nat → names !! j = Some b → str_in e b = false) →
  foldM (alignStep (Z.of_nat i)) (tmp, names) (Py.range (Py.len names))
  = Ok (e, <[i := e]> (<[j0 := a]> names)).
Proof.
  intros Hij Hi Hj0 Hm Hbefore Hafter.
  pose proof (lookup_lt_Some _ _ _ Hj0) as Hlt.
  unfold Py.range, Py.len.
  replace (Z.of_nat (length names))
    with (Z.of_nat j0 + Z.succ (Z.of_nat (length names - S j0))) by lia.
  rewrite seqZ_app, (seqZ_cons (0 + Z.of_nat j0)) by lia. rewrite foldM_app.
  rewrite align_inner_skip.
  2:{ apply Forall_forall. intros j Hj%elem_of_seqZ.
      destruct (lookup_lt_is_Some_2 names (Z.to_nat j)) as [b Hb]; [lia|].
      exists (Z.to_nat j), b. split; [lia|]. split; [done|].
      apply (Hbefore (Z.to_nat j)); [lia | done]. }
  cbn [mbind result_bind foldM]. rewrite Z.add_0_l.
  rewrite (alignStep_eq _ _ _ _ _ _ Hi Hj0), Hm. cbn [mbind result_bind].
  apply align_inner_skip.
  apply Forall_forall. intros j Hj%elem_of_seqZ.
  destruct (lookup_lt_is_Some_2 names (Z.to_nat j)) as [b Hb]; [lia|].
  exists (Z.to_nat j), b. split; [lia|]. split.
  - rewrite !list_lookup_insert_ne by lia. done.
  - apply (Hafter (Z.to_nat j)); [lia | done].
Qed.

(** X14.  When the names of the element files are distinct and none occurs
    in another, every GIE file has exactly one element file that goes with
    it and no element file goes with two GIE files, the loop of [phase4]
    returns with the element files rearranged so that the file at each
    index of a GIE file is the one that goes with it. *)
Theorem alignSavedElements_pairs (gies names : list string) :
  NoDup gies →
  NoDup names →
  (∀ a b, a ∈ names → b ∈ names → str_in a b = true → a = b) →
  (∀ gie, gie ∈ gies → ∃ elmts, elmts ∈ names ∧ goes_with gie elmts) →
  (∀ gie a b, gie ∈ gies → a ∈ names → b ∈ names →
              goes_with gie a → goes_with gie b → a = b) →
  (∀ gie gie' elmts, gie ∈ gies → gie' ∈ gies → elmts ∈ names →
                     goes_with gie elmts → goes_with gie' elmts → gie = gie') →
  ∃ names',
    alignSavedElements gies names = Ok names' ∧
    names' ≡ₚ names ∧
    Forall2 goes_with gies (take (length gies) names').
Proof.
  intros Hgies Hnames Hsub Hex Huniq Hinj.
  set (I := fun (k : nat) (cur : list string) =>
              cur ≡ₚ names ∧
              ∀ (k' : nat) gie, (k' < k)%nat → gies !! k' = Some gie →
                                ∃ elmts, cur !! k' = Some elmts ∧
                                         goes_with gie elmts).
  destruct (enumerate_loop alignGie I gies names) as (names' & Hcall & Hperm & Hall).
  { split; [done|]. intros ???. lia. }
  { intros k gie cur Hk [Hcur Hdone].
    assert (Hgie : gie ∈ gies) by (by eapply list_elem_of_lookup_2).
    assert (Hnd : NoDup cur) by (by rewrite Hcur).
    destruct (Hex gie Hgie) as (e & He & Hgoes).
    pose proof He as He'. rewrite <- Hcur in He'.
    apply list_elem_of_lookup in He' as [j0 Hj0].
    assert (Hkj : (k ≤ j0)%nat).
    { destruct (decide (k ≤ j0)%nat) as [|Hlt]; [done|]. exfalso.
      destruct (lookup_lt_is_Some_2 gies j0) as [gie' Hgie'].
      { pose proof (lookup_lt_Some _ _ _ Hk). lia. }
      destruct (Hdone j0 gie' ltac:(lia) Hgie') as (e' & He' & Hgoes').
      assert (e' = e) as -> by congruence.
      assert (gie = gie') as <-.
      { apply (Hinj gie gie' e); [done | by eapply list_elem_of_lookup_2 | done..]. }
      pose proof (NoDup_lookup _ _ _ _ Hgies Hk Hgie'). lia. }
    pose proof (lookup_lt_Some _ _ _ Hj0) as Hlt.
    destruct (lookup_lt_is_Some_2 cur k) as [a Ha]; [lia|].
    unfold alignGie.
    rewrite (align_inner_swap cur k j0 a e); [| done | done | done | exact Hgoes | |].
    - cbn [mbind result_bind snd]. eexists. split; [reflexivity|]. split.
      + by rewrite (swap_Permutation _ _ _ _ _ Ha Hj0).
      + intros k' gie' Hk' Hgie'.
        destruct (decide (k' = k)) as [->|Hne].
        * assert (gie' = gie) as -> by congruence. exists e. split; [|done].
          apply list_lookup_insert_eq. rewrite length_insert. lia.
        * destruct (Hdone k' gie' ltac:(lia) Hgie') as (e' & He' & Hgoes').
          exists e'. split; [|done].
          by rewrite !list_lookup_insert_ne by lia.
    - intros j b Hj Hb.
      destruct (str_in (replace gie "_Gie.txt" "") b) eqn:E; [|done]. exfalso.
      assert (b = e) as ->.
      { apply (Huniq gie); [done | | done | done | done].
        rewrite <- Hcur. by eapply list_elem_of_lookup_2. }
      pose proof (NoDup_lookup _ _ _ _ Hnd Hb Hj0). lia.
    - intros j b Hj Hb.
      destruct (str_in e b) eqn:E; [|done]. exfalso.
      assert (e = b) as ->.
      { apply Hsub; [done | | done].
        rewrite <- Hcur. by eapply list_elem_of_lookup_2. }
      pose proof (NoDup_lookup _ _ _ _ Hnd Hb Hj0). lia. }
  exists names'. split; [exact Hcall|]. split; [exact Hperm|].
  apply Forall2_same_length_lookup. split.
  - rewrite length_take. 
    assert (length gies ≤ length names')%nat; [|lia].
    destruct (decide (length gies = 0)%nat) as [|Hne]; [lia|].
    destruct (lookup_lt_is_Some_2 gies (length gies - 1)) as [g Hg]; [lia|].
    destruct (Hall (length gies - 1)%nat g ltac:(lia) Hg) as (e & He & _).
    pose proof (lookup_lt_Some _ _ _ He). lia.
  - intros k gie e Hk He.
    pose proof (lookup_lt_Some _ _ _ Hk) as Hlt.
    destruct (Hall k gie Hlt Hk) as (e' & He' & Hgoes).
    rewrite lookup_take_lt in He by done. congruence.
Qed.

Lemma alignSavedElements_pairs_witness :
  ∃ names',
    alignSavedElements docGieFiles docElementFiles = Ok names' ∧
    names' ≡ₚ docElementFiles ∧
    Forall2 goes_with docGieFiles (take (length docGieFiles) names').
Proof.
  apply (alignSavedElements_pairs docGieFiles docElementFiles).
  - apply (bool_decide_unpack _). by vm_compute.
  - apply (bool_decide_unpack _). by vm_compute.
  - intros a b Ha Hb.
    repeat (apply elem_of_cons in Ha as [->|Ha]);
      try (by apply elem_of_nil in Ha);
      repeat (apply elem_of_cons in Hb as [->|Hb]);
      try (by apply elem_of_nil in Hb); by vm_compute.
  - intros gie Hg.
    repeat (apply elem_of_cons in Hg as [->|Hg]);
      try (by apply elem_of_nil in Hg).
    + exists "arm_elmts.txt". split; [|by vm_compute].
      apply (bool_decide_unpack _). by vm_compute.
    + exists "leg_elmts.txt". split; [|by vm_compute].
      apply (bool_decide_unpack _). by vm_compute.
  - intros gie a b Hg Ha Hb.
    repeat (apply elem_of_cons in Hg as [->|Hg]);
      try (by apply elem_of_nil in Hg);
      repeat (apply elem_of_cons in Ha as [->|Ha]);
      try (by apply elem_of_nil in Ha);
      repeat (apply elem_of_cons in Hb as [->|Hb]);
      try (by apply elem_of_nil in Hb); by vm_compute.
  - intros gie gie' e Hg Hg' He.
    repeat (apply elem_of_cons in Hg as [->|Hg]);
      try (by apply elem_of_nil in Hg);
      repeat (apply elem_of_cons in Hg' as [->|Hg']);
      try (by apply elem_of_nil in Hg');
      repeat (apply elem_of_cons in He as [->|He]);
      try (by apply elem_of_nil in He); by vm_compute.
Defined.

(** ** The list of the packages of the library *)

Lemma length_append a b :
  String.length (a +:+ b) = (String.length a + String.length b)%nat.
Proof.
  induction a as [|c a IH]; [done|]. rewrite append_cons. cbn. by rewrite IH.
Qed.

Lemma substring_prefix a b : String.substring 0 (String.length a) (a +:+ b) = a.
Proof.
  induction a as [|c a IH]; [by destruct b|].
  rewrite append_cons. cbn. by rewrite IH.
Qed.

Lemma but_last_two_app a c d : but_last_two (a +:+ String c (String d "")) = a.
Proof.
  unfold but_last_two. rewrite length_append. cbn [String.length].
  replace (String.length a + 2 - 2)%nat with (String.length a) by lia.
  apply substring_prefix.
Qed.

Lemma find_from_eq i sub s :
  Py.find_from i sub s
  = if String.prefix sub s then i
    else match s with
         | EmptyString => -1
         | String _ r => Py.find_from (i + 1) sub r
         end.
Proof. by destruct s. Qed.

Lemma prefix_app sub r : String.prefix sub (sub +:+ r) = true.
Proof.
  induction sub as [|c sub IH]; [by destruct r|].
  rewrite append_cons. cbn. by destruct (ascii_dec c c).
Qed.

Lemma prefix_app_l sub h r :
  String.prefix sub h = true → String.prefix sub (h +:+ r) = true.
Proof.
  revert h. induction sub as [|c sub IH]; intros h.
  - intros _. by destruct (h +:+ r).
  - destruct h as [|d h]; [done|]. rewrite append_cons. cbn.
    destruct (ascii_dec c d); [apply IH | done].
Qed.

Lemma find_from_app_l sub h r i :
  0 ≤ i → Py.find_from i sub h ≠ -1 → Py.find_from i sub (h +:+ r) ≠ -1.
Proof.
  revert i. induction h as [|c h IH]; intros i Hi.
  - rewrite (find_from_eq i sub ""), (find_from_eq i sub ("" +:+ r)).
    destruct (String.prefix sub "") eqn:E; [|done].
    rewrite (prefix_app_l _ _ r E). lia.
  - rewrite append_cons.
    rewrite (find_from_eq i sub (String c h)),
            (find_from_eq i sub (String c (h +:+ r))).
    destruct (String.prefix sub (String c h)) eqn:E.
    + rewrite <- append_cons, (prefix_app_l _ _ r E). lia.
    + intros Hh. destruct (String.prefix sub (String c (h +:+ r))); [lia|].
      apply IH; [lia | done].
Qed.

Lemma find_from_here sub a r i :
  0 ≤ i → Py.find_from i sub (a +:+ sub +:+ r) ≠ -1.
Proof.
  revert i. induction a as [|c a IH]; intros i Hi.
  - rewrite append_nil_l, find_from_eq, prefix_app. lia.
  - rewrite append_cons, find_from_eq.
    destruct (String.prefix _ _); [lia | apply IH; lia].
Qed.

Lemma find_from_no_first (c0 : ascii) sub s i :
  (c0 ∉ Py.chars s) → Py.find_from i (String c0 sub) s = -1.
Proof.
  revert i. induction s as [|c s IH]; intros i Hs; [done|].
  cbn [Py.chars] in Hs. apply not_elem_of_cons in Hs as [Hc Hs].
  rewrite find_from_eq. cbn [String.prefix].
  destruct (ascii_dec c0 c); [done|]. by apply IH.
Qed.

Lemma find_from_skip (c0 : ascii) sub h r i :
  (c0 ∉ Py.chars h) →
  (∀ i, Py.find_from i (String c0 sub) r = -1) →
  Py.find_from i (String c0 sub) (h +:+ r) = -1.
Proof.
  intros Hh Hr. revert i. induction h as [|c h IH]; intros i.
  - by rewrite append_nil_l.
  - cbn [Py.chars] in Hh. apply not_elem_of_cons in Hh as [Hc Hh].
    rewrite append_cons, find_from_eq. cbn [String.prefix].
    destruct (ascii_dec c0 c); [done|]. by apply IH.
Qed.

Lemma quoted_names_no_bracket names :
  Forall (fun n => "["%char ∉ Py.chars n) names →
  "["%char ∉ Py.chars (join "," (quoted <$> names)).
Proof.
  assert (∀ n, ("["%char ∉ Py.chars n) → "["%char ∉ Py.chars (quoted n)) as Hq.
  { intros n Hn. unfold quoted. rewrite !chars_app. cbn [Py.chars].
    rewrite !not_elem_of_app, !not_elem_of_cons. repeat split; try done;
      apply not_elem_of_nil. }
  induction 1 as [|n names Hn Hnames IH]; [apply not_elem_of_nil|].
  rewrite fmap_cons. destruct names as [|n2 names]; [by apply Hq|].
  change (join "," (quoted n :: (quoted <$> n2 :: names)))
    with (quoted n +:+ "," +:+ join "," (quoted <$> n2 :: names)).
  rewrite !chars_app, !not_elem_of_app. split; [by apply Hq|]. split; [|done].
  cbn. apply not_elem_of_cons. split; [done | apply not_elem_of_nil].
Qed.

Lemma registryLine_no_empty_list head n names i :
  ("["%char ∉ Py.chars head) →
  Forall (fun n => "["%char ∉ Py.chars n) (n :: names) →
  Py.find_from i "[]" (registryLine head (n :: names)) = -1.
Proof.
  intros Hhead Hnames. unfold registryLine.
  apply find_from_skip; [done|]. intros k.
  pose proof (quoted_names_no_bracket _ Hnames) as Hbody.
  assert (∃ rest, join "," (quoted <$> n :: names) = String "'" rest)
    as [rest Hrest].
  { rewrite fmap_cons. unfold quoted at 1.
    destruct names as [|n2 names]; cbn [fmap list_fmap join];
      rewrite ?append_assoc, append_cons, append_nil_l; by eexists. }
  rewrite Hrest in *. rewrite !append_cons, !append_nil_l.
  rewrite find_from_eq. cbn [String.prefix].
  destruct (ascii_dec "[" "["); [|done].
  destruct (ascii_dec "]" "'"); [done|].
  apply find_from_no_first.
  cbn [Py.chars] in *. rewrite chars_app.
  apply not_elem_of_cons in Hbody as [_ Hbody].
  rewrite not_elem_of_cons, not_elem_of_app. split; [done|]. split; [done|].
  cbn. rewrite !not_elem_of_cons. repeat split; try done. apply not_elem_of_nil.
Qed.

Ltac str_eq :=
  apply chars_inj; unfold Py.newline; rewrite !chars_app; cbn [Py.chars];
  rewrite <- ?app_assoc; cbn [app]; reflexivity.

Lemma registerLine_step head names name :
  str_in "__all__" head = true →
  ("["%char ∉ Py.chars head) →
  Forall (fun n => "["%char ∉ Py.chars n) names →
  registerLine name (registryLine head names) = registryLine head (names ++ [name]).
Proof.
  intros Hall Hhead Hnames. unfold registerLine.
  assert (Hfound : negb (Py.find (registryLine head names) "__all__" =? -1) = true).
  { apply negb_true_iff, Z.eqb_neq. unfold registryLine, Py.find.
    apply find_from_app_l; [lia|].
    by apply negb_true_iff, Z.eqb_neq in Hall. }
  rewrite Hfound.
  assert (Hcut : but_last_two (registryLine head names)
                 = head +:+ "[" +:+ join "," (quoted <$> names)).
  { unfold registryLine.
    replace (head +:+ "[" +:+ join "," (quoted <$> names) +:+ "]" +:+ Py.newline)
      with ((head +:+ "[" +:+ join "," (quoted <$> names))
              +:+ String "]" (String "010" ""))
      by (by rewrite !append_assoc).
    apply but_last_two_app. }
  rewrite Hcut. destruct names as [|n names].
  - assert (negb (Py.find (registryLine head []) "[]" =? -1) = true) as ->.
    { apply negb_true_iff, Z.eqb_neq. unfold registryLine, Py.find.
      cbn [fmap list_fmap join]. rewrite append_nil_l.
      change ("[" +:+ "]" +:+ Py.newline) with ("[]" +:+ Py.newline).
      apply find_from_here. lia. }
    unfold registryLine, quoted. cbn [fmap list_fmap join app]. str_eq.
  - assert (negb (Py.find (registryLine head (n :: names)) "[]" =? -1) = false)
      as ->.
    { apply negb_false_iff, Z.eqb_eq. by apply registryLine_no_empty_list. }
    unfold registryLine. rewrite fmap_app.
    change (quoted <$> [name]) with [quoted name].
    rewrite join_snoc by (by rewrite fmap_cons).
    unfold quoted at 3. str_eq.
Qed.

(** X15.  Entering a package in the library adds its name, quoted, at the
    end of the list of the line that holds [__all__] and leaves the other
    lines of [__init__.py] as they are: the list stays a well-formed one,
    with the names in the order in which the packages were entered, and a
    comma before every name but the first. *)
Theorem registerPackage_appends lib name fs before head names after :
  fs !! (lib +:+ "__init__.py")
    = Some (Py.concat (before ++ registryLine head names :: after)) →
  file_lines (before ++ registryLine head names :: after) →
  Forall (fun line => str_in "__all__" line = false) (before ++ after) →
  str_in "__all__" head = true →
  ("["%char ∉ Py.chars head) →
  Forall (fun n => "["%char ∉ Py.chars n) names →
  ∃ fs',
    registerPackage lib name fs = Ok fs' ∧
    fs' !! (lib +:+ "__init__.py")
      = Some (Py.concat (before ++ registryLine head (names ++ [name]) :: after)) ∧
    ∀ p, p ≠ lib +:+ "__init__.py" → p ≠ (lib +:+ "__init__.py") +:+ ".bak" →
         fs' !! p = fs !! p.
Proof.
  intros Hfs Hlines Hother Hall Hhead Hnames.
  unfold registerPackage. cbv zeta. rewrite Hfs.
  eexists. split; [reflexivity|].
  assert (Hkeep : ∀ l, Forall (fun line => str_in "__all__" line = false) l →
                       registerLine name <$> l = l).
  { induction 1 as [|line l Hline _ IH]; [done|]. rewrite fmap_cons, IH.
    f_equal. unfold registerLine. unfold str_in in Hline. by rewrite Hline. }
  apply Forall_app in Hother as [Hbefore Hafter]. split.
  - rewrite lookup_delete_ne by (by apply append_ne).
    rewrite lookup_insert_eq, readlines_concat by done.
    rewrite fmap_app, fmap_cons, !Hkeep by done.
    by rewrite registerLine_step.
  - intros p Hp Hbak. by rewrite lookup_delete_ne, lookup_insert_ne.
Qed.

Lemma registerPackage_appends_witness :
  ∃ fs',
    registerPackage "morlib/" "reduced_arm"
      {[ "morlib/__init__.py" :=
           "# packages" +:+ Py.newline +:+ "__all__=['reduced_leg']"
             +:+ Py.newline ]} = Ok fs' ∧
    fs' !! "morlib/__init__.py"
      = Some ("# packages" +:+ Py.newline
                +:+ "__all__=['reduced_leg','reduced_arm']" +:+ Py.newline).
Proof.
  destruct (registerPackage_appends "morlib/" "reduced_arm"
              {[ "morlib/__init__.py" :=
                   "# packages" +:+ Py.newline +:+ "__all__=['reduced_leg']"
                     +:+ Py.newline ]}
              ["# packages" +:+ Py.newline] "__all__=" ["reduced_leg"] [])
    as (fs' & Hcall & Hfile & _).
  - reflexivity.
  - split; [exists "# packages" | left; exists "__all__=['reduced_leg']"];
      (split; [apply (bool_decide_unpack _); by vm_compute | reflexivity]).
  - repeat constructor.
  - reflexivity.
  - apply (bool_decide_unpack _). by vm_compute.
  - repeat constructor. apply (bool_decide_unpack _). by vm_compute.
  - exists fs'. split; [exact Hcall|]. exact Hfile.
Defined.

(** X16.  For a text [head] that contains [__all__] and has no ['['], and
    package names that have no ['[']: starting from the empty list [[]],
    the packages entered one after the other are listed in this order.  A
    line that ends the file without a newline is cut two characters short
    all the same, so that an empty list at the very end of the file loses its
    opening bracket. *)
Theorem registerLine_lists head names :
  str_in "__all__" head = true →
  ("["%char ∉ Py.chars head) →
  Forall (fun n => "["%char ∉ Py.chars n) names →
  foldl (fun line name => registerLine name line)
        (head +:+ "[]" +:+ Py.newline) names
  = registryLine head names ∧
  ∀ name, registerLine name (head +:+ "[]")
          = head +:+ "'" +:+ name +:+ "']" +:+ Py.newline.
Proof.
  intros Hall Hhead Hnames. split.
  - assert (Hgen : ∀ done,
              Forall (fun n => "["%char ∉ Py.chars n) done →
              foldl (fun line name => registerLine name line)
                    (registryLine head done) names
              = registryLine head (done ++ names)).
    { induction Hnames as [|n names Hn Hnames IH]; intros past Hpast.
      - by rewrite app_nil_r.
      - cbn [foldl]. rewrite registerLine_step by done.
        rewrite IH by (apply Forall_app; split; [done | by constructor]).
        by rewrite <- app_assoc. }
    apply (Hgen [] (Forall_nil_2 _)).
  - intros name. unfold registerLine.
    assert (Hfound : ∀ sub, str_in sub head = true →
                            negb (Py.find (head +:+ "[]") sub =? -1) = true).
    { intros sub Hsub. apply negb_true_iff, Z.eqb_neq. unfold Py.find.
      apply find_from_app_l; [lia|]. by apply negb_true_iff, Z.eqb_neq in Hsub. }
    rewrite (Hfound _ Hall).
    assert (negb (Py.find (head +:+ "[]") "[]" =? -1) = true) as ->.
    { apply negb_true_iff, Z.eqb_neq. unfold Py.find.
      rewrite <- (append_nil_r "[]") at 2. apply find_from_here. lia. }
    by rewrite but_last_two_app.
Qed.

Lemma registerLine_lists_witness :
  foldl (fun line name => registerLine name line)
        ("__all__=" +:+ "[]" +:+ Py.newline) ["reduced_leg"; "reduced_arm"]
  = "__all__=['reduced_leg','reduced_arm']" +:+ Py.newline ∧
  registerLine "reduced_leg" "__all__=[]" = "__all__='reduced_leg']" +:+ Py.newline.
Proof.
  destruct (registerLine_lists "__all__=" ["reduced_leg"; "reduced_arm"])
    as [Hlist Hcut].
  - reflexivity.
  - apply (bool_decide_unpack _). by vm_compute.
  - repeat constructor; apply (bool_decide_unpack _); by vm_compute.
  - split; [exact Hlist | exact (Hcut "reduced_leg")].
Defined.

(** ** The number of modes from [phase3] to [phase4] *)

Lemma store_nbrOfModes_again self n :
  store_nbrOfModes (store_nbrOfModes self n) n = store_nbrOfModes self n.
Proof. reflexivity. Qed.

Lemma modes_file_seen self (fs fs' : gmap string string) :
  fs' !! modesPath self = fs !! modesPath self →
  bool_decide (is_Some (fs' !! (dataDir (packageBuilder self)
                                  +:+ modesFileName (reductionParam self))))
  = bool_decide (is_Some (fs !! (dataDir (packageBuilder self)
                                   +:+ modesFileName (reductionParam self)))) ∧
  checkNodeNbr (packageBuilder self) fs' (modesFileName (reductionParam self))
  = checkNodeNbr (packageBuilder self) fs (modesFileName (reductionParam self)).
Proof.
  unfold modesPath, checkNodeNbr. intros ->. done.
Qed.

Ltac plain_Z a :=
  lazymatch a with
  | context [Z.eqb] => fail
  | context [Z.leb] => fail
  | context [Z.ltb] => fail
  | context [negb] => fail
  | _ => idtac
  end.

Ltac case_atoms :=
  repeat (match goal with
          | |- context [Z.eqb ?a ?b] => plain_Z a; destruct (Z.eqb_spec a b)
          | |- context [Z.leb ?a ?b] => plain_Z a; plain_Z b; destruct (Z.leb_spec a b)
          | |- context [Z.ltb ?a ?b] => plain_Z a; plain_Z b; destruct (Z.ltb_spec a b)
          end; cbn [negb orb andb]; try lia).

(** X17.  [performReduction] gives [phase3] and [phase4] the same request
    for the number of modes.  Once [phase3] has settled the number for a
    request, [phase4] settles the same number for that request and changes
    nothing more, as long as the modes file is what it was.  But a number
    given to [phase3] alone is not kept: when nothing was stored before,
    [phase4] without a request takes all the modes that the file offers. *)
Theorem nbrOfModes_phase3_then_phase4 self fs fs' phases req self1 phases1 n :
  phase3_nbrOfModes self fs phases req = Ok (self1, phases1, n) →
  fs' !! modesPath self = fs !! modesPath self →
  phase4_nbrOfModes self1 fs' req = Ok (self1, n) ∧
  (nbrOfModes (reductionParam self) = -1 → req = Some n →
   ∃ available,
     checkNodeNbr (packageBuilder self) fs (modesFileName (reductionParam self))
       = Ok available ∧
     n ≤ available ∧
     phase4_nbrOfModes self1 fs' None
       = Ok (store_nbrOfModes self available, available)).
Proof.
  intros H3 Hfs. destruct (modes_file_seen self fs fs' Hfs) as [Hsome Hcheck].
  revert H3. unfold phase3_nbrOfModes.
  destruct (negb (bool_decide _)) eqn:Hfile; [done|].
  destruct (checkNodeNbr _ fs _) as [available|] eqn:Hav; [|done].
  cbn [mbind result_bind]. intros H3.
  assert (Hsame : ∀ s, s = self ∨ s = store_nbrOfModes self available →
            ∀ r, phase4_nbrOfModes s fs' r
                 = (let local := if int_truthy r then default 0 r
                                 else nbrOfModes (reductionParam s) in
                    let '(s', local) :=
                      if local =? -1
                      then (store_nbrOfModes s available, available)
                      else (s, local) in
                    if (local <=? 0) || (available <? local)
                    then Raise ValueError else Ok (s', local))).
  { intros s Hs r. unfold phase4_nbrOfModes.
    assert (packageBuilder s = packageBuilder self ∧
            modesFileName (reductionParam s) = modesFileName (reductionParam self))
      as [-> ->] by (by destruct Hs as [->| ->]).
    by rewrite Hsome, Hfile, Hcheck. }
  assert (Hnone : default 0 (None : option Z) = 0) by done.
  pose proof (Hsame self (or_introl eq_refl)) as Hself.
  pose proof (Hsame (store_nbrOfModes self available) (or_intror eq_refl))
    as Hstore.
  split.
  - revert H3. destruct req as [m|]; unfold int_truthy;
      rewrite ?default_some, ?Hnone; case_atoms; try done;
      intros [= <- <- <-];
      rewrite ?Hself, ?Hstore; cbv zeta;
      unfold int_truthy, store_nbrOfModes;
      cbn [reductionParam set_reductionParam nbrOfModes set_nbrOfModes];
      rewrite ?default_some, ?Hnone; case_atoms; done.
  - intros Hstored ->. exists available. split; [done|].
    revert H3. unfold int_truthy. rewrite default_some, Hstored.
    case_atoms; try done; intros [= <- <-]; (split; [lia|]);
      rewrite ?Hself, ?Hstore; cbv zeta;
      unfold int_truthy, store_nbrOfModes;
      cbn [reductionParam set_reductionParam nbrOfModes set_nbrOfModes];
      rewrite ?Hnone, ?Hstored; case_atoms; done.
Qed.

Lemma nbrOfModes_phase3_then_phase4_witness :
  phase4_nbrOfModes docModel docModesFs (Some 20) = Ok (docModel, 20) ∧
  ∃ available,
    checkNodeNbr (packageBuilder docModel) docModesFs
      (modesFileName (reductionParam docModel)) = Ok available ∧
    20 ≤ available ∧
    phase4_nbrOfModes docModel docModesFs None
      = Ok (store_nbrOfModes docModel available, available).
Proof.
  destruct (nbrOfModes_phase3_then_phase4 docModel docModesFs docModesFs None
              (Some 20) docModel (selected docModel None) 20)
    as [Hsame Hlost].
  - vm_compute. reflexivity.
  - reflexivity.
  - split; [exact Hsame|]. apply Hlost; reflexivity.
Defined.

(** ** How the constructor of [ReduceModel] fails *)

(** X18.  The constructor of [ReduceModel] raises [IndexError] for an empty
    list of actuators, which the table of the phases cannot be built for.
    With actuators that all have for the iteration budget an integer value
    that a double holds exactly, it raises [PackageExistsError] when the
    package is to be added to the library and is there already, whatever the
    first actuator is; otherwise it raises [KeyError] when the first
    actuator lacks [rangeOfAction] or [incr], although [setNbIteration]
    accepts such an actuator, and [ZeroDivisionError] when its [incr] is the
    integer zero. *)
Theorem ReduceModel_init_errors
    (normpath : string → string) (isdir : string → bool) (lib : string)
    scene node objs ts tolModes tolGIE out name addToLib verbose rigid cpu toSave :
  Forall2 iterates objs ts →
  (objs = [] →
   ReduceModel_init normpath isdir lib scene node objs tolModes tolGIE out
     name addToLib verbose rigid cpu toSave = Raise IndexError) ∧
  (∀ first others, objs = first :: others →
     (∀ n, name = Some n → n ≠ "" → addToLib = true →
           isdir (lib +:+ "reduced_" +:+ n) = true →
           ReduceModel_init normpath isdir lib scene node objs tolModes tolGIE
             out name addToLib verbose rigid cpu toSave
           = Raise PackageExistsError) ∧
     ((addToLib = true → ∀ n, name = Some n →
                              isdir (lib +:+ "reduced_" +:+ n) = false) →
      (params first !! "rangeOfAction" = None ∨ params first !! "incr" = None →
       ReduceModel_init normpath isdir lib scene node objs tolModes tolGIE out
         name addToLib verbose rigid cpu toSave = Raise KeyError) ∧
      (is_Some (params first !! "rangeOfAction") →
       params first !! "incr" = Some (Py.PyInt 0) →
       ReduceModel_init normpath isdir lib scene node objs tolModes tolGIE out
         name addToLib verbose rigid cpu toSave = Raise ZeroDivisionError))).
Proof.
  intros Hts. split; [by intros ->|].
  intros first others ->. unfold ReduceModel_init.
  rewrite (ReductionAnimations_init_ok (first :: others) ts ltac:(done) Hts).
  cbn [mbind result_bind]. split.
  - intros n -> Hn -> Hdir. unfold PackageBuilder_init.
    rewrite bool_decide_eq_false_2 by done. by rewrite Hdir.
  - intros Hfree.
    destruct (PackageBuilder_init_free isdir lib (normpath out) name addToLib Hfree)
      as (pb & -> & Hdata & _).
    destruct (dataFolder_of_outputDir tolModes tolGIE rigid (normpath out))
      as (rp & Hrp & _).
    cbn [mbind result_bind]. rewrite Hdata, Hrp. cbn [mbind result_bind].
    rewrite !getitem_0. cbn [mbind result_bind].
    unfold Py.dict_get. split.
    + intros [Hr|Hi].
      * by rewrite Hr.
      * destruct (params first !! "rangeOfAction"); [|done].
        cbn [mbind result_bind]. by rewrite Hi.
    + intros [r Hr] Hi. rewrite Hr, Hi. cbn [mbind result_bind].
      unfold setNbTrainingSet. by rewrite classic_div_by_zero.
Qed.

Lemma ReduceModel_init_errors_witness :
  ReduceModel_init id (fun _ => true) "morlib/" "scene.py" "body/finger"
    [docActuator] (1 # 1000) (5 # 100) "out" (Some "myReducedModel") true
    false None 4 None = Raise PackageExistsError ∧
  ReduceModel_init id (fun _ => false) "morlib/" "scene.py" "body/finger"
    [plainActuator; docActuator] (1 # 1000) (5 # 100) "out"
    (Some "myReducedModel") false false None 4 None = Raise KeyError ∧
  ReduceModel_init id (fun _ => false) "morlib/" "scene.py" "body/finger"
    [stillActuator] (1 # 1000) (5 # 100) "out"
    (Some "myReducedModel") false false None 4 None = Raise ZeroDivisionError.
Proof.
  split; [|split].
  - apply (proj1 (proj2 (ReduceModel_init_errors id (fun _ => true) "morlib/"
                    "scene.py" "body/finger" [docActuator] [89] (1 # 1000)
                    (5 # 100) "out" (Some "myReducedModel") true false None 4
                    None ltac:(repeat constructor; vm_compute; reflexivity))
                    docActuator [] eq_refl) "myReducedModel"); done.
  - refine (proj1 (proj2 (proj2 (ReduceModel_init_errors id (fun _ => false)
              "morlib/" "scene.py" "body/finger" [plainActuator; docActuator]
              [0; 89] (1 # 1000) (5 # 100) "out" (Some "myReducedModel") false
              false None 4 None
              ltac:(repeat constructor; vm_compute; reflexivity))
              plainActuator [docActuator] eq_refl) _) _).
    + intros [=].
    + by left.
  - refine (proj2 (proj2 (proj2 (ReduceModel_init_errors id (fun _ => false)
              "morlib/" "scene.py" "body/finger" [stillActuator]
              [0] (1 # 1000) (5 # 100) "out" (Some "myReducedModel") false
              false None 4 None
              ltac:(repeat constructor; vm_compute; reflexivity))
              stillActuator [] eq_refl) _) _ _).
    + intros [=].
    + by eexists.
    + reflexivity.
Defined.
